(** * Fiscal-period resolution of SEC EDGAR company facts

    A shallow embedding of [step2.py] ([extract_metric],
    [display_net_income]) and of the tabulation part of [step3.py]
    ([combine_metrics], [display_summary]), with the properties of the
    specification stated over it.

    Conventions of the embedding.
    - A filing is the JSON object of the SEC API.  Each key the code reads
      is an optional field: [None] stands for an absent key, so that
      [filing['k']] on [None] is Python's [KeyError].
    - Exceptions are values of [exn]; a computation that may raise lives in
      the error monad [result].
    - The value of a filing is the number of the JSON document, a rational.
      [display_net_income] computes on it as Python does, with ints and
      binary64 floats.  The cells of the [pandas] frames hold the values
      themselves, which is what [pandas] does for values a float64 holds
      exactly ([exact_in_float64]).
    - [datetime.strptime(_, '%Y-%m-%d')] and the [datetime] arithmetic used
      by the code are modelled in [Module Datetime], on ASCII strings. *)

From Stdlib Require Import ZArith QArith Qabs Qpower String Ascii List Lia Lqa.
From stdpp Require Import gmap strings list sorting pretty.

Local Open Scope Z_scope.

(** ** Exceptions and the error monad *)

Inductive exn : Type :=
  | KeyError (key : string)      (* [d[key]] on a dict without [key] *)
  | ValueError (msg : string)    (* [strptime]: the rejected text; [max]: its message *)
  | IndexError                   (* [l[0]] on an empty list *)
  | OverflowError                (* an int or a quotient too large for a float *)
  | ZeroDivisionError.           (* a division by zero *)

Inductive result (A : Type) : Type :=
  | Ok (a : A)
  | Raise (e : exn).
Arguments Ok {A} a.
Arguments Raise {A} e.

Definition result_bind {A B} (f : A -> result B) (m : result A) : result B :=
  match m with
  | Ok a => f a
  | Raise e => Raise e
  end.

#[global] Instance result_mbind : MBind result := @result_bind.
#[global] Instance result_mret : MRet result := @Ok.

(** [d[key]]: the value under [key], or [KeyError key]. *)
Definition getitem {A} (key : string) (o : option A) : result A :=
  match o with
  | Some a => Ok a
  | None => Raise (KeyError key)
  end.

(** ** Dates: [datetime.strptime(s, '%Y-%m-%d')], [.year], [(e - s).days] *)

Module Datetime.

Record datetime : Type := mk_datetime { year : Z; month : Z; day : Z }.

Definition is_leap (y : Z) : bool :=
  (y mod 4 =? 0) && (negb (y mod 100 =? 0) || (y mod 400 =? 0)).

Definition days_in_month (y m : Z) : Z :=
  if m =? 2 then (if is_leap y then 29 else 28)
  else if (m =? 4) || (m =? 6) || (m =? 9) || (m =? 11) then 30
  else 31.

(** Number of days before January 1st of year [y]. *)
Definition days_before_year (y : Z) : Z :=
  let y' := y - 1 in y' * 365 + y' / 4 - y' / 100 + y' / 400.

(** Number of days in year [y] before the first of month [m]. *)
Definition days_before_month (y m : Z) : Z :=
  nth (Z.to_nat m) [-1; 0; 31; 59; 90; 120; 151; 181; 212; 243; 273; 304; 334] 0
  + (if (2 <? m) && is_leap y then 1 else 0).

(** Proleptic Gregorian ordinal, January 1st of year 1 being day 1. *)
Definition toordinal (d : datetime) : Z :=
  days_before_year (year d) + days_before_month (year d) (month d) + day d.

(** [(e - s).days] for two midnights. *)
Definition days_between (s e : datetime) : Z := toordinal e - toordinal s.

Definition digit (c : ascii) : option Z :=
  let n := Z.of_N (N_of_ascii c) in
  if (48 <=? n) && (n <=? 57) then Some (n - 48) else None.

(** A regular-expression alternative consumes a prefix of the input and
    yields the number read and the rest. *)
Definition matcher : Type := list ascii -> option (Z * list ascii).

(** Two characters [a b] with [a] accepted by [pa] and [b] by [pb]. *)
Definition two (pa pb : Z -> bool) : matcher := fun l =>
  match l with
  | a :: b :: r =>
      match digit a, digit b with
      | Some x, Some y => if pa x && pb y then Some (10 * x + y, r) else None
      | _, _ => None
      end
  | _ => None
  end.

(** One digit accepted by [p]. *)
Definition one (p : Z -> bool) : matcher := fun l =>
  match l with
  | a :: r =>
      match digit a with
      | Some x => if p x then Some (x, r) else None
      | None => None
      end
  | _ => None
  end.

(** A space followed by one digit accepted by [p]. *)
Definition space_one (p : Z -> bool) : matcher := fun l =>
  match l with
  | " "%char :: r => one p r
  | _ => None
  end.

Definition between (lo hi x : Z) : bool := (lo <=? x) && (x <=? hi).

(** [%Y] is [\d\d\d\d]. *)
Definition year_re : matcher := fun l =>
  match l with
  | a :: b :: c :: d :: r =>
      match digit a, digit b, digit c, digit d with
      | Some x, Some y, Some z, Some w =>
          Some (1000 * x + 100 * y + 10 * z + w, r)
      | _, _, _, _ => None
      end
  | _ => None
  end.

(** [%m] is [1[0-2]|0[1-9]|[1-9]], alternatives in this order. *)
Definition month_re : list matcher :=
  [ two (Z.eqb 1) (between 0 2); two (Z.eqb 0) (between 1 9); one (between 1 9) ].

(** [%d] is [3[01]|[12]\d|0[1-9]|[1-9]| [1-9]], alternatives in this order. *)
Definition day_re : list matcher :=
  [ two (Z.eqb 3) (between 0 1); two (between 1 2) (between 0 9);
    two (Z.eqb 0) (between 1 9); one (between 1 9); space_one (between 1 9) ].

Definition dash : list ascii -> option (list ascii) := fun l =>
  match l with
  | "-"%char :: r => Some r
  | _ => None
  end.

(** All the ways an alternation matches a prefix, in backtracking order. *)
Definition alternatives (alts : list matcher) (l : list ascii)
  : list (Z * list ascii) :=
  omap (fun m => m l) alts.

(** The first match of [%Y-%m-%d] at the start of [l], in the order a
    backtracking matcher finds it: the fields read and the unconverted
    remainder. *)
Definition re_match (l : list ascii) : option (Z * Z * Z * list ascii) :=
  match year_re l with
  | Some (y, r1) =>
      match dash r1 with
      | Some r2 =>
          head
            (mo ← alternatives month_re r2;
             match dash mo.2 with
             | Some r3 =>
                 da ← alternatives day_re r3;
                 [(y, mo.1, da.1, da.2)]
             | None => []
             end)
      | None => None
      end
  | None => None
  end.

(** [datetime.strptime(s, '%Y-%m-%d')]: [ValueError] when the format does
    not match, when data is left unconverted, or when the fields are not
    a date of the calendar (years start at 1). *)
Definition strptime (s : string) : result datetime :=
  match re_match (list_ascii_of_string s) with
  | Some (y, m, d, []) =>
      if (1 <=? y) && (d <=? days_in_month y m)
      then Ok (mk_datetime y m d)
      else Raise (ValueError s)
  | _ => Raise (ValueError s)
  end.

End Datetime.

(** ** Stable sorting

    [list.sort] and [sorted] are stable: elements that compare equal keep
    their order.  Insertion from the right, where an element goes in front
    of the first element it does not exceed, is stable too, and a stable
    sort has one possible result. *)

Section StableSort.
Context {A : Type} (leb : A -> A -> bool).

Fixpoint stable_insert (x : A) (l : list A) : list A :=
  match l with
  | [] => [x]
  | y :: l' => if leb x y then x :: y :: l' else y :: stable_insert x l'
  end.

Fixpoint stable_sort (l : list A) : list A :=
  match l with
  | [] => []
  | x :: l' => stable_insert x (stable_sort l')
  end.
End StableSort.

(** ** The data of the SEC API *)

(** One reported observation ([fy], [fp], [form], [start], [end], [filed],
    [val] of the JSON object). *)
Record Filing : Type := mk_filing {
  form : option string;
  fp : option string;
  fy : option Z;
  start : option string;
  end_ : option string;
  filed : option string;
  val : option Q
}.

(** [data['facts'][taxonomy][concept]['units'][unit]] is a list of filings. *)
Record Concept : Type := mk_concept {
  units : option (gmap string (list Filing))
}.

Record Data : Type := mk_data {
  facts : option (gmap string (gmap string Concept))
}.

(** ** [extract_metric] *)

(** [data['facts']['us-gaap'][metric_name]['units']['USD']] *)
Definition lookup_filings (data : Data) (metric_name : string)
  : result (list Filing) :=
  f ← getitem "facts" (facts data);
  g ← getitem "us-gaap" (f !! "us-gaap");
  c ← getitem metric_name (g !! metric_name);
  u ← getitem "units" (units c);
  getitem "USD" (u !! "USD").

(** [f.get('form') == '10-K' and f.get('fp') == 'FY'] *)
Definition is_annual (f : Filing) : Prop :=
  form f = Some "10-K"%string /\ fp f = Some "FY"%string.

#[global] Instance is_annual_dec f : Decision (is_annual f).
Proof. unfold is_annual. apply _. Defined.

(** [annual = [f for f in filings if ...]] *)
Definition annual_of (filings : list Filing) : list Filing :=
  filter is_annual filings.

(** [by_year[filing['fy']].append(filing)] on a [defaultdict(list)]. *)
Definition by_year_append (by_year : gmap Z (list Filing)) (filing : Filing)
  : result (gmap Z (list Filing)) :=
  y ← getitem "fy" (fy filing);
  Ok (<[y := default [] (by_year !! y) ++ [filing]]> by_year).

(** The loop [for filing in annual: by_year[filing['fy']].append(filing)]. *)
Fixpoint group_by_year (by_year : gmap Z (list Filing)) (annual : list Filing)
  : result (gmap Z (list Filing)) :=
  match annual with
  | [] => Ok by_year
  | filing :: rest =>
      by_year' ← by_year_append by_year filing;
      group_by_year by_year' rest
  end.

(** [sorted(by_year.keys())].  The keys of a dict are distinct, so the
    order in which they are handed to the sort does not matter. *)
Definition sorted_keys (by_year : gmap Z (list Filing)) : list Z :=
  merge_sort Z.le (elements (dom by_year)).

(** The sort key [(x[1], x[2])] of a candidate [(filing, score, -days)],
    compared as Python compares tuples. *)
Definition key_leb (a b : Z * Z) : bool :=
  (a.1 <? b.1) || ((a.1 =? b.1) && (a.2 <=? b.2)).

Definition candidate : Type := Filing * Z * Z.

Definition sort_key (c : candidate) : Z * Z := (c.1.2, c.2).

(** [candidates.sort(key=lambda x: (x[1], x[2]))] *)
Definition sort_by_key (l : list candidate) : list candidate :=
  stable_sort (fun c d => key_leb (sort_key c) (sort_key d)) l.

(** The body of [for filing in by_year[year]] in the duration branch: the
    candidate made from [filing], if it passes the test. *)
Definition candidate_of (year : Z) (filing : Filing) : result (option candidate) :=
  s ← getitem "start" (start filing);
  start_d ← Datetime.strptime s;
  e ← getitem "end" (end_ filing);
  end_d ← Datetime.strptime e;
  let days := Datetime.days_between start_d end_d in
  if (350 <=? days)
     && (year - 1 <=? Datetime.year start_d)
     && (year - 1 <=? Datetime.year end_d)
  then
    let score := Z.abs (Datetime.year end_d - year) in
    Ok (Some (filing, score, - days))
  else Ok None.

Fixpoint collect_candidates (year : Z) (group : list Filing)
  : result (list candidate) :=
  match group with
  | [] => Ok []
  | filing :: rest =>
      c ← candidate_of year filing;
      cs ← collect_candidates year rest;
      Ok (option_list c ++ cs)
  end.

(** [max(group, key=lambda x: x['filed'])]: the key of every item is read;
    an item replaces the current maximum only when its key is strictly
    greater, strings being compared character by character. *)
Fixpoint max_loop (maxitem : Filing) (maxval : string) (rest : list Filing)
  : result Filing :=
  match rest with
  | [] => Ok maxitem
  | item :: rest' =>
      v ← getitem "filed" (filed item);
      if String.ltb maxval v then max_loop item v rest'
      else max_loop maxitem maxval rest'
  end.

Definition max_by_filed (group : list Filing) : result Filing :=
  match group with
  | [] => Raise (ValueError "max() arg is an empty sequence")
  | item :: rest =>
      v ← getitem "filed" (filed item);
      max_loop item v rest
  end.

(** ['start' in by_year[year][0]] *)
Definition has_start_date (group : list Filing) : result bool :=
  match group with
  | [] => Raise IndexError
  | first :: _ => Ok (bool_decide (is_Some (start first)))
  end.

(** The duration branch: what is appended to [results], if anything. *)
Definition resolve_duration (year : Z) (group : list Filing)
  : result (option Filing) :=
  candidates ← collect_candidates year group;
  Ok (c ← head (sort_by_key candidates); Some c.1.1).

(** The instant branch. *)
Definition resolve_instant (group : list Filing) : result (option Filing) :=
  most_recent ← max_by_filed group;
  Ok (Some most_recent).

(** One iteration of [for year in sorted(by_year.keys())]. *)
Definition resolve_year (year : Z) (group : list Filing)
  : result (option Filing) :=
  b ← has_start_date group;
  if b : bool then resolve_duration year group else resolve_instant group.

Fixpoint resolve_years (by_year : gmap Z (list Filing)) (years : list Z)
  (results : list Filing) : result (list Filing) :=
  match years with
  | [] => Ok results
  | year :: years' =>
      r ← resolve_year year (default [] (by_year !! year));
      resolve_years by_year years' (results ++ option_list r)
  end.

(** The [try] block of [extract_metric] from [annual = ...] on. *)
Definition resolve_filings (filings : list Filing) : result (list Filing) :=
  by_year ← group_by_year ∅ (annual_of filings);
  resolve_years by_year (sorted_keys by_year) [].

(** The [try] block of [extract_metric]. *)
Definition extract_metric_try (data : Data) (metric_name : string)
  : result (list Filing) :=
  filings ← lookup_filings data metric_name;
  resolve_filings filings.

(** What [extract_metric] prints. *)
Inductive line : Type :=
  | ErrorExtracting (metric_name : string) (e : exn).

(** [except (KeyError, TypeError)]: no [TypeError] arises on typed data. *)
Definition caught (e : exn) : bool :=
  match e with
  | KeyError _ => true
  | _ => false
  end.

(** The [except (KeyError, TypeError)] clause around the [try] block: the
    lines printed and the outcome, a returned list or an exception that
    escapes. *)
Definition except_clause (metric_name : string) (r : result (list Filing))
  : list line * result (list Filing) :=
  match r with
  | Ok results => ([], Ok results)
  | Raise e =>
      if caught e then ([ErrorExtracting metric_name e], Ok [])
      else ([], Raise e)
  end.

(** [extract_metric(data, metric_name)] *)
Definition extract_metric (data : Data) (metric_name : string)
  : list line * result (list Filing) :=
  except_clause metric_name (extract_metric_try data metric_name).

(** ** Python numbers

    [json.loads] reads an integer literal as an [int], of any size, and any
    other number as the nearest [float].  In a filing, a whole number
    stands for an integer literal.  The arithmetic of [display_net_income]
    follows Python: exact on ints, rounded to the nearest binary64 value on
    floats, with the exceptions Python raises. *)

(** [round(q)] for [0 <= q], halves going to the even neighbour, as the
    [.1f] conversion and the binary64 operations round. *)
Definition round_half_even (q : Q) : Z :=
  let n := Qnum q in
  let d := Z.pos (Qden q) in
  let k := n / d in
  let r := n mod d in
  if 2 * r <? d then k
  else if d <? 2 * r then k + 1
  else if Z.even k then k else k + 1.

(** A binary64 float: a NaN, an infinity, or a finite value given by its
    sign and its magnitude; a zero has a sign. *)
Inductive float : Type :=
  | FNaN
  | FInf (negative : bool)
  | FFin (negative : bool) (magnitude : Q).

(** [floor(log2(q))] for [0 < q]. *)
Definition floor_log2 (q : Q) : Z :=
  let k := Z.log2 (Qnum q) - Z.log2 (Z.pos (Qden q)) in
  if Qle_bool (2 ^ k) q then k else k - 1.

(** The magnitude nearest to [q], for [0 <= q], among the binary64
    magnitudes [m * 2^e] with [m < 2^53] and [-1074 <= e], halves going to
    the even [m].  A result of [2^1024] stands for an overflow. *)
Definition round_magnitude (q : Q) : Q :=
  if Qle_bool q 0 then 0%Q
  else
    let e := Z.max (floor_log2 q - 52) (-1074) in
    Qred (inject_Z (round_half_even (q / 2 ^ e)) * 2 ^ e).

(** The float of sign [negative] nearest to the magnitude [q]. *)
Definition round64 (negative : bool) (q : Q) : float :=
  let r := round_magnitude q in
  if Qle_bool (2 ^ 1024) r then FInf negative else FFin negative r.

(** The float nearest to [q]. *)
Definition float_of_Q (q : Q) : float :=
  round64 (negb (Qle_bool 0 q)) (Qabs q).

(** The value of a finite float of sign [s] and magnitude [m]. *)
Definition signed (s : bool) (m : Q) : Q := if s then (- m)%Q else m.

Definition fopp (x : float) : float :=
  match x with
  | FNaN => FNaN
  | FInf s => FInf (negb s)
  | FFin s m => FFin (negb s) m
  end.

Definition fabs (x : float) : float :=
  match x with
  | FNaN => FNaN
  | FInf _ => FInf false
  | FFin _ m => FFin false m
  end.

(** [x + y] on floats; a sum that is exactly zero is [+0.0], unless both
    terms are [-0.0]. *)
Definition fadd (x y : float) : float :=
  match x, y with
  | FNaN, _ | _, FNaN => FNaN
  | FInf s, FInf t => if Bool.eqb s t then FInf s else FNaN
  | FInf s, FFin _ _ => FInf s
  | FFin _ _, FInf t => FInf t
  | FFin s m, FFin t n =>
      let c := (signed s m + signed t n)%Q in
      if Qeq_bool c 0 then FFin (s && t) 0
      else round64 (negb (Qle_bool 0 c)) (Qabs c)
  end.

Definition fsub (x y : float) : float := fadd x (fopp y).

Definition fmul (x y : float) : float :=
  match x, y with
  | FNaN, _ | _, FNaN => FNaN
  | FInf s, FInf t => FInf (xorb s t)
  | FInf s, FFin t m | FFin t m, FInf s =>
      if Qeq_bool m 0 then FNaN else FInf (xorb s t)
  | FFin s m, FFin t n => round64 (xorb s t) (m * n)
  end.

(** [x / y] as the hardware has it; Python raises before dividing by a
    zero, see [py_truediv]. *)
Definition fdiv (x y : float) : float :=
  match x, y with
  | FNaN, _ | _, FNaN => FNaN
  | FInf _, FInf _ => FNaN
  | FInf s, FFin t _ => FInf (xorb s t)
  | FFin s _, FInf t => FFin (xorb s t) 0
  | FFin s m, FFin t n =>
      if Qeq_bool n 0 then (if Qeq_bool m 0 then FNaN else FInf (xorb s t))
      else round64 (xorb s t) (m / n)
  end.

Definition is_zero (x : float) : bool :=
  match x with
  | FFin _ m => Qeq_bool m 0
  | _ => false
  end.

(** A Python number. *)
Inductive pynum : Type :=
  | PyInt (n : Z)
  | PyFloat (x : float).

(** The Python number [json.loads] makes of the number [q] of the
    document. *)
Definition number_of_json (q : Q) : pynum :=
  let q' := Qred q in
  if Z.pos (Qden q') =? 1 then PyInt (Qnum q') else PyFloat (float_of_Q q).

(** The conversion of an operand to [float]: an int too large for a float
    is an [OverflowError]. *)
Definition to_float (a : pynum) : result float :=
  match a with
  | PyInt n =>
      match float_of_Q (inject_Z n) with
      | FInf _ => Raise OverflowError
      | x => Ok x
      end
  | PyFloat x => Ok x
  end.

(** [a - b] *)
Definition py_sub (a b : pynum) : result pynum :=
  match a, b with
  | PyInt m, PyInt n => Ok (PyInt (m - n))
  | _, _ => x ← to_float a; y ← to_float b; Ok (PyFloat (fsub x y))
  end.

(** [abs(a)] *)
Definition py_abs (a : pynum) : pynum :=
  match a with
  | PyInt n => PyInt (Z.abs n)
  | PyFloat x => PyFloat (fabs x)
  end.

(** [a / b]: between ints the quotient is rounded once, and a quotient too
    large for a float is an [OverflowError]; otherwise the operands are
    converted first. *)
Definition py_truediv (a b : pynum) : result float :=
  match a, b with
  | PyInt m, PyInt n =>
      if n =? 0 then Raise ZeroDivisionError
      else
        match round64 (xorb (m <? 0) (n <? 0)) (Qabs (inject_Z m / inject_Z n)) with
        | FInf _ => Raise OverflowError
        | x => Ok x
        end
  | _, _ =>
      x ← to_float a;
      y ← to_float b;
      if is_zero y then Raise ZeroDivisionError else Ok (fdiv x y)
  end.

(** [a > 0] *)
Definition py_gt0 (a : pynum) : bool :=
  match a with
  | PyInt n => 0 <? n
  | PyFloat FNaN => false
  | PyFloat (FInf s) => negb s
  | PyFloat (FFin s m) => negb s && negb (Qle_bool m 0)
  end.

(** [a and a != 0] as a condition *)
Definition py_nonzero (a : pynum) : bool :=
  match a with
  | PyInt n => negb (n =? 0)
  | PyFloat x => negb (is_zero x)
  end.

(** ** [display_net_income] *)

(** The digits of [f"{q:.1f}"] for [0 <= q]. *)
Definition format_1f (q : Q) : string :=
  let t := round_half_even (q * 10)%Q in
  (pretty (t / 10) +:+ "." +:+ pretty (t mod 10))%string.

(** [f"{growth:+.1f}%"] *)
Definition format_growth (growth : float) : string :=
  match growth with
  | FNaN => "+nan%"
  | FInf s => if s then "-inf%" else "+inf%"
  | FFin s m => (if s then "-" else "+") +:+ format_1f m +:+ "%"
  end%string.

(** [((val - prev_val) / abs(prev_val)) * 100] *)
Definition growth_pct (prev_val v : pynum) : result float :=
  d ← py_sub v prev_val;
  q ← py_truediv d (py_abs prev_val);
  hundred ← to_float (PyInt 100);
  Ok (fmul q hundred).

(** The local variable [growth] after the [if prev_val and prev_val != 0]
    statement: [None] when the [else] branch ran. *)
Definition growth_of (prev_val : option pynum) (v : pynum)
  : result (option float) :=
  match prev_val with
  | Some p => if py_nonzero p then g ← growth_pct p v; Ok (Some g) else Ok None
  | None => Ok None
  end.

(** One printed line of the table: the year, the value (printed in
    billions), the status and the growth column. *)
Record GrowthRow : Type := mk_row {
  row_year : Z;
  row_val : Q;
  row_status : string;
  row_growth : option float;
  row_growth_str : string
}.

(** The body of the loop from [val_b = val / 1e9] on, for the value [v] of
    the document: the line printed, or the exception of the arithmetic. *)
Definition print_row (prev_val : option pynum) (year : Z) (v : Q)
  : result GrowthRow :=
  let val := number_of_json v in
  val_b ← py_truediv val (PyFloat (FFin false 1000000000));
  growth ← growth_of prev_val val;
  Ok {| row_year := year;
        row_val := v;
        row_status := if py_gt0 val then "PROFIT" else "LOSS";
        row_growth := growth;
        row_growth_str := from_option format_growth "N/A"%string growth |}.

(** The loop of [display_net_income]: the rows printed so far and, when
    [filing['fy']], [filing['val']] or the arithmetic raises, the exception
    that ends it. *)
Fixpoint display_loop (prev_val : option pynum) (filings : list Filing)
  : list GrowthRow * option exn :=
  match filings with
  | [] => ([], None)
  | filing :: rest =>
      match getitem "fy" (fy filing), getitem "val" (val filing) with
      | Raise e, _ => ([], Some e)
      | Ok _, Raise e => ([], Some e)
      | Ok year, Ok v =>
          match print_row prev_val year v with
          | Raise e => ([], Some e)
          | Ok row =>
              let out := display_loop (Some (number_of_json v)) rest in
              (row :: out.1, out.2)
          end
      end
  end.

Definition display_net_income (filings : list Filing)
  : list GrowthRow * option exn :=
  display_loop None filings.

(** ** [combine_metrics] and the margins of [display_summary]

    The [pandas] frames the code builds have the key column [fiscal_year]
    and one column per metric.  A cell is a [float64]: a number, [NaN] for
    a missing value, or an infinity. *)

Inductive number : Type :=
  | NaN
  | Finite (q : Q)
  | Infinity (negative : bool).

(** [a / b] on [float64] values: no exception, division by zero gives an
    infinity or [NaN]. *)
Definition number_div (a b : number) : number :=
  match a, b with
  | NaN, _ | _, NaN => NaN
  | Finite x, Finite y =>
      if Qeq_bool y 0 then
        (if Qeq_bool x 0 then NaN else Infinity (negb (Qle_bool 0 x)))
      else Finite (x / y)
  | Finite _, Infinity _ => Finite 0
  | Infinity s, Finite y => Infinity (xorb s (negb (Qle_bool 0 y)))
  | Infinity _, Infinity _ => NaN
  end.

(** [a * 100] *)
Definition times_100 (a : number) : number :=
  match a with
  | NaN => NaN
  | Finite x => Finite (x * 100)
  | Infinity s => Infinity s
  end.

Record DataFrame : Type := mk_frame {
  columns : list string;            (* the columns after [fiscal_year] *)
  rows : list (Z * list number)     (* [fiscal_year] and the other cells *)
}.

(** A whole number of magnitude at most [2^53]: a value that a cell holds
    exactly whether its column is of integers or of float64. *)
Definition exact_in_float64 (q : Q) : Prop :=
  exists n : Z, q = inject_Z n /\ Z.abs n <= 2 ^ 53.

(** The cell of a value: the value itself ([exact_in_float64] values are
    held exactly), [NaN] for a missing one. *)
Definition cell_of_val (v : option Q) : number :=
  match v with
  | Some q => Finite q
  | None => NaN
  end.

(** [df = pd.DataFrame(results)[['fy', 'val']]; df.columns = ['fiscal_year', name]].
    Selecting a column that no record has is a [KeyError]; a value missing
    in some records only is [NaN].  The filings [extract_metric] returns
    all have a fiscal year. *)
Definition to_frame (name : string) (results : list Filing) : result DataFrame :=
  rows ← mapM (fun f => y ← getitem "fy" (fy f); Ok (y, [cell_of_val (val f)])) results;
  if forallb (fun f => bool_decide (val f = None)) results
  then Raise (KeyError "val")
  else Ok (mk_frame [name] rows).

Definition rows_of_year (y : Z) (rs : list (Z * list number)) : list (list number) :=
  snd <$> filter (fun r => r.1 = y) rs.

(** The rows of an outer join for the key [y]: the pairs of a left and a
    right row with that key, or the rows of one side padded with [NaN]. *)
Definition joined_rows (nl nr : nat) (ls rs : list (list number))
  : list (list number) :=
  match ls, rs with
  | [], _ => (fun r => replicate nl NaN ++ r) <$> rs
  | _, [] => (fun l => l ++ replicate nr NaN) <$> ls
  | _, _ => l ← ls; (fun r => l ++ r) <$> rs
  end.

(** [left.merge(right, on='fiscal_year', how='outer')]: the union of the
    keys of both frames, in ascending order. *)
Definition merge_outer (left right : DataFrame) : DataFrame :=
  let keys :=
    merge_sort Z.le
      (elements (list_to_set ((rows left).*1 ++ (rows right).*1) : gset Z)) in
  mk_frame (columns left ++ columns right)
    (y ← keys;
     (fun cells => (y, cells)) <$>
       joined_rows (length (columns left)) (length (columns right))
         (rows_of_year y (rows left)) (rows_of_year y (rows right))).

(** [df.sort_values('fiscal_year')] *)
Definition sort_values (df : DataFrame) : DataFrame :=
  mk_frame (columns df) (stable_sort (fun r s => r.1 <=? s.1) (rows df)).

(** The loop [for name, concept in metrics.items()] building [dfs]. *)
Fixpoint frames_of (data : Data) (metrics : list (string * string))
  : result (list DataFrame) :=
  match metrics with
  | [] => Ok []
  | (name, concept) :: rest =>
      results ← (extract_metric data concept).2;
      dfs ← (match results with
             | [] => Ok []
             | _ :: _ => df ← to_frame name results; Ok [df]
             end);
      dfs' ← frames_of data rest;
      Ok (dfs ++ dfs')
  end.

(** [combine_metrics(data, metrics)]; [None] is Python's [None]. *)
Definition combine_metrics (data : Data) (metrics : list (string * string))
  : result (option DataFrame) :=
  dfs ← frames_of data metrics;
  match dfs with
  | [] => Ok None
  | df0 :: rest => Ok (Some (sort_values (foldl merge_outer df0 rest)))
  end.

Definition METRICS : list (string * string) :=
  [ ("net_income", "NetIncomeLoss");
    ("revenue", "RevenueFromContractWithCustomerExcludingAssessedTax");
    ("assets", "Assets") ]%string.

(** [row[name]] for a column of the frame. *)
Definition cell (df : DataFrame) (name : string) (r : Z * list number) : number :=
  default NaN (i ← list_find (String.eqb name) (columns df); r.2 !! i.1).

(** [df.tail(5)] *)
Definition df_tail (n : nat) (df : DataFrame) : list (Z * list number) :=
  drop (length (rows df) - n) (rows df).

(** [margin = (row['net_income'] / row['revenue']) * 100] *)
Definition margin (df : DataFrame) (row : Z * list number) : number :=
  times_100 (number_div (cell df "net_income" row) (cell df "revenue" row)).

(** The [PROFIT MARGINS] block of [display_summary]: one line per row of
    [df.tail(5)], with the year and the margin; [None] when the block is
    not printed. *)
Definition display_summary_margins (df : DataFrame) : option (list (Z * number)) :=
  if bool_decide ("net_income"%string ∈ columns df)
     && bool_decide ("revenue"%string ∈ columns df)
  then Some ((fun row => (row.1, margin df row)) <$> df_tail 5 df)
  else None.

(** ** Notions used to state the properties *)

(** The annual filings of fiscal year [y], in input order. *)
Definition group_of (y : Z) (annual : list Filing) : list Filing :=
  filter (fun f => fy f = Some y) annual.

(** The fiscal years of the annual filings, ascending, each once. *)
Definition years_of (annual : list Filing) : list Z :=
  merge_sort Z.le (elements (list_to_set (omap fy annual) : gset Z)).

(** The loop over the years, reading the groups from a function. *)
Fixpoint resolve_seq (group : Z -> list Filing) (years : list Z)
  (results : list Filing) : result (list Filing) :=
  match years with
  | [] => Ok results
  | year :: years' =>
      r ← resolve_year year (group year);
      resolve_seq group years' (results ++ option_list r)
  end.

(** The reporting period of a filing: its parsed start and end dates. *)
Definition period (f : Filing) : option (Datetime.datetime * Datetime.datetime) :=
  match start f, end_ f with
  | Some s, Some e =>
      match Datetime.strptime s, Datetime.strptime e with
      | Ok start_d, Ok end_d => Some (start_d, end_d)
      | _, _ => None
      end
  | _, _ => None
  end.

(** A filing is eligible for fiscal year [year] when its period spans at
    least 350 days and starts and ends no earlier than the year before. *)
Definition eligible (year : Z) (f : Filing) : Prop :=
  exists start_d end_d,
    period f = Some (start_d, end_d)
    /\ 350 <= Datetime.days_between start_d end_d
    /\ year - 1 <= Datetime.year start_d
    /\ year - 1 <= Datetime.year end_d.

(** The score of a filing for fiscal year [year]: the distance of the year
    its period ends in, then the negated length of the period in days. *)
Definition score (year : Z) (f : Filing) : option (Z * Z) :=
  p ← period f;
  Some (Z.abs (Datetime.year p.2 - year), - Datetime.days_between p.1 p.2).

(** Lexicographic comparison of scores. *)
Definition lex_le (a b : Z * Z) : Prop :=
  a.1 < b.1 \/ (a.1 = b.1 /\ a.2 <= b.2).

(** [f] was filed before [g]: comparison of the [filed] strings, character
    by character, as [max] compares its keys. *)
Definition filed_lt (f g : Filing) : Prop :=
  exists v w, filed f = Some v /\ filed g = Some w /\ String.ltb v w = true.

(** [f] was filed no later than [g]: [g] is not filed before [f]. *)
Definition filed_le (f g : Filing) : Prop :=
  exists v w, filed f = Some v /\ filed g = Some w /\ String.ltb w v = false.

(** The test [days >= 350 and start.year >= year - 1 and end.year >= year - 1]
    on a parsed period. *)
Definition passes (year : Z) (p : Datetime.datetime * Datetime.datetime) : bool :=
  (350 <=? Datetime.days_between p.1 p.2)
  && (year - 1 <=? Datetime.year p.1)
  && (year - 1 <=? Datetime.year p.2).

(** The records of the results that carry fiscal year [y]. *)
Definition emitted (y : Z) (results : list Filing) : list Filing :=
  filter (fun f => fy f = Some y) results.

(** A filing with its start date removed. *)
Definition without_start (f : Filing) : Filing :=
  {| form := form f; fp := fp f; fy := fy f; start := None;
     end_ := end_ f; filed := filed f; val := val f |}.

(** The action of a function on a returned value. *)
Definition result_map {A B} (f : A -> B) (m : result A) : result B :=
  match m with
  | Ok a => Ok (f a)
  | Raise e => Raise e
  end.

(** A date string of the filing that [strptime] rejects. *)
Definition malformed_in (s : string) (f : Filing) : Prop :=
  (start f = Some s \/ end_ f = Some s)
  /\ Datetime.strptime s = Raise (ValueError s).

(** The value of the entry before entry [i], if there is one. *)
Definition prev_val_at (filings : list Filing) (i : nat) : option Q :=
  match i with
  | O => None
  | S j => f ← filings !! j; val f
  end.

(** The keys a duration-typed record is read by. *)
Definition has_period_keys (f : Filing) : Prop :=
  is_Some (fy f) /\ is_Some (start f) /\ is_Some (end_ f).

(** A row of the frame of one metric against the filing it comes from. *)
Definition frame_row (f : Filing) (r : Z * list number) : Prop :=
  fy f = Some r.1 /\ r.2 = [cell_of_val (val f)].

(** The fiscal years of an outer join, ascending. *)
Definition merge_keys (left right : DataFrame) : list Z :=
  merge_sort Z.le
    (elements (list_to_set ((rows left).*1 ++ (rows right).*1) : gset Z)).

(** [chosen] is what the duration rule allows for the group: only eligible
    records of the group; and, when the group has an eligible record, one
    record, whose score is least among the eligible ones, so that among
    those equally close to the fiscal year none spans more days. *)
Definition least_score_choice (year : Z) (group chosen : list Filing) : Prop :=
  (forall f, f ∈ chosen -> f ∈ group /\ eligible year f)
  /\ ((exists f', f' ∈ group /\ eligible year f') ->
      exists f k,
        chosen = [f]
        /\ score year f = Some k
        /\ forall f', f' ∈ group -> eligible year f' ->
             exists k', score year f' = Some k'
               /\ lex_le k k'
               /\ (k.1 = k'.1 -> - k'.2 <= - k.2)).

(** [chosen] is the first of the most recently filed records of the group:
    the records before it were filed strictly earlier, those after it no
    later. *)
Definition first_latest_choice (group chosen : list Filing) : Prop :=
  exists f before after,
    chosen = [f]
    /\ group = before ++ f :: after
    /\ Forall (fun a => filed_lt a f) before
    /\ Forall (fun a => filed_le a f) after.

(** The character of a decimal digit. *)
Definition digit_char (n : Z) : ascii := ascii_of_N (Z.to_N (48 + n)).

(** [d.isoformat()]: the date as [YYYY-MM-DD], zero-padded. *)
Definition isoformat (d : Datetime.datetime) : string :=
  let y := Datetime.year d in
  let m := Datetime.month d in
  let dd := Datetime.day d in
  string_of_list_ascii
    [ digit_char (y / 1000); digit_char (y / 100 mod 10);
      digit_char (y / 10 mod 10); digit_char (y mod 10); "-"%char;
      digit_char (m / 10); digit_char (m mod 10); "-"%char;
      digit_char (dd / 10); digit_char (dd mod 10) ].

(** A date of the calendar, as [datetime] accepts it. *)
Definition valid_date (d : Datetime.datetime) : Prop :=
  1 <= Datetime.year d <= 9999
  /\ 1 <= Datetime.month d <= 12
  /\ 1 <= Datetime.day d <= Datetime.days_in_month (Datetime.year d) (Datetime.month d).

(** The filing was filed on the date [d], written in ISO format. *)
Definition filed_on (f : Filing) (d : Datetime.datetime) : Prop :=
  valid_date d /\ filed f = Some (isoformat d).

(** Comparison of dates field by field. *)
Definition date_compare (d1 d2 : Datetime.datetime) : comparison :=
  match Datetime.year d1 ?= Datetime.year d2 with
  | Eq =>
      match Datetime.month d1 ?= Datetime.month d2 with
      | Eq => Datetime.day d1 ?= Datetime.day d2
      | c => c
      end
  | c => c
  end.

(** [f] is a most recently filed record of the group: no record of the
    group was filed after it, as the code compares the [filed] strings and,
    for records whose [filed] strings are ISO dates, as dates. *)
Definition latest_filed_choice (group : list Filing) (f : Filing) : Prop :=
  f ∈ group
  /\ (forall f', f' ∈ group -> filed_le f' f)
  /\ (forall f' d' d, f' ∈ group -> filed_on f' d' -> filed_on f d ->
        Datetime.toordinal d' <= Datetime.toordinal d).

(** The cell of a resolved series for fiscal year [y]: the value of its
    record for [y], [NaN] when it has none. *)
Definition series_cell (results : list Filing) (y : Z) : number :=
  match emitted y results with
  | f :: _ => cell_of_val (val f)
  | [] => NaN
  end.

(** The fiscal years of several series, ascending, each once. *)
Definition union_years (series : list (list Filing)) : list Z :=
  merge_sort Z.le (elements (list_to_set (series ≫= omap fy) : gset Z)).

(** The table of several series: one row per fiscal year of any of them,
    with the cell of each series for that year. *)
Definition table_rows (series : list (list Filing)) : list (Z * list number) :=
  (fun y => (y, (fun results => series_cell results y) <$> series))
    <$> union_years series.

(** The frame [T] tabulates the series [series] under the column names
    [names]. *)
Definition tabulates (names : list string) (series : list (list Filing))
  (T : DataFrame) : Prop :=
  columns T = names /\ length names = length series /\ rows T = table_rows series.

(** The metrics that resolve to a series with at least one record, with
    that series: the frames [combine_metrics] builds. *)
Definition entries_of (data : Data) (metrics : list (string * string))
  : list (string * list Filing) :=
  omap (fun m =>
          match (extract_metric data m.2).2 with
          | Ok (f :: l) => Some (m.1, f :: l)
          | _ => None
          end) metrics.

(** The concept resolves to a series, empty or with a value in some record:
    what [combine_metrics] needs to build its frame. *)
Definition resolves_with_values (data : Data) (concept : string) : Prop :=
  exists out results,
    extract_metric data concept = (out, Ok results)
    /\ (results = [] \/ Exists (fun f => is_Some (val f)) results).

(** ** Sample data *)

(** An annual 10-K filing of a duration metric. *)
Definition duration_filing (y : Z) (s e f : string) (v : Q) : Filing :=
  {| form := Some "10-K"%string; fp := Some "FY"%string; fy := Some y;
     start := Some s; end_ := Some e; filed := Some f; val := Some v |}.

(** An annual 10-K filing of an instant metric. *)
Definition instant_filing (y : Z) (e f : string) (v : Q) : Filing :=
  {| form := Some "10-K"%string; fp := Some "FY"%string; fy := Some y;
     start := None; end_ := Some e; filed := Some f; val := Some v |}.

(** Company facts with the given us-gaap concepts, each in USD. *)
Definition data_of (concepts : list (string * list Filing)) : Data :=
  {| facts := Some {[ "us-gaap"%string :=
       list_to_map
         ((fun c => (c.1, {| units := Some {[ "USD"%string := c.2 ]} |}))
            <$> concepts) ]} |}.

(** Three filings of total assets for fiscal year 2022, the second one a
    restatement filed in 2023. *)
Definition assets_2022 : list Filing :=
  [ instant_filing 2022 "2022-12-31" "2022-02-01" 100;
    instant_filing 2022 "2022-12-31" "2023-01-15" 120;
    instant_filing 2022 "2022-12-31" "2022-03-01" 110 ].

(** Net income: fiscal year 2019 with a 364-day and a 371-day period ending
    in 2019, fiscal year 2020 with a 200-day period only, fiscal year 2021
    with a full year and a quarter. *)
Definition net_income_filings : list Filing :=
  [ duration_filing 2019 "2018-12-30" "2019-12-29" "2020-02-10" 341;
    duration_filing 2019 "2018-12-23" "2019-12-29" "2020-02-10" 350;
    duration_filing 2020 "2020-01-01" "2020-07-19" "2021-02-10" 2490;
    duration_filing 2021 "2020-10-01" "2021-09-30" "2021-11-15" 3162;
    duration_filing 2021 "2021-01-01" "2021-03-31" "2021-11-15" 555 ].

(** Company facts with these two concepts. *)
Definition sample_data : Data :=
  data_of [ ("Assets"%string, assets_2022);
            ("NetIncomeLoss"%string, net_income_filings) ].

(** Two filings of total assets for fiscal year 2023 filed on the same day,
    after an earlier one. *)
Definition assets_2023_tie : list Filing :=
  [ instant_filing 2023 "2023-12-31" "2024-01-05" 130;
    instant_filing 2023 "2023-12-31" "2024-02-01" 140;
    instant_filing 2023 "2023-12-31" "2024-02-01" 150 ].

(** Company facts in which a concept is reported in shares only. *)
Definition shares_only_data : Data :=
  {| facts := Some {[ "us-gaap"%string :=
       {[ "CommonStockSharesOutstanding"%string :=
            {| units := Some {[ "shares"%string := [] ]} |} ]} ]} |}.

(** Net income with a fiscal year 2020 filing whose end date is not a date,
    followed by a well-formed filing for fiscal year 2021. *)
Definition malformed_filings : list Filing :=
  [ duration_filing 2020 "2020-01-01" "2020-13-45" "2021-02-10" 2490;
    duration_filing 2021 "2021-01-01" "2021-12-31" "2022-02-10" 3162 ].

(** A resolved series given by its years and values. *)
Definition series_of (entries : list (Z * Q)) : list Filing :=
  (fun e => {| form := None; fp := None; fy := Some e.1; start := None;
               end_ := None; filed := None; val := Some e.2 |}) <$> entries.

(** Net income for 2019 to 2021 and revenue for 2020 to 2022. *)
Definition margin_data : Data :=
  data_of
    [ ("NetIncomeLoss"%string,
       [ duration_filing 2019 "2019-01-01" "2019-12-31" "2020-02-10" 341;
         duration_filing 2020 "2020-01-01" "2020-12-31" "2021-02-10" 2490;
         duration_filing 2021 "2021-01-01" "2021-12-31" "2022-02-10" 3162 ]);
      ("RevenueFromContractWithCustomerExcludingAssessedTax"%string,
       [ duration_filing 2020 "2020-01-01" "2020-12-31" "2021-02-10" 9763;
         duration_filing 2021 "2021-01-01" "2021-12-31" "2022-02-10" 16434;
         duration_filing 2022 "2022-01-01" "2022-12-31" "2023-02-10" 23601 ]) ].

(** ** [fetch_company_facts]: the request (step1.py)

    The HTTP library is outside the program: [get url user_agent] stands
    for [requests.get] followed by [raise_for_status] and [json], and is
    [None] when any of them raises a [RequestException]. *)

Fixpoint zeros (n : nat) : string :=
  match n with
  | O => EmptyString
  | S n' => String "0" (zeros n')
  end.

(** [s.zfill(width)]: zeros to the left up to [width] characters, after a
    leading sign if there is one. *)
Definition zfill (width : nat) (s : string) : string :=
  if decide (width <= String.length s)%nat then s
  else
    let fill := (width - String.length s)%nat in
    match s with
    | String c rest =>
        if bool_decide (c = "+"%char \/ c = "-"%char)
        then String c (zeros fill +:+ rest)
        else zeros fill +:+ s
    | EmptyString => zeros fill
    end.

(** [f"https://data.sec.gov/api/xbrl/companyfacts/CIK{cik}.json"] after
    [cik = str(cik).zfill(10)] *)
Definition company_facts_url (cik : string) : string :=
  ("https://data.sec.gov/api/xbrl/companyfacts/CIK" +:+ zfill 10 cik +:+ ".json")%string.

(** [f'UniversityStudent {email}'] *)
Definition user_agent (email : string) : string :=
  ("UniversityStudent " +:+ email)%string.

(** [fetch_company_facts(cik, email)]: the company facts, or [None] after a
    failed request. *)
Definition fetch_company_facts (get : string -> string -> option Data)
  (cik email : string) : option Data :=
  get (company_facts_url cik) (user_agent email).

(** ** Charts (step4.py [plot_metric], [create_dashboard]; step5.py
    [create_chart_base64]) *)

Definition is_nan (x : number) : bool :=
  match x with
  | NaN => true
  | _ => false
  end.

(** [data = df[['fiscal_year', metric]].dropna()] *)
Definition chart_data (df : DataFrame) (metric : string) : list (Z * number) :=
  List.filter (fun p => negb (is_nan p.2))
    ((fun r => (r.1, cell df metric r)) <$> rows df).

(** The points [plot_metric] and [create_chart_base64] plot for a metric
    other than [fiscal_year]; [None] when they return before plotting: the
    column is missing or no row is left. *)
Definition plot_points (df : DataFrame) (metric : string)
  : option (list (Z * number)) :=
  if bool_decide (metric ∈ columns df) then
    match chart_data df metric with
    | [] => None
    | p :: ps => Some (p :: ps)
    end
  else None.

(** [create_dashboard(df, metrics, _)]: one panel per requested metric that
    is a column, with the points plotted in it (none when no row is left);
    [None] when it returns before drawing. *)
Definition create_dashboard (df : DataFrame) (metrics : list string)
  : option (list (string * list (Z * number))) :=
  match filter (fun m => m ∈ columns df) metrics with
  | [] => None
  | m :: ms => Some ((fun m => (m, chart_data df m)) <$> (m :: ms))
  end.

(** ** The report of [analyze] (step5.py) *)

(** [result.tail(n)] *)
Definition tail_frame (n : nat) (df : DataFrame) : DataFrame :=
  {| columns := columns df; rows := df_tail n df |}.

Definition is_lower (c : ascii) : bool :=
  let n := nat_of_ascii c in (97 <=? n)%nat && (n <=? 122)%nat.

Definition is_upper (c : ascii) : bool :=
  let n := nat_of_ascii c in (65 <=? n)%nat && (n <=? 90)%nat.

Definition to_upper (c : ascii) : ascii :=
  if is_lower c then ascii_of_nat (nat_of_ascii c - 32) else c.

Definition to_lower (c : ascii) : ascii :=
  if is_upper c then ascii_of_nat (nat_of_ascii c + 32) else c.

(** [s.title()] on ASCII text: a letter after a letter is lowered, any
    other letter is raised. *)
Fixpoint title_from (previous_is_cased : bool) (s : string) : string :=
  match s with
  | EmptyString => EmptyString
  | String c r =>
      if is_lower c then
        String (if previous_is_cased then c else to_upper c) (title_from true r)
      else if is_upper c then
        String (if previous_is_cased then to_lower c else c) (title_from true r)
      else String c (title_from false r)
  end.

(** [s.replace(old, new)] for single characters. *)
Fixpoint replace_char (old new : ascii) (s : string) : string :=
  match s with
  | EmptyString => EmptyString
  | String c r =>
      String (if Ascii.eqb c old then new else c) (replace_char old new r)
  end.

(** [metric.replace('_', ' ').title()] *)
Definition chart_title (metric : string) : string :=
  title_from false (replace_char "_" " " metric).

(** What [analyze] hands to the results page once the company facts are
    fetched. *)
Inductive report : Type :=
  | ReportError (error : string)
  | ReportPage (table : DataFrame) (charts : list (string * list (Z * number))).

(** One round of the loop [for metric in ['revenue', 'net_income', 'assets']]:
    the entry added to [charts], if any. *)
Definition chart_of (result : DataFrame) (metric : string)
  : option (string * list (Z * number)) :=
  if bool_decide (metric ∈ columns result)
  then points ← plot_points result metric; Some (chart_title metric, points)
  else None.

(** [analyze] from [result = combine_metrics(data, metrics_dict)] on; the
    metrics are those of [METRICS]. *)
Definition analyze_report (data : Data) : result report :=
  result ← combine_metrics data METRICS;
  match result with
  | None => Ok (ReportError "No financial data available")
  | Some df =>
      match rows df with
      | [] => Ok (ReportError "No financial data available")
      | _ :: _ =>
          let recent := tail_frame 10 df in
          Ok (ReportPage recent
                (omap (chart_of recent) ["revenue"; "net_income"; "assets"]%string))
      end
  end.

(** ** Further notions used to state properties *)

(** [f] is the first record of least score among the eligible records of
    the group: the eligible records before it score strictly more, those
    after it no less. *)
Definition first_least_choice (year : Z) (group : list Filing) (f : Filing) : Prop :=
  exists before after k,
    group = before ++ f :: after
    /\ score year f = Some k
    /\ (forall f', f' ∈ before -> eligible year f' ->
          exists k', score year f' = Some k' /\ ~ lex_le k' k)
    /\ (forall f', f' ∈ after -> eligible year f' ->
          exists k', score year f' = Some k' /\ lex_le k k').

(** The same net income filings as [net_income_filings], the fiscal years
    interleaved and a quarterly filing added. *)
Definition net_income_shuffled : list Filing :=
  [ duration_filing 2021 "2020-10-01" "2021-09-30" "2021-11-15" 3162;
    duration_filing 2019 "2018-12-30" "2019-12-29" "2020-02-10" 341;
    {| form := Some "10-Q"%string; fp := Some "Q1"%string; fy := Some 2021;
       start := Some "2021-01-01"%string; end_ := Some "2021-03-31"%string;
       filed := Some "2021-05-01"%string; val := Some 555%Q |};
    duration_filing 2020 "2020-01-01" "2020-07-19" "2021-02-10" 2490;
    duration_filing 2021 "2021-01-01" "2021-03-31" "2021-11-15" 555;
    duration_filing 2019 "2018-12-23" "2019-12-29" "2020-02-10" 350 ].

(** Two filings for fiscal year 2019 with the same period, hence the same
    score. *)
Definition net_income_tie : list Filing :=
  [ duration_filing 2019 "2019-01-01" "2019-12-31" "2020-02-10" 341;
    duration_filing 2019 "2019-01-01" "2019-12-31" "2021-02-10" 350 ].

(** What a line of the net income table shows beside the year. *)
Definition row_figures (row : GrowthRow)
  : Q * string * option float * string :=
  (row_val row, row_status row, row_growth row, row_growth_str row).

(** [net_income_filings] resolved, and the same values reported for other,
    non-consecutive fiscal years. *)
Definition net_income_results : list Filing :=
  [ duration_filing 2019 "2018-12-23" "2019-12-29" "2020-02-10" 350;
    duration_filing 2021 "2020-10-01" "2021-09-30" "2021-11-15" 3162 ].

Definition net_income_results_gap : list Filing :=
  [ duration_filing 2010 "2009-12-27" "2010-12-25" "2011-02-10" 350;
    duration_filing 2015 "2014-12-28" "2015-12-26" "2016-02-10" 3162 ].

(** The metrics of [metrics] that have records, by name. *)
Definition metrics_with_records (data : Data) (metrics : list (string * string))
  : list string :=
  omap (fun m =>
          match (extract_metric data m.2).2 with
          | Ok (_ :: _) => Some m.1
          | _ => None
          end) metrics.

(** Well-formed net income and a revenue filing whose end date is not a
    date. *)
Definition malformed_revenue_data : Data :=
  data_of
    [ ("NetIncomeLoss"%string, net_income_filings);
      ("RevenueFromContractWithCustomerExcludingAssessedTax"%string,
       malformed_filings) ].

(** The revenue series of [margin_data] and the table [combine_metrics]
    builds from [margin_data]. *)
Definition revenue_series : list Filing :=
  [ duration_filing 2020 "2020-01-01" "2020-12-31" "2021-02-10" 9763;
    duration_filing 2021 "2021-01-01" "2021-12-31" "2022-02-10" 16434;
    duration_filing 2022 "2022-01-01" "2022-12-31" "2023-02-10" 23601 ].

Definition margin_table : DataFrame :=
  mk_frame ["net_income"; "revenue"]%string
    [ (2019, [Finite 341; NaN]); (2020, [Finite 2490; Finite 9763]);
      (2021, [Finite 3162; Finite 16434]); (2022, [NaN; Finite 23601]) ].

(** A filing for the calendar year [y], filed the year after. *)
Definition annual_filing (y : Z) (v : Q) : Filing :=
  duration_filing y (pretty y +:+ "-01-01") (pretty y +:+ "-12-31")
    (pretty (y + 1) +:+ "-02-10") v.

Definition long_assets : list Filing :=
  (fun y => instant_filing y (pretty y +:+ "-12-31") (pretty (y + 1) +:+ "-02-10")
              (inject_Z (100 * (y - 2000)))) <$> seqZ 2008 2.

(** Fourteen fiscal years: net income for 2008 to 2013, revenue for 2010
    to 2021, total assets for 2008 and 2009 only. *)
Definition long_data : Data :=
  data_of
    [ ("NetIncomeLoss"%string,
       (fun y => annual_filing y (inject_Z (y - 2000))) <$> seqZ 2008 6);
      ("RevenueFromContractWithCustomerExcludingAssessedTax"%string,
       (fun y => annual_filing y (inject_Z (10 * (y - 2000)))) <$> seqZ 2010 12);
      ("Assets"%string, long_assets) ].

(** The table [combine_metrics] builds from [long_data]. *)
Definition long_table : DataFrame :=
  match combine_metrics long_data METRICS with
  | Ok (Some df) => df
  | _ => mk_frame [] []
  end.

(** A decimal digit; a string of decimal digits, as a CIK is written. *)
Definition is_digit (c : ascii) : bool :=
  let n := nat_of_ascii c in (48 <=? n)%nat && (n <=? 57)%nat.

Fixpoint digits (s : string) : bool :=
  match s with
  | EmptyString => true
  | String c r => is_digit c && digits r
  end.

(** The charts of the page [analyze] shows for [long_data]. *)
Definition long_charts : list (string * list (Z * number)) :=
  match analyze_report long_data with
  | Ok (ReportPage _ charts) => charts
  | _ => []
  end.

(** Within a fiscal year the annual records are of one kind: when the
    first has no start date, none has. *)
Definition one_kind_per_year (annual : list Filing) : Prop :=
  forall y first rest,
    group_of y annual = first :: rest ->
    start first = None -> Forall (fun f => start f = None) rest.

(** Half the distance between 1 and the next float: the relative error of
    one rounding. *)
Definition unit_roundoff : Q := 1 # 9007199254740992.

(** The growth as the specification states it, for whole values. *)
Definition exact_growth (p v : Z) : Q :=
  ((inject_Z v - inject_Z p) / Qabs (inject_Z p) * 100)%Q.

(** The bound on the relative error of the two roundings of the growth. *)
Definition growth_error : Q := 1 # 2251799813685248.

(** A record with a fiscal year and a whole value of magnitude at most
    [2^1000]: [display_net_income] prints its line without exception. *)
Definition printable (f : Filing) : Prop :=
  is_Some (fy f) /\ exists n, val f = Some (inject_Z n) /\ Z.abs n <= 2 ^ 1000.

(** Every value of the series is held exactly by a cell. *)
Definition exact_values (results : list Filing) : Prop :=
  Forall (fun f => forall v, val f = Some v -> exact_in_float64 v) results.

(** * Properties *)

(** ** Dates on examples *)

Example strptime_ok :
  Datetime.strptime "2020-10-01" = Ok (Datetime.mk_datetime 2020 10 1).
Proof. reflexivity. Qed.

Example strptime_short_fields :
  Datetime.strptime "2020-2-9" = Ok (Datetime.mk_datetime 2020 2 9).
Proof. reflexivity. Qed.

Example strptime_bad_month :
  Datetime.strptime "2020-13-01" = Raise (ValueError "2020-13-01").
Proof. reflexivity. Qed.

Example strptime_bad_day :
  Datetime.strptime "2021-02-29" = Raise (ValueError "2021-02-29").
Proof. reflexivity. Qed.

Example days_full_year :
  Datetime.days_between (Datetime.mk_datetime 2020 10 1)
                        (Datetime.mk_datetime 2021 9 30) = 364.
Proof. reflexivity. Qed.

Example days_fifty_three_weeks :
  Datetime.days_between (Datetime.mk_datetime 2018 12 23)
                        (Datetime.mk_datetime 2019 12 29) = 371.
Proof. reflexivity. Qed.

(** ** The error monad *)

Lemma bind_Ok {A B} (f : A -> result B) (m : result A) (b : B) :
  (m ≫= f) = Ok b <-> exists a, m = Ok a /\ f a = Ok b.
Proof.
  destruct m as [a|e]; simpl; split.
  - intros H. exists a. done.
  - intros (a' & [= <-] & H). done.
  - discriminate.
  - intros (a' & [=] & _).
Qed.

Lemma bind_Raise {A B} (f : A -> result B) (m : result A) (e : exn) :
  (m ≫= f) = Raise e <-> m = Raise e \/ exists a, m = Ok a /\ f a = Raise e.
Proof.
  destruct m as [a|e']; simpl; split.
  - intros H. right. exists a. done.
  - intros [[=]|(a' & [= <-] & H)]. done.
  - intros [= ->]. by left.
  - intros [[= ->]|(a' & [=] & _)]. done.
Qed.

Lemma getitem_Ok {A} key (o : option A) a : getitem key o = Ok a <-> o = Some a.
Proof. destruct o; simpl; split; congruence. Qed.

Lemma getitem_Raise {A} key (o : option A) e :
  getitem key o = Raise e <-> o = None /\ e = KeyError key.
Proof.
  destruct o; simpl; split; try congruence.
  - intros []; congruence.
  - intros [= <-]. done.
  - intros [_ ->]. done.
Qed.

(** ** Stable sorting *)

Section StableSortFacts.
Context {A : Type} (leb : A -> A -> bool).
Hypothesis leb_trans : forall a b c, leb a b = true -> leb b c = true -> leb a c = true.
Hypothesis leb_total : forall a b, leb a b = false -> leb b a = true.

Lemma stable_insert_head x l :
  head (stable_insert leb x l) =
  match head l with
  | Some y => if leb x y then Some x else Some y
  | None => Some x
  end.
Proof. destruct l as [|y l]; simpl; [done|]. by destruct (leb x y). Qed.

Lemma stable_insert_perm x l : stable_insert leb x l ≡ₚ x :: l.
Proof.
  induction l as [|y l IH]; simpl; [done|].
  destruct (leb x y); [done|]. rewrite IH. apply Permutation_swap.
Qed.

Lemma stable_sort_perm l : stable_sort leb l ≡ₚ l.
Proof.
  induction l as [|x l IH]; simpl; [done|].
  by rewrite stable_insert_perm, IH.
Qed.

Lemma stable_sort_nil_inv l : stable_sort leb l = [] -> l = [].
Proof.
  intros H. apply Permutation_nil_r. rewrite <- H. by rewrite stable_sort_perm.
Qed.

(** The head of the sorted list is the first least element. *)
Lemma stable_sort_head l h :
  head (stable_sort leb l) = Some h ->
  exists l1 l2, l = l1 ++ h :: l2
    /\ (forall a, a ∈ l1 -> leb a h = false)
    /\ (forall a, a ∈ l2 -> leb h a = true).
Proof.
  revert h. induction l as [|x l IH]; intros h; simpl; [done|].
  rewrite stable_insert_head.
  destruct (head (stable_sort leb l)) as [h'|] eqn:Hh.
  - destruct (IH h' eq_refl) as (l1 & l2 & -> & H1 & H2).
    destruct (leb x h') eqn:Hx; intros [= <-].
    + exists [], (l1 ++ h' :: l2). split; [done|]. split.
      * intros a Ha. by apply elem_of_nil in Ha.
      * intros a Ha. apply elem_of_app in Ha as [Ha|Ha].
        -- apply leb_trans with h'; [done|]. by apply leb_total, H1.
        -- apply elem_of_cons in Ha as [->|Ha]; [done|].
           apply leb_trans with h'; [done|]. by apply H2.
    + exists (x :: l1), l2. split; [done|]. split; [|done].
      intros a Ha. apply elem_of_cons in Ha as [->|Ha]; [done|]. by apply H1.
  - intros [= <-]. apply head_None in Hh. apply stable_sort_nil_inv in Hh as ->.
    exists [], []. split; [done|]. split; intros a Ha; by apply elem_of_nil in Ha.
Qed.

(** A sorted list is left as it is. *)
Lemma stable_sort_sorted l :
  StronglySorted (fun a b => leb a b = true) l -> stable_sort leb l = l.
Proof.
  induction 1 as [|x l Hs IH Hx]; simpl; [done|].
  rewrite IH. destruct l as [|y l]; simpl; [done|].
  rewrite Forall_cons in Hx. destruct Hx as [-> _]. done.
Qed.
End StableSortFacts.

Lemma key_leb_trans a b c : key_leb a b = true -> key_leb b c = true -> key_leb a c = true.
Proof. unfold key_leb. destruct a, b, c; simpl. lia. Qed.

Lemma key_leb_total a b : key_leb a b = false -> key_leb b a = true.
Proof. unfold key_leb. destruct a, b; simpl. lia. Qed.

(** ** Grouping by fiscal year *)

Lemma elem_of_group_of y l f : f ∈ group_of y l <-> fy f = Some y /\ f ∈ l.
Proof. unfold group_of. by rewrite list_elem_of_filter. Qed.

Lemma group_by_year_Ok d l d' :
  group_by_year d l = Ok d' ->
  Forall (fun f => is_Some (fy f)) l
  /\ (forall y, default [] (d' !! y) = default [] (d !! y) ++ group_of y l)
  /\ dom d' = dom d ∪ list_to_set (omap fy l).
Proof.
  revert d. induction l as [|f l IH]; intros d; simpl.
  - intros [= <-]. split; [constructor|]. split.
    + intros y. by rewrite app_nil_r.
    + simpl. by rewrite (right_id_L ∅ (∪)).
  - intros H. apply bind_Ok in H as (d1 & Hd1 & H).
    unfold by_year_append in Hd1. apply bind_Ok in Hd1 as (y0 & Hy0 & [= <-]).
    apply getitem_Ok in Hy0. apply IH in H as (Hall & Hg & Hdom).
    split; [constructor; [by rewrite Hy0|done]|]. split.
    + intros y. rewrite Hg. unfold group_of. rewrite filter_cons.
      destruct (decide (y0 = y)) as [->|Hne].
      * rewrite lookup_insert_eq. simpl. rewrite decide_True by done.
        by rewrite <- app_assoc.
      * rewrite lookup_insert_ne by done. rewrite decide_False by congruence. done.
    + rewrite Hdom, dom_insert_L. rewrite Hy0. simpl.
      rewrite (comm_L (∪) {[y0]} (dom d)). by rewrite <- (assoc_L (∪)).
Qed.

Lemma group_by_year_Raise d l e :
  group_by_year d l = Raise e ->
  e = KeyError "fy" /\ Exists (fun f => fy f = None) l.
Proof.
  revert d. induction l as [|f l IH]; intros d; simpl; [done|].
  intros H. apply bind_Raise in H as [H|(d1 & _ & H)].
  - unfold by_year_append in H. apply bind_Raise in H as [H|(y0 & _ & [=])].
    apply getitem_Raise in H as [Hf ->]. split; [done|]. by left.
  - apply IH in H as [-> H]. split; [done|]. by right.
Qed.

Lemma group_by_year_total d l :
  Forall (fun f => is_Some (fy f)) l -> exists d', group_by_year d l = Ok d'.
Proof.
  intros Hall. destruct (group_by_year d l) as [d'|e] eqn:H; [by eexists|].
  apply group_by_year_Raise in H as [_ H]. apply Exists_exists in H as (f & Hf & Hn).
  rewrite Forall_forall in Hall. apply Hall in Hf. rewrite Hn in Hf. by destruct Hf.
Qed.

(** ** The sorted fiscal years *)

Lemma StronglySorted_le_lt (l : list Z) :
  StronglySorted Z.le l -> NoDup l -> StronglySorted Z.lt l.
Proof.
  induction 1 as [|x l Hs IH Hx]; intros Hnd; [constructor|].
  apply NoDup_cons in Hnd as [Hx' Hnd]. constructor; [by apply IH|].
  rewrite Forall_forall in Hx |- *. intros y Hy.
  specialize (Hx y Hy). assert (x <> y) by (intros ->; done). lia.
Qed.

Lemma sorted_set_spec (s : gset Z) :
  StronglySorted Z.lt (merge_sort Z.le (elements s))
  /\ forall y, y ∈ merge_sort Z.le (elements s) <-> y ∈ s.
Proof.
  split.
  - apply StronglySorted_le_lt.
    + apply StronglySorted_merge_sort; apply _.
    + rewrite merge_sort_Permutation. apply NoDup_elements.
  - intros y. rewrite merge_sort_Permutation. apply elem_of_elements.
Qed.

Lemma years_of_sorted annual : StronglySorted Z.lt (years_of annual).
Proof. apply sorted_set_spec. Qed.

Lemma elem_of_years_of annual y :
  y ∈ years_of annual <-> exists f, f ∈ annual /\ fy f = Some y.
Proof.
  unfold years_of. rewrite (proj2 (sorted_set_spec _)).
  rewrite elem_of_list_to_set, list_elem_of_omap. done.
Qed.

Lemma StronglySorted_lt_NoDup (l : list Z) : StronglySorted Z.lt l -> NoDup l.
Proof.
  induction 1 as [|x l Hs IH Hx]; constructor; [|done].
  intros Hin. rewrite Forall_forall in Hx. specialize (Hx x Hin). lia.
Qed.

Lemma StronglySorted_lt_le (l : list Z) :
  StronglySorted Z.lt l -> StronglySorted Z.le l.
Proof.
  induction 1 as [|x l Hs IH Hx]; constructor; [done|].
  eapply Forall_impl; [exact Hx|]. intros y Hy; simpl in *; lia.
Qed.

(** Two strictly ascending lists with the same elements are equal. *)
Lemma StronglySorted_lt_ext (l1 l2 : list Z) :
  StronglySorted Z.lt l1 -> StronglySorted Z.lt l2 ->
  (forall y, y ∈ l1 <-> y ∈ l2) -> l1 = l2.
Proof.
  intros H1 H2 Hiff.
  apply (Sorted_unique Z.le).
  - by apply StronglySorted_Sorted, StronglySorted_lt_le.
  - by apply StronglySorted_Sorted, StronglySorted_lt_le.
  - apply NoDup_Permutation; auto using StronglySorted_lt_NoDup.
Qed.

(** ** The loop over the years *)

Lemma resolve_years_seq by_year years results :
  resolve_years by_year years results
  = resolve_seq (fun y => default [] (by_year !! y)) years results.
Proof.
  revert results. induction years as [|y ys IH]; intros results; simpl; [done|].
  destruct (resolve_year y _); simpl; [apply IH|done].
Qed.

Lemma resolve_seq_ext g g' years results :
  (forall y, y ∈ years -> g y = g' y) ->
  resolve_seq g years results = resolve_seq g' years results.
Proof.
  revert results. induction years as [|y ys IH]; intros results Hg; simpl; [done|].
  rewrite <- (Hg y) by (by left).
  destruct (resolve_year y (g y)); simpl; [|done].
  apply IH. intros z Hz. apply Hg. by right.
Qed.

(** [resolve_filings] in terms of the groups and the sorted years. *)
Lemma resolve_filings_seq filings :
  Forall (fun f => is_Some (fy f)) (annual_of filings) ->
  resolve_filings filings
  = resolve_seq (fun y => group_of y (annual_of filings))
      (years_of (annual_of filings)) [].
Proof.
  intros Hall. unfold resolve_filings.
  destruct (group_by_year_total ∅ _ Hall) as [d Hd]. rewrite Hd. simpl.
  apply group_by_year_Ok in Hd as (_ & Hg & Hdom).
  rewrite resolve_years_seq.
  assert (sorted_keys d = years_of (annual_of filings)) as ->.
  { unfold sorted_keys, years_of. rewrite Hdom, dom_empty_L. by rewrite (left_id_L ∅ (∪)). }
  apply resolve_seq_ext. intros y _. rewrite Hg. by rewrite lookup_empty.
Qed.

Lemma resolve_filings_no_fy filings :
  ~ Forall (fun f => is_Some (fy f)) (annual_of filings) ->
  resolve_filings filings = Raise (KeyError "fy").
Proof.
  intros Hall. unfold resolve_filings.
  destruct (group_by_year ∅ (annual_of filings)) as [d|e] eqn:Hd; simpl.
  - apply group_by_year_Ok in Hd as (H & _). done.
  - apply group_by_year_Raise in Hd as [-> _]. done.
Qed.

(** ** Comparison of strings *)

Lemma ascii_compare_trans a b c o :
  Ascii.compare a b = o -> Ascii.compare b c = o -> Ascii.compare a c = o.
Proof.
  unfold Ascii.compare. destruct o.
  - rewrite !N.compare_eq_iff. congruence.
  - rewrite !N.compare_lt_iff. lia.
  - rewrite !N.compare_gt_iff. lia.
Qed.

Lemma string_compare_trans s1 s2 s3 o :
  String.compare s1 s2 = o -> String.compare s2 s3 = o -> String.compare s1 s3 = o.
Proof.
  revert s2 s3. induction s1 as [|a s1 IH]; intros [|b s2] [|c s3]; simpl; try congruence.
  destruct (Ascii.compare a b) eqn:Hab, (Ascii.compare b c) eqn:Hbc; try congruence.
  - apply Ascii.compare_eq_iff in Hab as ->, Hbc as ->.
    assert (Ascii.compare c c = Eq) as -> by (unfold Ascii.compare; apply N.compare_refl).
    apply IH.
  - apply Ascii.compare_eq_iff in Hab as ->. rewrite Hbc. congruence.
  - apply Ascii.compare_eq_iff in Hab as ->. rewrite Hbc. congruence.
  - apply Ascii.compare_eq_iff in Hbc as ->. rewrite Hab. congruence.
  - rewrite (ascii_compare_trans _ _ _ _ Hab Hbc). congruence.
  - apply Ascii.compare_eq_iff in Hbc as ->. rewrite Hab. congruence.
  - rewrite (ascii_compare_trans _ _ _ _ Hab Hbc). congruence.
Qed.

Lemma string_compare_refl s : String.compare s s = Eq.
Proof.
  induction s as [|a s IH]; simpl; [done|].
  assert (Ascii.compare a a = Eq) as -> by (unfold Ascii.compare; apply N.compare_refl).
  done.
Qed.

Lemma string_ltb_trans s1 s2 s3 :
  String.ltb s1 s2 = true -> String.ltb s2 s3 = true -> String.ltb s1 s3 = true.
Proof.
  unfold String.ltb. intros H1 H2.
  destruct (String.compare s1 s2) eqn:E1; try done.
  destruct (String.compare s2 s3) eqn:E2; try done.
  by rewrite (string_compare_trans _ _ _ _ E1 E2).
Qed.

(** [s1 <= s2 < s3] gives [s1 < s3]. *)
Lemma string_le_ltb_trans s1 s2 s3 :
  String.ltb s2 s1 = false -> String.ltb s2 s3 = true -> String.ltb s1 s3 = true.
Proof.
  unfold String.ltb. intros H1 H2.
  destruct (String.compare s2 s3) eqn:E2; try done.
  rewrite String.compare_antisym in H1.
  destruct (String.compare s1 s2) eqn:E1; simpl in H1; try done.
  - apply String.compare_eq_iff in E1 as ->. by rewrite E2.
  - by rewrite (string_compare_trans _ _ _ _ E1 E2).
Qed.

Lemma string_ltb_le s1 s2 : String.ltb s1 s2 = true -> String.ltb s2 s1 = false.
Proof.
  unfold String.ltb. rewrite (String.compare_antisym s2 s1).
  by destruct (String.compare s1 s2).
Qed.

(** ** The most recently filed record *)

(** [max] returns the first of the greatest records. *)
Lemma max_loop_spec m mv rest f :
  filed m = Some mv ->
  max_loop m mv rest = Ok f ->
  (f = m /\ Forall (fun a => filed_le a m) rest)
  \/ exists r1 r2, rest = r1 ++ f :: r2
       /\ filed_lt m f
       /\ Forall (fun a => filed_lt a f) r1
       /\ Forall (fun a => filed_le a f) r2.
Proof.
  revert m mv. induction rest as [|item rest IH]; intros m mv Hm; simpl.
  - intros [= <-]. left. by split.
  - intros H. apply bind_Ok in H as (v & Hv & H). apply getitem_Ok in Hv.
    destruct (String.ltb mv v) eqn:Hlt.
    + right. apply (IH _ _ Hv) in H as [[-> Hall]|(r1 & r2 & -> & Hlt' & H1 & H2)].
      * exists [], rest. repeat split; [|constructor|done]. by exists mv, v.
      * destruct Hlt' as (v' & w & Hv' & Hw & Hvw).
        rewrite Hv in Hv'. injection Hv' as <-.
        exists (item :: r1), r2. repeat split; [| |done].
        -- exists mv, w. repeat split; [done..|]. by apply string_ltb_trans with v.
        -- constructor; [|done]. by exists v, w.
    + apply (IH _ _ Hm) in H as [[-> Hall]|(r1 & r2 & -> & Hlt' & H1 & H2)].
      * left. split; [done|]. constructor; [|done]. by exists v, mv.
      * right. destruct Hlt' as (v' & w & Hv' & Hw & Hvw).
        rewrite Hm in Hv'. injection Hv' as <-.
        exists (item :: r1), r2. repeat split; [| |done].
        -- by exists mv, w.
        -- constructor; [|done]. exists v, w. repeat split; [done..|].
           by apply string_le_ltb_trans with mv.
Qed.

Lemma filed_lt_le f g : filed_lt f g -> filed_le f g.
Proof.
  intros (v & w & Hv & Hw & H). exists v, w. repeat split; [done..|].
  by apply string_ltb_le.
Qed.

Lemma max_by_filed_spec group f :
  max_by_filed group = Ok f ->
  exists l1 l2, group = l1 ++ f :: l2
    /\ Forall (fun a => filed_lt a f) l1
    /\ Forall (fun a => filed_le a f) l2.
Proof.
  destruct group as [|m rest]; simpl; [done|].
  intros H. apply bind_Ok in H as (mv & Hm & H). apply getitem_Ok in Hm.
  apply (max_loop_spec _ _ _ _ Hm) in H as [[-> Hall]|(r1 & r2 & -> & Hlt & H1 & H2)].
  - exists [], rest. repeat split; [constructor|done].
  - exists (m :: r1), r2. repeat split; [|done]. by constructor.
Qed.

Lemma max_by_filed_elem_of group f : max_by_filed group = Ok f -> f ∈ group.
Proof.
  intros H. apply max_by_filed_spec in H as (l1 & l2 & -> & _).
  apply elem_of_app. right. by left.
Qed.

(** [max] raises only [KeyError 'filed'], and only for a record without
    that key; on a group where every record has it, it returns. *)
Lemma max_loop_total m mv rest :
  Forall (fun a => is_Some (filed a)) rest -> exists f, max_loop m mv rest = Ok f.
Proof.
  revert m mv. induction rest as [|item rest IH]; intros m mv Hall; simpl; [by eexists|].
  apply Forall_cons in Hall as [[v Hv] Hall]. rewrite Hv. simpl.
  destruct (String.ltb mv v); by apply IH.
Qed.

Lemma max_by_filed_total group :
  group <> [] -> Forall (fun a => is_Some (filed a)) group ->
  exists f, max_by_filed group = Ok f.
Proof.
  destruct group as [|m rest]; [done|]. intros _ Hall.
  apply Forall_cons in Hall as [[v Hv] Hall]. simpl. rewrite Hv. simpl.
  by apply max_loop_total.
Qed.

(** ** ISO dates compare as strings the way they compare as dates *)

Lemma digit_char_compare a b :
  0 <= a <= 9 -> 0 <= b <= 9 ->
  Ascii.compare (digit_char a) (digit_char b) = (a ?= b).
Proof.
  intros Ha Hb. unfold Ascii.compare, digit_char.
  rewrite !N_ascii_embedding by lia.
  rewrite (Z2N.inj_compare (48 + a) (48 + b)) by lia. apply Z.add_compare_mono_l.
Qed.

Lemma four_digits y :
  0 <= y <= 9999 ->
  exists a b c e,
    (0 <= a <= 9 /\ 0 <= b <= 9 /\ 0 <= c <= 9 /\ 0 <= e <= 9)
    /\ y / 1000 = a /\ y / 100 mod 10 = b /\ y / 10 mod 10 = c /\ y mod 10 = e
    /\ y = 1000 * a + 100 * b + 10 * c + e.
Proof.
  intros Hy. exists (y / 1000), (y / 100 mod 10), (y / 10 mod 10), (y mod 10).
  repeat split; try reflexivity; Z.div_mod_to_equations; lia.
Qed.

Lemma two_digits m :
  0 <= m <= 99 ->
  exists a b,
    (0 <= a <= 9 /\ 0 <= b <= 9) /\ m / 10 = a /\ m mod 10 = b /\ m = 10 * a + b.
Proof.
  intros Hm. exists (m / 10), (m mod 10).
  repeat split; try reflexivity; Z.div_mod_to_equations; lia.
Qed.

Lemma days_in_month_bounds y m : 28 <= Datetime.days_in_month y m <= 31.
Proof.
  unfold Datetime.days_in_month.
  destruct (m =? 2); [destruct (Datetime.is_leap y); lia|].
  destruct (_ || _); lia.
Qed.

Ltac decide_compare x y :=
  first [ rewrite (proj2 (Z.compare_lt_iff x y)) by lia
        | rewrite (proj2 (Z.compare_gt_iff x y)) by lia
        | rewrite (proj2 (Z.compare_eq_iff x y)) by lia ].

Lemma isoformat_compare d1 d2 :
  valid_date d1 -> valid_date d2 ->
  String.compare (isoformat d1) (isoformat d2) = date_compare d1 d2.
Proof.
  destruct d1 as [y1 m1 dd1], d2 as [y2 m2 dd2].
  unfold valid_date, isoformat, date_compare. simpl.
  intros (Hy1 & Hm1 & Hd1) (Hy2 & Hm2 & Hd2).
  pose proof (days_in_month_bounds y1 m1). pose proof (days_in_month_bounds y2 m2).
  destruct (four_digits y1) as (a1 & b1 & c1 & e1 & ? & -> & -> & -> & -> & Ey1); [lia|].
  destruct (four_digits y2) as (a2 & b2 & c2 & e2 & ? & -> & -> & -> & -> & Ey2); [lia|].
  destruct (two_digits m1) as (p1 & q1 & ? & -> & -> & Em1); [lia|].
  destruct (two_digits m2) as (p2 & q2 & ? & -> & -> & Em2); [lia|].
  destruct (two_digits dd1) as (r1 & s1 & ? & -> & -> & Ed1); [lia|].
  destruct (two_digits dd2) as (r2 & s2 & ? & -> & -> & Ed2); [lia|].
  rewrite !digit_char_compare by lia.
  change (Ascii.compare "-" "-") with Eq.
  destruct (Z.compare_spec a1 a2); [|decide_compare y1 y2; reflexivity..].
  destruct (Z.compare_spec b1 b2); [|decide_compare y1 y2; reflexivity..].
  destruct (Z.compare_spec c1 c2); [|decide_compare y1 y2; reflexivity..].
  destruct (Z.compare_spec e1 e2); [|decide_compare y1 y2; reflexivity..].
  decide_compare y1 y2.
  destruct (Z.compare_spec p1 p2); [|decide_compare m1 m2; reflexivity..].
  destruct (Z.compare_spec q1 q2); [|decide_compare m1 m2; reflexivity..].
  decide_compare m1 m2.
  destruct (Z.compare_spec r1 r2); [|decide_compare dd1 dd2; reflexivity..].
  destruct (Z.compare_spec s1 s2); decide_compare dd1 dd2; reflexivity.
Qed.

(** *** The ordinal of a date grows with the date *)

Lemma days_before_year_succ y :
  Datetime.days_before_year (y + 1)
  = Datetime.days_before_year y + (if Datetime.is_leap y then 366 else 365).
Proof.
  unfold Datetime.days_before_year, Datetime.is_leap.
  replace (y + 1 - 1) with y by lia.
  destruct (Z.eqb_spec (y mod 4) 0), (Z.eqb_spec (y mod 100) 0),
    (Z.eqb_spec (y mod 400) 0); simpl; Z.div_mod_to_equations; lia.
Qed.

Lemma days_before_year_mono a b :
  a <= b -> Datetime.days_before_year a <= Datetime.days_before_year b.
Proof. unfold Datetime.days_before_year. intros H. Z.div_mod_to_equations. lia. Qed.

Lemma month_cases m :
  1 <= m <= 12 ->
  m = 1 \/ m = 2 \/ m = 3 \/ m = 4 \/ m = 5 \/ m = 6
  \/ m = 7 \/ m = 8 \/ m = 9 \/ m = 10 \/ m = 11 \/ m = 12.
Proof. lia. Qed.

Ltac each_month m H :=
  destruct (month_cases m H) as [->|[->|[->|[->|[->|[->|[->|[->|[->|[->|[->| ->]]]]]]]]]]].

(** The day of the year of a date of the calendar. *)
Lemma day_of_year_bounds y m dd :
  1 <= m <= 12 -> 1 <= dd <= Datetime.days_in_month y m ->
  1 <= Datetime.days_before_month y m + dd
    <= (if Datetime.is_leap y then 366 else 365).
Proof.
  intros Hm. unfold Datetime.days_before_month, Datetime.days_in_month.
  each_month m Hm; simpl; destruct (Datetime.is_leap y); simpl; lia.
Qed.

Lemma days_before_month_next y m1 m2 :
  1 <= m1 -> m1 < m2 -> m2 <= 12 ->
  Datetime.days_before_month y m1 + Datetime.days_in_month y m1
  <= Datetime.days_before_month y m2.
Proof.
  intros H1 Hlt H2. assert (1 <= m1 <= 12) as Hm1 by lia.
  assert (1 <= m2 <= 12) as Hm2 by lia.
  unfold Datetime.days_before_month, Datetime.days_in_month.
  each_month m1 Hm1; each_month m2 Hm2; try lia;
    simpl; destruct (Datetime.is_leap y); simpl; lia.
Qed.

Lemma toordinal_compare d1 d2 :
  valid_date d1 -> valid_date d2 ->
  date_compare d1 d2 = (Datetime.toordinal d1 ?= Datetime.toordinal d2).
Proof.
  destruct d1 as [y1 m1 dd1], d2 as [y2 m2 dd2].
  unfold valid_date, date_compare, Datetime.toordinal. simpl.
  intros (Hy1 & Hm1 & Hd1) (Hy2 & Hm2 & Hd2).
  pose proof (day_of_year_bounds y1 m1 dd1 Hm1 Hd1) as B1.
  pose proof (day_of_year_bounds y2 m2 dd2 Hm2 Hd2) as B2.
  symmetry. destruct (Z.compare_spec y1 y2) as [->|Hy|Hy].
  - destruct (Z.compare_spec m1 m2) as [->|Hm|Hm].
    + destruct (Z.compare_spec dd1 dd2) as [->|Hd|Hd].
      * apply Z.compare_refl.
      * apply Z.compare_lt_iff. lia.
      * apply Z.compare_gt_iff. lia.
    + apply Z.compare_lt_iff.
      pose proof (days_before_month_next y2 m1 m2). lia.
    + apply Z.compare_gt_iff.
      pose proof (days_before_month_next y2 m2 m1). lia.
  - apply Z.compare_lt_iff.
    pose proof (days_before_year_succ y1).
    pose proof (days_before_year_mono (y1 + 1) y2).
    destruct (Datetime.is_leap y1); lia.
  - apply Z.compare_gt_iff.
    pose proof (days_before_year_succ y2).
    pose proof (days_before_year_mono (y2 + 1) y1).
    destruct (Datetime.is_leap y2); lia.
Qed.

(** One ISO date is below another as a string exactly when it is the
    earlier date. *)
Lemma isoformat_ltb d1 d2 :
  valid_date d1 -> valid_date d2 ->
  String.ltb (isoformat d1) (isoformat d2) = true
  <-> Datetime.toordinal d1 < Datetime.toordinal d2.
Proof.
  intros H1 H2. unfold String.ltb.
  rewrite isoformat_compare, toordinal_compare by done.
  rewrite <- Z.compare_lt_iff.
  by destruct (Datetime.toordinal d1 ?= Datetime.toordinal d2).
Qed.

(** A record filed no later than another, as strings, was filed no later
    as a date. *)
Lemma filed_le_on f g d e :
  filed_on f d -> filed_on g e -> filed_le f g ->
  Datetime.toordinal d <= Datetime.toordinal e.
Proof.
  intros [Hd Hf] [He Hg] (v & w & Hv & Hw & Hlt).
  rewrite Hf in Hv. rewrite Hg in Hw. injection Hv as <-. injection Hw as <-.
  destruct (Z.le_gt_cases (Datetime.toordinal d) (Datetime.toordinal e)) as [?|Hgt];
    [done|].
  apply (isoformat_ltb e d) in Hgt; [congruence|done..].
Qed.

(** *** [strptime] reads back what [isoformat] writes *)

Lemma digit_digit_char a : 0 <= a <= 9 -> Datetime.digit (digit_char a) = Some a.
Proof.
  intros Ha.
  assert (a = 0 \/ a = 1 \/ a = 2 \/ a = 3 \/ a = 4 \/ a = 5 \/ a = 6 \/ a = 7
          \/ a = 8 \/ a = 9) as H by lia.
  destruct H as [->|[->|[->|[->|[->|[->|[->|[->|[->| ->]]]]]]]]]; reflexivity.
Qed.

Lemma year_re_digits a b c e rest :
  0 <= a <= 9 -> 0 <= b <= 9 -> 0 <= c <= 9 -> 0 <= e <= 9 ->
  Datetime.year_re (digit_char a :: digit_char b :: digit_char c :: digit_char e :: rest)
  = Some (1000 * a + 100 * b + 10 * c + e, rest).
Proof.
  intros Ha Hb Hc He. unfold Datetime.year_re.
  by rewrite !digit_digit_char.
Qed.

Lemma month_re_head m rest :
  1 <= m <= 12 ->
  exists tl,
    Datetime.alternatives Datetime.month_re
      (digit_char (m / 10) :: digit_char (m mod 10) :: rest)
    = (m, rest) :: tl.
Proof.
  intros Hm. each_month m Hm; eexists; reflexivity.
Qed.

Lemma day_re_head dd :
  1 <= dd <= 31 ->
  exists tl,
    Datetime.alternatives Datetime.day_re
      [digit_char (dd / 10); digit_char (dd mod 10)]
    = (dd, []) :: tl.
Proof.
  intros Hd.
  assert (exists n : nat, dd = Z.of_nat n /\ (1 <= n <= 31)%nat) as (n & -> & Hn).
  { exists (Z.to_nat dd). lia. }
  do 32 (destruct n as [|n]; [try lia; eexists; reflexivity|]). lia.
Qed.

(** Every date of the calendar, written in ISO format, parses to itself. *)
Lemma strptime_isoformat d :
  valid_date d -> Datetime.strptime (isoformat d) = Ok d.
Proof.
  destruct d as [y m dd]. unfold valid_date, isoformat. simpl.
  intros (Hy & Hm & Hd). pose proof (days_in_month_bounds y m) as Hb.
  destruct (four_digits y) as (a & b & c & e & ? & -> & -> & -> & -> & Ey); [lia|].
  destruct (month_re_head m ("-"%char :: [digit_char (dd / 10); digit_char (dd mod 10)]))
    as [tlm Hmo]; [done|].
  destruct (day_re_head dd) as [tld Hda]; [lia|].
  unfold Datetime.strptime, Datetime.re_match.
  cbn [list_ascii_of_string]. rewrite year_re_digits by lia.
  cbn [Datetime.dash]. rewrite Hmo, bind_cons. cbn [Datetime.dash snd fst].
  rewrite Hda, bind_cons. cbn [head app mbind list_bind mret list_ret snd fst].
  rewrite <- Ey.
  replace ((1 <=? y) && (dd <=? Datetime.days_in_month y m)) with true; [done|].
  symmetry. apply andb_true_iff. split; lia.
Qed.

(** ** Candidates of a duration-typed group *)

Lemma key_leb_lex_le a b : key_leb a b = true <-> lex_le a b.
Proof. unfold key_leb, lex_le. lia. Qed.

Lemma strptime_Raise s e : Datetime.strptime s = Raise e -> e = ValueError s.
Proof.
  unfold Datetime.strptime.
  destruct (Datetime.re_match _) as [[[[y m] d] [|? ?]]|]; try congruence.
  destruct (_ && _); congruence.
Qed.

Lemma candidate_of_period year f p :
  period f = Some p ->
  candidate_of year f =
  Ok (if passes year p
      then Some (f, Z.abs (Datetime.year p.2 - year), - Datetime.days_between p.1 p.2)
      else None).
Proof.
  unfold period, candidate_of, passes.
  destruct (start f) as [s|]; [|done]. destruct (end_ f) as [e|]; [|done].
  simpl.
  destruct (Datetime.strptime s) as [sd|]; [|done].
  destruct (Datetime.strptime e) as [ed|]; [|done].
  intros [= <-]. simpl.
  destruct (350 <=? _), (_ <=? Datetime.year sd), (_ <=? Datetime.year ed); done.
Qed.

Lemma candidate_of_Ok_period year f o :
  candidate_of year f = Ok o -> is_Some (period f).
Proof.
  unfold period, candidate_of.
  destruct (start f) as [s|]; [|done]. simpl.
  destruct (Datetime.strptime s) as [sd|]; [|done]. simpl.
  destruct (end_ f) as [e|]; [|done]. simpl.
  destruct (Datetime.strptime e) as [ed|]; [|done]. by eexists.
Qed.

Lemma passes_eligible year f p :
  period f = Some p -> passes year p = true <-> eligible year f.
Proof.
  intros Hp. unfold passes, eligible. split.
  - intros H. destruct p as [sd ed]. exists sd, ed. simpl in H. split; [done|]. lia.
  - intros (sd & ed & Hp' & H). rewrite Hp in Hp'. injection Hp' as ->. simpl. lia.
Qed.

Lemma collect_candidates_Ok year group cs :
  collect_candidates year group = Ok cs ->
  Forall (fun f => is_Some (period f)) group
  /\ (forall c, c ∈ cs ->
        c.1.1 ∈ group /\ eligible year c.1.1 /\ score year c.1.1 = Some (sort_key c))
  /\ (forall f, f ∈ group -> eligible year f ->
        exists c, c ∈ cs /\ c.1.1 = f).
Proof.
  revert cs. induction group as [|f group IH]; intros cs; simpl.
  - intros [= <-]. split; [constructor|]. split; intros ? H; by apply elem_of_nil in H.
  - intros H. apply bind_Ok in H as (o & Ho & H). apply bind_Ok in H as (cs' & Hcs' & [= <-]).
    destruct (IH _ Hcs') as (Hall & Hin & Hel).
    destruct (candidate_of_Ok_period _ _ _ Ho) as [p Hp].
    rewrite (candidate_of_period _ _ _ Hp) in Ho. injection Ho as <-.
    split; [constructor; [by eexists|done]|]. split.
    + intros c Hc. apply elem_of_app in Hc as [Hc|Hc].
      * destruct (passes year p) eqn:Hpass; simpl in Hc; [|by apply elem_of_nil in Hc].
        apply list_elem_of_singleton in Hc as ->. simpl. split; [by left|].
        split; [by apply (passes_eligible _ _ _ Hp)|].
        unfold score. rewrite Hp. done.
      * destruct (Hin c Hc) as (? & ? & ?). split; [by right|done].
    + intros f' Hf' Hel'. apply elem_of_cons in Hf' as [->|Hf'].
      * apply (passes_eligible _ _ _ Hp) in Hel'. rewrite Hel'. simpl.
        eexists. split; [by left|done].
      * destruct (Hel f' Hf' Hel') as (c & Hc & <-). exists c. split; [|done].
        apply elem_of_app. by right.
Qed.

Lemma collect_candidates_total year group :
  Forall (fun f => is_Some (period f)) group ->
  exists cs, collect_candidates year group = Ok cs.
Proof.
  induction 1 as [|f group [p Hp] _ [cs IH]]; simpl; [by eexists|].
  rewrite (candidate_of_period _ _ _ Hp), IH. simpl. by eexists.
Qed.

(** The duration branch picks an eligible record of least score, and
    nothing when no record is eligible. *)
Lemma resolve_duration_spec year group r :
  resolve_duration year group = Ok r ->
  match r with
  | Some f =>
      f ∈ group /\ eligible year f
      /\ exists k, score year f = Some k
           /\ forall f', f' ∈ group -> eligible year f' ->
                exists k', score year f' = Some k' /\ lex_le k k'
  | None => forall f, f ∈ group -> ~ eligible year f
  end.
Proof.
  unfold resolve_duration. intros H. apply bind_Ok in H as (cs & Hcs & [= <-]).
  apply collect_candidates_Ok in Hcs as (_ & Hin & Hel). unfold sort_by_key.
  destruct (head (stable_sort _ cs)) as [c|] eqn:Hh; simpl.
  - apply stable_sort_head in Hh as (l1 & l2 & -> & H1 & H2);
      [|intros ???; apply key_leb_trans|intros ??; apply key_leb_total].
    destruct (Hin c) as (Hc & Helc & Hsc); [apply elem_of_app; right; by left|].
    split; [done|]. split; [done|]. exists (sort_key c). split; [done|].
    intros f' Hf' Hel'. destruct (Hel f' Hf' Hel') as (c' & Hc' & <-).
    exists (sort_key c'). split; [by apply Hin|]. apply key_leb_lex_le.
    apply elem_of_app in Hc' as [Hc'|Hc'].
    + by apply key_leb_total, H1.
    + apply elem_of_cons in Hc' as [->|Hc']; [|by apply H2].
      apply key_leb_lex_le. unfold lex_le. lia.
  - apply head_None in Hh. apply stable_sort_nil_inv in Hh as ->.
    intros f Hf Helf. destruct (Hel f Hf Helf) as (c & Hc & _). by apply elem_of_nil in Hc.
Qed.

Lemma resolve_year_elem_of year group f :
  resolve_year year group = Ok (Some f) -> f ∈ group.
Proof.
  unfold resolve_year. intros H. apply bind_Ok in H as (b & _ & H). destruct b.
  - by apply resolve_duration_spec in H as [? _].
  - unfold resolve_instant in H. apply bind_Ok in H as (m & Hm & [= <-]).
    by apply max_by_filed_elem_of.
Qed.

(** ** The results, year by year *)

Lemma filter_nil_intro {A} (P : A -> Prop) `{forall x, Decision (P x)} (l : list A) :
  (forall x, x ∈ l -> ~ P x) -> filter P l = [].
Proof.
  induction l as [|x l IH]; intros Hl; [done|].
  rewrite filter_cons, decide_False by (apply Hl; by left).
  apply IH. intros y Hy. apply Hl. by right.
Qed.

Lemma resolve_seq_acc g years acc :
  resolve_seq g years acc = (rs ← resolve_seq g years []; Ok (acc ++ rs)).
Proof.
  revert acc. induction years as [|y ys IH]; intros acc; simpl.
  - by rewrite app_nil_r.
  - destruct (resolve_year y (g y)) as [r|e]; simpl; [|done].
    rewrite (IH (acc ++ _)), (IH (option_list r)).
    destruct (resolve_seq g ys []); simpl; [|done]. by rewrite app_assoc.
Qed.

Lemma resolve_seq_cons_Ok g y ys results :
  resolve_seq g (y :: ys) [] = Ok results <->
  exists r rs, resolve_year y (g y) = Ok r /\ resolve_seq g ys [] = Ok rs
               /\ results = option_list r ++ rs.
Proof.
  simpl. split.
  - intros H. apply bind_Ok in H as (r & Hr & H). rewrite resolve_seq_acc in H.
    apply bind_Ok in H as (rs & Hrs & [= <-]). by exists r, rs.
  - intros (r & rs & -> & Hrs & ->). simpl. rewrite resolve_seq_acc, Hrs. done.
Qed.

Section Results.
Variable g : Z -> list Filing.
Hypothesis g_fy : forall y f, f ∈ g y -> fy f = Some y.

Lemma option_list_fy y r :
  resolve_year y (g y) = Ok r -> fy <$> option_list r = Some <$> option_list (r ≫= fun _ => Some y).
Proof.
  destruct r as [f|]; simpl; [|done]. intros H.
  apply resolve_year_elem_of, g_fy in H. by rewrite H.
Qed.

(** The fiscal years of the results are strictly ascending and among the
    years of the loop. *)
Lemma resolve_seq_years years results :
  StronglySorted Z.lt years ->
  resolve_seq g years [] = Ok results ->
  exists ys, fy <$> results = Some <$> ys
    /\ StronglySorted Z.lt ys /\ (forall y, y ∈ ys -> y ∈ years).
Proof.
  intros Hs. revert results. induction Hs as [|y years Hs IH Hy]; intros results.
  - intros [= <-]. exists []. repeat split; [constructor|done].
  - intros H. apply resolve_seq_cons_Ok in H as (r & rs & Hr & Hrs & ->).
    destruct (IH _ Hrs) as (ys & Hys & Hsys & Hsub).
    exists (option_list (r ≫= fun _ => Some y) ++ ys).
    rewrite !fmap_app, Hys, (option_list_fy _ _ Hr). split; [done|].
    destruct r as [f|]; simpl.
    + split.
      * constructor; [done|]. rewrite Forall_forall in Hy |- *. intros z Hz.
        apply Hy, Hsub, Hz.
      * intros z Hz. apply elem_of_cons in Hz as [->|Hz]; [by left|]. right. by apply Hsub.
    + split; [done|]. intros z Hz. right. by apply Hsub.
Qed.

(** The results of fiscal year [y] are what its group resolved to. *)
Lemma resolve_seq_year years results y :
  StronglySorted Z.lt years ->
  resolve_seq g years [] = Ok results ->
  y ∈ years ->
  exists r, resolve_year y (g y) = Ok r
    /\ filter (fun f => fy f = Some y) results = option_list r.
Proof.
  intros Hs. revert results. induction Hs as [|z years Hs IH Hz]; intros results.
  - intros _ Hy. by apply elem_of_nil in Hy.
  - intros H Hy. apply resolve_seq_cons_Ok in H as (r & rs & Hr & Hrs & ->).
    rewrite filter_app.
    destruct (resolve_seq_years _ _ Hs Hrs) as (ys & Hys & _ & Hsub).
    assert (forall f, f ∈ rs -> exists z', fy f = Some z' /\ z < z') as Hrs_fy.
    { intros f Hf. apply (list_elem_of_fmap_2 fy) in Hf. rewrite Hys in Hf.
      apply list_elem_of_fmap in Hf as (z' & -> & Hz'). exists z'. split; [done|].
      rewrite Forall_forall in Hz. apply Hz, Hsub, Hz'. }
    apply elem_of_cons in Hy as [->|Hy].
    + exists r. split; [done|].
      replace (filter _ rs) with (@nil Filing).
      * rewrite app_nil_r. destruct r as [f|]; simpl; [|done].
        rewrite filter_cons, decide_True; [done|].
        apply g_fy. by eapply resolve_year_elem_of.
      * symmetry. apply filter_nil_intro. intros f Hf.
        destruct (Hrs_fy f Hf) as (z' & -> & Hlt). intros [= ->]. lia.
    + destruct (IH _ Hrs Hy) as (r' & Hr' & Hf'). exists r'. split; [done|].
      rewrite Hf'. replace (filter _ (option_list r)) with (@nil Filing); [done|].
      destruct r as [f|]; simpl; [|done]. rewrite filter_cons, decide_False; [done|].
      apply resolve_year_elem_of, g_fy in Hr. rewrite Hr. intros [= ->].
      rewrite Forall_forall in Hz. specialize (Hz _ Hy). lia.
Qed.
End Results.

(** ** From [extract_metric] to the groups *)

Lemma except_clause_Ok metric_name r results :
  except_clause metric_name r = ([], Ok results) -> r = Ok results.
Proof.
  destruct r as [l|e]; simpl; [congruence|]. by destruct (caught e).
Qed.

Lemma extract_metric_quiet data metric_name filings results :
  lookup_filings data metric_name = Ok filings ->
  extract_metric data metric_name = ([], Ok results) ->
  resolve_filings filings = Ok results.
Proof.
  unfold extract_metric, extract_metric_try. intros -> H. simpl in H.
  by apply except_clause_Ok in H.
Qed.

Lemma group_of_fy annual y f : f ∈ group_of y annual -> fy f = Some y.
Proof. intros H. by apply elem_of_group_of in H as [? _]. Qed.

Lemma resolve_filings_Ok filings results :
  resolve_filings filings = Ok results ->
  resolve_seq (fun y => group_of y (annual_of filings))
    (years_of (annual_of filings)) [] = Ok results.
Proof.
  destruct (decide (Forall (fun f => is_Some (fy f)) (annual_of filings))) as [H|H].
  - by rewrite resolve_filings_seq.
  - by rewrite resolve_filings_no_fy.
Qed.

Lemma group_year_elem_of annual y first rest :
  group_of y annual = first :: rest -> y ∈ years_of annual.
Proof.
  intros H. apply elem_of_years_of. exists first.
  assert (first ∈ group_of y annual) as Hf by (rewrite H; by left).
  apply elem_of_group_of in Hf as [? ?]. done.
Qed.

(** What is emitted for a fiscal year is what its group resolved to. *)
Lemma resolve_filings_year filings results y first rest :
  resolve_filings filings = Ok results ->
  group_of y (annual_of filings) = first :: rest ->
  exists r, resolve_year y (first :: rest) = Ok r
    /\ emitted y results = option_list r.
Proof.
  intros H Hg. apply resolve_filings_Ok in H. rewrite <- Hg.
  apply (resolve_seq_year (fun y => group_of y (annual_of filings)))
    with (years := years_of (annual_of filings)).
  - intros ??. apply group_of_fy.
  - apply years_of_sorted.
  - done.
  - by eapply group_year_elem_of.
Qed.

Lemma resolve_year_duration year first rest :
  is_Some (start first) ->
  resolve_year year (first :: rest) = resolve_duration year (first :: rest).
Proof. intros H. unfold resolve_year. simpl. by rewrite bool_decide_eq_true_2. Qed.

Lemma resolve_year_instant year first rest :
  start first = None ->
  resolve_year year (first :: rest) = resolve_instant (first :: rest).
Proof.
  intros H. unfold resolve_year. simpl. rewrite bool_decide_eq_false_2; [done|].
  rewrite H. by intros [? ?].
Qed.

(** ** Duration-typed groups *)

Lemma resolve_duration_choice year group r :
  resolve_duration year group = Ok r ->
  least_score_choice year group (option_list r).
Proof.
  intros Hy. apply resolve_duration_spec in Hy. destruct r as [f|]; simpl.
  - destruct Hy as (Hin & Hel & k & Hk & Hmin). split.
    + intros f' Hf'. apply list_elem_of_singleton in Hf' as ->. done.
    + intros _. exists f, k. split; [done|]. split; [done|].
      intros f' Hf' Hel'. destruct (Hmin f' Hf' Hel') as (k' & Hk' & Hle).
      exists k'. split; [done|]. split; [done|]. unfold lex_le in Hle. lia.
  - split.
    + intros f Hf. by apply elem_of_nil in Hf.
    + intros (f' & Hf' & Hel'). by destruct (Hy f' Hf').
Qed.

Lemma resolve_duration_total year group :
  Forall (fun f => is_Some (period f)) group ->
  exists r, resolve_duration year group = Ok r.
Proof.
  intros Hall. destruct (collect_candidates_total year group Hall) as [cs Hcs].
  unfold resolve_duration. rewrite Hcs. by eexists.
Qed.

(** C1.  A duration-typed group (the first record has a start date) whose
    records all have a well-formed period resolves without an error, and in
    an extraction that completes the records emitted for the year are what
    the group resolved to.  Either way the choice obeys the duration rule:
    whatever is chosen is an eligible record of the group, its period
    spanning at least 350 days and starting and ending no earlier than the
    year before; and when some record of the group is eligible, exactly one
    record is chosen, whose score [(|end year - fiscal year|, - days)] is
    least, in lexicographic order, among the eligible records, so that
    among those equally close to the fiscal year none spans more days. *)
Theorem duration_group_selects_least_score :
  (forall (year : Z) (first : Filing) (rest : list Filing),
      is_Some (start first) ->
      Forall (fun f => is_Some (period f)) (first :: rest) ->
      exists r, resolve_year year (first :: rest) = Ok r
        /\ least_score_choice year (first :: rest) (option_list r))
  /\ (forall (data : Data) (metric_name : string) (filings results : list Filing)
        (year : Z) (first : Filing) (rest : list Filing),
      lookup_filings data metric_name = Ok filings ->
      extract_metric data metric_name = ([], Ok results) ->
      group_of year (annual_of filings) = first :: rest ->
      is_Some (start first) ->
      least_score_choice year (first :: rest) (emitted year results)).
Proof.
  split.
  - intros year first rest Hs Hall. rewrite resolve_year_duration by done.
    destruct (resolve_duration_total year _ Hall) as [r Hr].
    exists r. split; [done|]. by apply resolve_duration_choice.
  - intros data metric_name filings results year first rest Hl He Hg Hs.
    pose proof (extract_metric_quiet _ _ _ _ Hl He) as Hr.
    destruct (resolve_filings_year _ _ _ _ _ Hr Hg) as (r & Hy & ->).
    rewrite resolve_year_duration in Hy by done.
    by apply resolve_duration_choice.
Qed.

Lemma duration_group_selects_least_score_witness :
  least_score_choice 2019
    [duration_filing 2019 "2018-12-30" "2019-12-29" "2020-02-10" 341;
     duration_filing 2019 "2018-12-23" "2019-12-29" "2020-02-10" 350]
    (emitted 2019
       [duration_filing 2019 "2018-12-23" "2019-12-29" "2020-02-10" 350;
        duration_filing 2021 "2020-10-01" "2021-09-30" "2021-11-15" 3162]).
Proof.
  apply (proj2 duration_group_selects_least_score sample_data "NetIncomeLoss"
           net_income_filings).
  - vm_compute. reflexivity.
  - vm_compute. reflexivity.
  - vm_compute. reflexivity.
  - eexists. reflexivity.
Defined.

(** ** Instant-typed groups *)

Lemma resolve_instant_spec group r :
  resolve_instant group = Ok r ->
  exists f l1 l2, r = Some f /\ group = l1 ++ f :: l2
    /\ Forall (fun a => filed_lt a f) l1
    /\ Forall (fun a => filed_le a f) l2.
Proof.
  unfold resolve_instant. intros H. apply bind_Ok in H as (f & Hf & [= <-]).
  apply max_by_filed_spec in Hf as (l1 & l2 & ? & ? & ?). by exists f, l1, l2.
Qed.

Lemma resolve_instant_total group :
  group <> [] -> Forall (fun a => is_Some (filed a)) group ->
  exists f, resolve_instant group = Ok (Some f).
Proof.
  intros Hne Hall. destruct (max_by_filed_total _ Hne Hall) as [f Hf].
  exists f. unfold resolve_instant. by rewrite Hf.
Qed.

Lemma filed_le_refl f : is_Some (filed f) -> filed_le f f.
Proof.
  intros [v Hv]. exists v, v. repeat split; [done..|].
  unfold String.ltb. by rewrite string_compare_refl.
Qed.

Lemma first_greatest_all (f : Filing) l1 l2 :
  Forall (fun a => filed_lt a f) l1 -> Forall (fun a => filed_le a f) l2 ->
  is_Some (filed f) ->
  forall f', f' ∈ l1 ++ f :: l2 -> filed_le f' f.
Proof.
  intros H1 H2 Hf f' Hf'. rewrite Forall_forall in H1, H2.
  apply elem_of_app in Hf' as [Hf'|Hf'].
  - by apply filed_lt_le, H1.
  - apply elem_of_cons in Hf' as [->|Hf']; [by apply filed_le_refl|by apply H2].
Qed.

Lemma resolve_instant_filed group f :
  resolve_instant group = Ok (Some f) -> is_Some (filed f).
Proof.
  unfold resolve_instant. intros H. apply bind_Ok in H as (f' & Hf & [= <-]).
  destruct group as [|m rest]; simpl in Hf; [done|].
  apply bind_Ok in Hf as (mv & Hm & Hf). apply getitem_Ok in Hm.
  apply (max_loop_spec _ _ _ _ Hm) in Hf as [[-> _]|(_ & _ & _ & (v & w & _ & Hw & _) & _)];
    by eexists.
Qed.

Lemma first_greatest_latest (f : Filing) l1 l2 :
  Forall (fun a => filed_lt a f) l1 -> Forall (fun a => filed_le a f) l2 ->
  is_Some (filed f) ->
  latest_filed_choice (l1 ++ f :: l2) f.
Proof.
  intros H1 H2 Hf. split; [apply elem_of_app; right; by left|].
  pose proof (first_greatest_all f l1 l2 H1 H2 Hf) as Hle. split; [done|].
  intros f' d' d Hf' Hd' Hd. eapply filed_le_on; [done..|]. by apply Hle.
Qed.

(** C2.  An instant-typed group (the first record has no start date) in
    which every record has a filing date resolves, without an error, to a
    record of the group with the greatest filing date: no record of the
    group was filed after it.  In an extraction that completes, this is the
    one record emitted for the year.  With records filed 2022-02-01,
    2023-01-15 and 2022-03-01 for fiscal year 2022, the record filed
    2023-01-15 is returned. *)
Theorem instant_group_selects_latest_filed :
  (forall (year : Z) (first : Filing) (rest : list Filing),
      start first = None ->
      Forall (fun a => is_Some (filed a)) (first :: rest) ->
      exists f, resolve_year year (first :: rest) = Ok (Some f)
        /\ latest_filed_choice (first :: rest) f)
  /\ (forall (data : Data) (metric_name : string) (filings results : list Filing)
        (year : Z) (first : Filing) (rest : list Filing),
      lookup_filings data metric_name = Ok filings ->
      extract_metric data metric_name = ([], Ok results) ->
      group_of year (annual_of filings) = first :: rest ->
      start first = None ->
      exists f, emitted year results = [f]
        /\ latest_filed_choice (first :: rest) f)
  /\ extract_metric (data_of [("Assets"%string, assets_2022)]) "Assets"
     = ([], Ok [instant_filing 2022 "2022-12-31" "2023-01-15" 120]).
Proof.
  split; [|split].
  - intros year first rest Hs Hall. rewrite resolve_year_instant by done.
    destruct (resolve_instant_total (first :: rest)) as [f Hf]; [done..|].
    exists f. split; [done|].
    pose proof (resolve_instant_filed _ _ Hf) as Hfiled.
    apply resolve_instant_spec in Hf as (f' & l1 & l2 & [= <-] & Hg & H1 & H2).
    rewrite Hg. by apply first_greatest_latest.
  - intros data metric_name filings results year first rest Hl He Hg Hs.
    pose proof (extract_metric_quiet _ _ _ _ Hl He) as Hr.
    destruct (resolve_filings_year _ _ _ _ _ Hr Hg) as (r & Hy & ->).
    rewrite resolve_year_instant in Hy by done.
    pose proof Hy as Hy'.
    apply resolve_instant_spec in Hy as (f & l1 & l2 & -> & Hg' & H1 & H2).
    exists f. split; [done|]. rewrite Hg'.
    apply first_greatest_latest; [done..|]. by eapply resolve_instant_filed.
  - vm_compute. reflexivity.
Qed.

Lemma instant_group_selects_latest_filed_witness :
  exists f,
    emitted 2022 [instant_filing 2022 "2022-12-31" "2023-01-15" 120] = [f]
    /\ latest_filed_choice assets_2022 f.
Proof.
  apply (proj1 (proj2 instant_group_selects_latest_filed)
           sample_data "Assets" assets_2022).
  - vm_compute. reflexivity.
  - vm_compute. reflexivity.
  - vm_compute. reflexivity.
  - reflexivity.
Defined.

(** The three filing dates of the example are ISO dates, so the record
    selected was filed last as a date. *)
Example assets_2022_filed_on :
  filed_on (instant_filing 2022 "2022-12-31" "2022-02-01" 100)
    (Datetime.mk_datetime 2022 2 1)
  /\ filed_on (instant_filing 2022 "2022-12-31" "2023-01-15" 120)
       (Datetime.mk_datetime 2023 1 15)
  /\ filed_on (instant_filing 2022 "2022-12-31" "2022-03-01" 110)
       (Datetime.mk_datetime 2022 3 1).
Proof.
  repeat split; vm_compute; congruence.
Qed.

(** C10.  An instant-typed group in which every record has a filing date
    resolves to the first of its most recently filed records, in the order
    of the filtered input: every record before the selected one was filed
    strictly earlier, every record after it no later.  In an extraction
    that completes, this is the one record emitted for the year. *)
Theorem instant_tie_selects_earliest :
  (forall (year : Z) (first : Filing) (rest : list Filing),
      start first = None ->
      Forall (fun a => is_Some (filed a)) (first :: rest) ->
      exists r, resolve_year year (first :: rest) = Ok r
        /\ first_latest_choice (first :: rest) (option_list r))
  /\ (forall (data : Data) (metric_name : string) (filings results : list Filing)
        (year : Z) (first : Filing) (rest : list Filing),
      lookup_filings data metric_name = Ok filings ->
      extract_metric data metric_name = ([], Ok results) ->
      filter (fun a => fy a = Some year) (filter is_annual filings) = first :: rest ->
      start first = None ->
      first_latest_choice (first :: rest) (emitted year results)).
Proof.
  split.
  - intros year first rest Hs Hall. rewrite resolve_year_instant by done.
    destruct (resolve_instant_total (first :: rest)) as [f Hf]; [done..|].
    exists (Some f). split; [done|].
    apply resolve_instant_spec in Hf as (f' & l1 & l2 & [= <-] & Hg & H1 & H2).
    by exists f, l1, l2.
  - intros data metric_name filings results year first rest Hl He Hg Hs.
    pose proof (extract_metric_quiet _ _ _ _ Hl He) as Hr.
    destruct (resolve_filings_year _ _ _ _ _ Hr Hg) as (r & Hy & ->).
    rewrite resolve_year_instant in Hy by done.
    apply resolve_instant_spec in Hy as (f & l1 & l2 & -> & Hg' & H1 & H2).
    by exists f, l1, l2.
Qed.

(** ** Order of the results *)

Lemma extract_metric_try_Ok data metric_name results :
  extract_metric_try data metric_name = Ok results ->
  exists filings, lookup_filings data metric_name = Ok filings
    /\ resolve_filings filings = Ok results.
Proof. unfold extract_metric_try. intros H. by apply bind_Ok in H. Qed.

(** The fiscal years of what [resolve_filings] returns ascend strictly. *)
Lemma resolve_filings_ascending filings results :
  resolve_filings filings = Ok results ->
  exists ys, fy <$> results = Some <$> ys /\ StronglySorted Z.lt ys.
Proof.
  intros H. apply resolve_filings_Ok in H.
  apply resolve_seq_years in H as (ys & ? & ? & _);
    [by exists ys| |apply years_of_sorted].
  intros ??. apply group_of_fy.
Qed.

Lemma extract_metric_ascending data metric_name out results :
  extract_metric data metric_name = (out, Ok results) ->
  exists ys, fy <$> results = Some <$> ys /\ StronglySorted Z.lt ys.
Proof.
  unfold extract_metric, except_clause.
  destruct (extract_metric_try data metric_name) as [l|e] eqn:Ht.
  - intros [= <- <-]. apply extract_metric_try_Ok in Ht as (filings & _ & Hr).
    by eapply resolve_filings_ascending.
  - destruct (caught e); [|done]. intros [= <- <-]. exists []. split; [done|constructor].
Qed.

(** C4.  Whatever [extract_metric] returns, the fiscal years of the list
    ascend strictly; hence no two entries share a fiscal year. *)
Theorem results_strictly_ascending
    (data : Data) (metric_name : string) (out : list line) (results : list Filing) :
  extract_metric data metric_name = (out, Ok results) ->
  (exists ys, fy <$> results = Some <$> ys /\ StronglySorted Z.lt ys)
  /\ NoDup (fy <$> results)
  /\ forall i j f g, results !! i = Some f -> results !! j = Some g ->
       fy f = fy g -> i = j.
Proof.
  intros H. destruct (extract_metric_ascending _ _ _ _ H) as (ys & Hys & Hs).
  assert (NoDup (fy <$> results)) as Hnd.
  { rewrite Hys. apply NoDup_fmap; [by intros ?? [=]|]. by apply StronglySorted_lt_NoDup. }
  split; [by exists ys|]. split; [done|].
  intros i j f g Hi Hj Hfg.
  apply (NoDup_lookup (fy <$> results) i j (fy f)); [done|..].
  - by rewrite list_lookup_fmap, Hi.
  - by rewrite list_lookup_fmap, Hj, Hfg.
Qed.

Lemma results_strictly_ascending_witness :
  (exists ys,
      fy <$> [duration_filing 2019 "2018-12-23" "2019-12-29" "2020-02-10" 350;
              duration_filing 2021 "2020-10-01" "2021-09-30" "2021-11-15" 3162]
      = Some <$> ys /\ StronglySorted Z.lt ys)
  /\ NoDup [Some 2019; Some 2021].
Proof.
  pose proof (results_strictly_ascending sample_data "NetIncomeLoss" []
    [duration_filing 2019 "2018-12-23" "2019-12-29" "2020-02-10" 350;
     duration_filing 2021 "2020-10-01" "2021-09-30" "2021-11-15" 3162]) as H.
  destruct H as (H1 & H2 & _); [vm_compute; reflexivity|].
  split; [exact H1|exact H2].
Defined.

Lemma instant_tie_selects_earliest_witness :
  first_latest_choice assets_2023_tie
    (emitted 2023 [instant_filing 2023 "2023-12-31" "2024-02-01" 140]).
Proof.
  apply (proj2 instant_tie_selects_earliest
           (data_of [("Assets"%string, assets_2023_tie)]) "Assets" assets_2023_tie
           _ 2023 (instant_filing 2023 "2023-12-31" "2024-01-05" 130)
           [instant_filing 2023 "2023-12-31" "2024-02-01" 140;
            instant_filing 2023 "2023-12-31" "2024-02-01" 150]).
  - vm_compute. reflexivity.
  - vm_compute. reflexivity.
  - vm_compute. reflexivity.
  - reflexivity.
Defined.

(** ** Classification of a group *)

Lemma max_loop_without_start m mv rest :
  max_loop (without_start m) mv (without_start <$> rest)
  = result_map without_start (max_loop m mv rest).
Proof.
  revert m mv. induction rest as [|item rest IH]; intros m mv; simpl; [done|].
  destruct (filed item) as [v|]; simpl; [|done].
  destruct (String.ltb mv v); apply IH.
Qed.

(** The instant branch never looks at start dates. *)
Lemma resolve_instant_without_start group :
  resolve_instant (without_start <$> group)
  = result_map (fmap without_start) (resolve_instant group).
Proof.
  unfold resolve_instant. destruct group as [|m rest]; simpl; [done|].
  destruct (filed m) as [v|]; simpl; [|done].
  rewrite max_loop_without_start. by destruct (max_loop m v rest).
Qed.

(** C9.  Whether a group is resolved as duration-typed or as instant-typed
    is decided by its first record alone: with a start date there the
    duration branch runs, without one the instant branch, whatever the
    records after the first look like; and the instant branch selects the
    same record whichever of the later records carry a start date. *)
Theorem classification_by_first_record
    (year : Z) (first : Filing) (rest : list Filing) :
  (forall rest', has_start_date (first :: rest') = has_start_date (first :: rest))
  /\ (is_Some (start first) ->
      resolve_year year (first :: rest) = resolve_duration year (first :: rest))
  /\ (start first = None ->
      resolve_year year (first :: rest) = resolve_instant (first :: rest)
      /\ forall rest',
           without_start <$> rest' = without_start <$> rest ->
           result_map (fmap without_start) (resolve_year year (first :: rest'))
           = result_map (fmap without_start) (resolve_year year (first :: rest))).
Proof.
  split; [done|]. split; [apply resolve_year_duration|].
  intros Hs. split; [by apply resolve_year_instant|].
  intros rest' Hrest. rewrite !resolve_year_instant by done.
  rewrite <- !resolve_instant_without_start. by rewrite !fmap_cons, Hrest.
Qed.

Lemma classification_by_first_record_witness :
  resolve_year 2022
    (instant_filing 2022 "2022-12-31" "2022-02-01" 100
     :: [duration_filing 2022 "2022-01-01" "2022-12-31" "2023-01-15" 120])
  = resolve_instant
      (instant_filing 2022 "2022-12-31" "2022-02-01" 100
       :: [duration_filing 2022 "2022-01-01" "2022-12-31" "2023-01-15" 120])
  /\ resolve_year 2019 net_income_filings = resolve_duration 2019 net_income_filings.
Proof.
  split.
  - apply (classification_by_first_record 2022
             (instant_filing 2022 "2022-12-31" "2022-02-01" 100)). reflexivity.
  - apply (classification_by_first_record 2019
             (duration_filing 2019 "2018-12-30" "2019-12-29" "2020-02-10" 341)).
    eexists. reflexivity.
Defined.

(** In a duration-typed group the duration branch reads the start date of
    every record: a later record without one ends the whole extraction with
    [KeyError 'start'], caught by [extract_metric]. *)
Example duration_group_reads_every_start_date :
  resolve_year 2022
    [duration_filing 2022 "2022-01-01" "2022-12-31" "2023-01-15" 120;
     instant_filing 2022 "2022-12-31" "2022-02-01" 100]
  = Raise (KeyError "start")
  /\ extract_metric
       (data_of [("NetIncomeLoss"%string,
                  [duration_filing 2022 "2022-01-01" "2022-12-31" "2023-01-15" 120;
                   instant_filing 2022 "2022-12-31" "2022-02-01" 100])])
       "NetIncomeLoss"
     = ([ErrorExtracting "NetIncomeLoss" (KeyError "start")], Ok []).
Proof. split; vm_compute; reflexivity. Qed.

(** ** Dropped years *)

Lemma resolve_duration_none year group :
  Forall (fun f => is_Some (period f) /\ ~ eligible year f) group ->
  resolve_duration year group = Ok None.
Proof.
  intros Hall.
  destruct (collect_candidates_total year group) as [cs Hcs].
  { eapply Forall_impl; [exact Hall|]. by intros f [? _]. }
  destruct (resolve_duration year group) as [r|e] eqn:Hr.
  - pose proof (resolve_duration_spec _ _ _ Hr) as Hspec. destruct r as [f|]; [|done].
    destruct Hspec as (Hin & Hel & _). rewrite Forall_forall in Hall.
    by destruct (Hall f Hin).
  - unfold resolve_duration in Hr. by rewrite Hcs in Hr.
Qed.

Lemma resolve_seq_skip g year years acc :
  resolve_year year (g year) = Ok None ->
  resolve_seq g (filter (fun y => y <> year) years) acc = resolve_seq g years acc.
Proof.
  intros Hy. revert acc. induction years as [|y ys IH]; intros acc; [done|].
  rewrite filter_cons. destruct (decide (y <> year)) as [Hne|Heq]; simpl.
  - destruct (resolve_year y (g y)); simpl; [apply IH|done].
  - apply dec_stable in Heq as ->. rewrite Hy. simpl. rewrite app_nil_r. apply IH.
Qed.

Lemma StronglySorted_filter (P : Z -> Prop) `{forall y, Decision (P y)} (l : list Z) :
  StronglySorted Z.lt l -> StronglySorted Z.lt (filter P l).
Proof.
  induction 1 as [|x l Hs IH Hx]; [constructor|].
  rewrite filter_cons. destruct (decide (P x)); [|done].
  constructor; [done|]. rewrite Forall_forall in Hx |- *.
  intros y Hy. apply list_elem_of_filter in Hy as [_ Hy]. by apply Hx.
Qed.

Section WithoutYear.
Variables (filings : list Filing) (year : Z).

Lemma annual_of_other :
  annual_of (filter (fun f => fy f <> Some year) filings)
  = filter (fun f => fy f <> Some year) (annual_of filings).
Proof.
  unfold annual_of. rewrite !list_filter_filter. apply list_filter_iff. tauto.
Qed.

Lemma group_of_other y :
  y <> year ->
  group_of y (annual_of (filter (fun f => fy f <> Some year) filings))
  = group_of y (annual_of filings).
Proof.
  intros Hne. rewrite annual_of_other. unfold group_of.
  rewrite list_filter_filter. apply list_filter_iff.
  intros f. split; [tauto|]. intros Hf. split; [done|]. rewrite Hf. congruence.
Qed.

Lemma years_of_other :
  years_of (annual_of (filter (fun f => fy f <> Some year) filings))
  = filter (fun y => y <> year) (years_of (annual_of filings)).
Proof.
  apply StronglySorted_lt_ext.
  - apply years_of_sorted.
  - apply StronglySorted_filter, years_of_sorted.
  - intros y. rewrite list_elem_of_filter, !elem_of_years_of, annual_of_other.
    split.
    + intros (f & Hf & Hy). apply list_elem_of_filter in Hf as [Hne Hf].
      split; [congruence|]. by exists f.
    + intros (Hne & f & Hf & Hy). exists f. split; [|done].
      apply list_elem_of_filter. split; [congruence|done].
Qed.

Lemma has_fy_other :
  Forall (fun f => is_Some (fy f))
    (annual_of (filter (fun f => fy f <> Some year) filings))
  <-> Forall (fun f => is_Some (fy f)) (annual_of filings).
Proof.
  rewrite annual_of_other, !Forall_forall. split.
  - intros H f Hf. destruct (decide (fy f = Some year)) as [->|Hne]; [by eexists|].
    apply H. by apply list_elem_of_filter.
  - intros H f Hf. apply list_elem_of_filter in Hf as [_ Hf]. by apply H.
Qed.

(** A year whose group resolves to nothing can be left out of the input. *)
Lemma resolve_filings_other :
  resolve_year year (group_of year (annual_of filings)) = Ok None ->
  resolve_filings (filter (fun f => fy f <> Some year) filings)
  = resolve_filings filings.
Proof.
  intros Hy.
  destruct (decide (Forall (fun f => is_Some (fy f)) (annual_of filings))) as [H|H].
  - rewrite (resolve_filings_seq filings) by done.
    rewrite resolve_filings_seq by (by apply has_fy_other).
    rewrite years_of_other.
    rewrite <- (resolve_seq_skip _ year (years_of (annual_of filings))) by done.
    apply resolve_seq_ext. intros y Hin. apply list_elem_of_filter in Hin as [Hne _].
    by apply group_of_other.
  - rewrite (resolve_filings_no_fy filings) by done.
    apply resolve_filings_no_fy. by rewrite has_fy_other.
Qed.
End WithoutYear.

(** C5.  A duration-typed group in which every record has a well-formed
    period and none is eligible resolves to nothing, without an error:
    nothing is emitted for its year, and the extraction behaves as it does
    on the input without the records of that year. *)
Theorem ineligible_year_is_dropped
    (data : Data) (metric_name : string) (filings : list Filing)
    (year : Z) (first : Filing) (rest : list Filing) :
  lookup_filings data metric_name = Ok filings ->
  group_of year (annual_of filings) = first :: rest ->
  is_Some (start first) ->
  Forall (fun f => is_Some (period f) /\ ~ eligible year f) (first :: rest) ->
  resolve_year year (first :: rest) = Ok None
  /\ extract_metric data metric_name
     = except_clause metric_name
         (resolve_filings (filter (fun f => fy f <> Some year) filings))
  /\ forall out results,
       extract_metric data metric_name = (out, Ok results) ->
       emitted year results = [].
Proof.
  intros Hl Hg Hs Hall.
  assert (resolve_year year (first :: rest) = Ok None) as Hy.
  { rewrite resolve_year_duration by done. by apply resolve_duration_none. }
  split; [done|]. split.
  - unfold extract_metric, extract_metric_try. rewrite Hl. simpl.
    rewrite resolve_filings_other; [done|]. by rewrite Hg.
  - intros out results He. unfold extract_metric, extract_metric_try in He.
    rewrite Hl in He. simpl in He.
    destruct (resolve_filings filings) as [l|e] eqn:Hr; simpl in He.
    + injection He as <- <-.
      destruct (resolve_filings_year _ _ _ _ _ Hr Hg) as (r & Hy' & ->).
      rewrite Hy in Hy'. by injection Hy' as <-.
    + destruct (caught e); [|done]. by injection He as <- <-.
Qed.

Lemma ineligible_year_is_dropped_witness :
  resolve_year 2020 [duration_filing 2020 "2020-01-01" "2020-07-19" "2021-02-10" 2490]
  = Ok None
  /\ extract_metric sample_data "NetIncomeLoss"
     = ([], Ok [duration_filing 2019 "2018-12-23" "2019-12-29" "2020-02-10" 350;
                duration_filing 2021 "2020-10-01" "2021-09-30" "2021-11-15" 3162]).
Proof.
  destruct (ineligible_year_is_dropped sample_data "NetIncomeLoss"
              net_income_filings 2020
              (duration_filing 2020 "2020-01-01" "2020-07-19" "2021-02-10" 2490) [])
    as (H1 & H2 & _).
  - vm_compute. reflexivity.
  - vm_compute. reflexivity.
  - eexists. reflexivity.
  - constructor; [|constructor]. split; [eexists; vm_compute; reflexivity|].
    intros (sd & ed & Hp & Hd & _). vm_compute in Hp. injection Hp as <- <-.
    vm_compute in Hd. by apply Hd.
  - split; [exact H1|]. rewrite H2. vm_compute. reflexivity.
Defined.

(** ** Extractions that complete *)

Lemma resolve_seq_total g years acc :
  (forall y, y ∈ years -> exists r, resolve_year y (g y) = Ok r) ->
  exists results, resolve_seq g years acc = Ok results.
Proof.
  revert acc. induction years as [|y ys IH]; intros acc H; simpl; [by eexists|].
  destruct (H y) as [r ->]; [by left|]. simpl.
  apply IH. intros z Hz. apply H. by right.
Qed.

(** When every annual record has a fiscal year, every record of a
    duration-typed group a well-formed period and every record of an
    instant-typed group a filing date, the extraction returns a list and
    prints nothing. *)
Lemma extract_metric_completes data metric_name filings :
  lookup_filings data metric_name = Ok filings ->
  Forall (fun f => is_Some (fy f)) (annual_of filings) ->
  (forall y first rest,
      group_of y (annual_of filings) = first :: rest ->
      (is_Some (start first) -> Forall (fun f => is_Some (period f)) (first :: rest))
      /\ (start first = None -> Forall (fun f => is_Some (filed f)) (first :: rest))) ->
  exists results, extract_metric data metric_name = ([], Ok results).
Proof.
  intros Hl Hfy Hgroups. unfold extract_metric, extract_metric_try. rewrite Hl. simpl.
  rewrite resolve_filings_seq by done.
  destruct (resolve_seq_total (fun y => group_of y (annual_of filings))
              (years_of (annual_of filings)) []) as [results ->]; [|by eexists].
  intros y Hy. apply elem_of_years_of in Hy as (f & Hf & Hy).
  destruct (group_of y (annual_of filings)) as [|first rest] eqn:Hg.
  { assert (f ∈ group_of y (annual_of filings)) as Hin by (by apply elem_of_group_of).
    rewrite Hg in Hin. by apply elem_of_nil in Hin. }
  destruct (Hgroups y first rest Hg) as [Hd Hi].
  destruct (start first) as [s|] eqn:Hs.
  - rewrite resolve_year_duration by (by rewrite Hs).
    apply resolve_duration_total, Hd. by eexists.
  - rewrite resolve_year_instant by done.
    destruct (resolve_instant_total (first :: rest)) as [m ->]; [done|by apply Hi|].
    by eexists.
Qed.

(** ** Absent concepts and units *)

(** C8.  When the concept is absent from the us-gaap facts the [try] block
    raises [KeyError] on the concept identifier, and when the concept has
    no USD unit it raises [KeyError] on ['USD']; in both cases
    [extract_metric] prints the error and returns the empty list, and no
    exception escapes. *)
Theorem absent_concept_or_unit_returns_empty
    (data : Data) (metric_name : string)
    (f : gmap string (gmap string Concept)) (g : gmap string Concept) :
  facts data = Some f ->
  f !! "us-gaap"%string = Some g ->
  (g !! metric_name = None ->
   extract_metric_try data metric_name = Raise (KeyError metric_name)
   /\ extract_metric data metric_name
      = ([ErrorExtracting metric_name (KeyError metric_name)], Ok []))
  /\ (forall c u,
        g !! metric_name = Some c -> units c = Some u -> u !! "USD"%string = None ->
        extract_metric_try data metric_name = Raise (KeyError "USD")
        /\ extract_metric data metric_name
           = ([ErrorExtracting metric_name (KeyError "USD")], Ok [])).
Proof.
  intros Hf Hg. unfold extract_metric, extract_metric_try, lookup_filings.
  rewrite Hf. simpl. rewrite Hg. simpl. split.
  - intros ->. done.
  - intros c u -> Hu Hn. simpl. rewrite Hu. simpl. rewrite Hn. done.
Qed.

Lemma absent_concept_or_unit_returns_empty_witness :
  extract_metric sample_data "Revenues"
  = ([ErrorExtracting "Revenues" (KeyError "Revenues")], Ok [])
  /\ extract_metric shares_only_data "CommonStockSharesOutstanding"
     = ([ErrorExtracting "CommonStockSharesOutstanding" (KeyError "USD")], Ok []).
Proof.
  split.
  - eapply (absent_concept_or_unit_returns_empty sample_data "Revenues").
    + reflexivity.
    + vm_compute. reflexivity.
    + vm_compute. reflexivity.
  - eapply (absent_concept_or_unit_returns_empty shares_only_data
              "CommonStockSharesOutstanding").
    + reflexivity.
    + vm_compute. reflexivity.
    + vm_compute. reflexivity.
    + reflexivity.
    + vm_compute. reflexivity.
Defined.

(** ** Malformed dates *)

Lemma candidate_of_keys year f s0 e0 :
  start f = Some s0 -> end_ f = Some e0 ->
  (exists o, candidate_of year f = Ok o /\ is_Some (period f))
  \/ (exists s, malformed_in s f /\ candidate_of year f = Raise (ValueError s)
                /\ period f = None).
Proof.
  intros Hs He. unfold candidate_of, period, malformed_in. rewrite Hs, He. simpl.
  destruct (Datetime.strptime s0) as [sd|e] eqn:Hsd; simpl.
  - destruct (Datetime.strptime e0) as [ed|e] eqn:Hed; simpl.
    + left. destruct (_ && _); eexists; split; by eauto.
    + right. pose proof (strptime_Raise _ _ Hed) as ->. exists e0. by auto.
  - right. pose proof (strptime_Raise _ _ Hsd) as ->. exists s0.
    split; [by auto|]. split; [done|]. by destruct (Datetime.strptime e0).
Qed.

Lemma collect_candidates_keys year group :
  Forall has_period_keys group ->
  (exists cs, collect_candidates year group = Ok cs
              /\ Forall (fun f => is_Some (period f)) group)
  \/ (exists s f, f ∈ group /\ malformed_in s f
                  /\ collect_candidates year group = Raise (ValueError s)).
Proof.
  induction 1 as [|f group (_ & [s0 Hs] & [e0 He]) _ IH]; simpl.
  - left. by eexists.
  - destruct (candidate_of_keys year f s0 e0 Hs He)
      as [(o & -> & Hp)|(s & Hbad & -> & _)]; simpl.
    + destruct IH as [(cs & -> & Hall)|(s & f' & Hin & Hbad & ->)]; simpl.
      * left. eexists. split; [done|]. by constructor.
      * right. exists s, f'. split; [by right|done].
    + right. exists s, f. split; [by left|done].
Qed.

Lemma resolve_year_keys year group :
  group <> [] -> Forall has_period_keys group ->
  (exists r, resolve_year year group = Ok r
             /\ Forall (fun f => is_Some (period f)) group)
  \/ (exists s f, f ∈ group /\ malformed_in s f
                  /\ resolve_year year group = Raise (ValueError s)).
Proof.
  intros Hne Hall. destruct group as [|first rest]; [done|].
  rewrite resolve_year_duration by (apply Forall_cons in Hall as [(_ & ? & _) _]; done).
  unfold resolve_duration.
  destruct (collect_candidates_keys year _ Hall)
    as [(cs & -> & Hp)|(s & f & Hin & Hbad & ->)]; simpl.
  - left. by eexists.
  - right. by exists s, f.
Qed.

Lemma resolve_seq_raises g years acc :
  (forall y, y ∈ years -> g y <> [] /\ Forall has_period_keys (g y)) ->
  (exists y, y ∈ years /\ ~ Forall (fun f => is_Some (period f)) (g y)) ->
  exists s f y, y ∈ years /\ f ∈ g y /\ malformed_in s f
    /\ resolve_seq g years acc = Raise (ValueError s).
Proof.
  revert acc. induction years as [|y ys IH]; intros acc Hkeys (y0 & Hy0 & Hbad).
  - by apply elem_of_nil in Hy0.
  - simpl. destruct (Hkeys y) as [Hne Hall]; [by left|].
    destruct (resolve_year_keys y _ Hne Hall) as [(r & -> & Hp)|(s & f & Hin & Hm & ->)];
      simpl.
    + destruct (IH (acc ++ option_list r)) as (s & f & y' & Hy' & Hf & Hm & Hr).
      * intros z Hz. apply Hkeys. by right.
      * exists y0. split; [|done].
        apply elem_of_cons in Hy0 as [->|Hy0]; [done|done].
      * exists s, f, y'. split; [by right|done].
    + exists s, f, y. split; [by left|done].
Qed.

(** C3, as the code has it.  When every annual record of the concept has a
    fiscal year, a start date and an end date, and the start or end date of
    some annual record is not a well-formed date, [strptime]'s [ValueError]
    on such a date string escapes [extract_metric]: no record is skipped
    and no list is returned. *)
Theorem malformed_date_raises_value_error
    (data : Data) (metric_name : string) (filings : list Filing) :
  lookup_filings data metric_name = Ok filings ->
  Forall has_period_keys (annual_of filings) ->
  Exists (fun f => period f = None) (annual_of filings) ->
  exists s f,
    f ∈ annual_of filings
    /\ malformed_in s f
    /\ extract_metric data metric_name = ([], Raise (ValueError s)).
Proof.
  intros Hl Hkeys Hbad. unfold extract_metric, extract_metric_try. rewrite Hl. simpl.
  rewrite resolve_filings_seq by (eapply Forall_impl; [exact Hkeys|]; by intros f [? _]).
  destruct (resolve_seq_raises (fun y => group_of y (annual_of filings))
              (years_of (annual_of filings)) [])
    as (s & f & y & Hy & Hf & Hm & ->).
  - intros y Hy. apply elem_of_years_of in Hy as (f & Hf & Hy). split.
    + intros Hnil. assert (f ∈ group_of y (annual_of filings)) as Hin
        by (by apply elem_of_group_of). rewrite Hnil in Hin. by apply elem_of_nil in Hin.
    + rewrite Forall_forall in Hkeys |- *. intros f' Hf'.
      apply elem_of_group_of in Hf' as [_ Hf']. by apply Hkeys.
  - apply Exists_exists in Hbad as (f & Hf & Hp).
    rewrite Forall_forall in Hkeys. destruct (Hkeys f Hf) as ([y Hy] & _).
    exists y. split; [apply elem_of_years_of; by exists f|].
    rewrite Forall_forall. intros Hall.
    destruct (Hall f) as [p Hp']; [by apply elem_of_group_of|]. congruence.
  - exists s, f. split; [by apply elem_of_group_of in Hf as [_ ?]|]. done.
Qed.

Lemma malformed_date_raises_value_error_witness :
  exists s f,
    f ∈ annual_of malformed_filings
    /\ malformed_in s f
    /\ extract_metric (data_of [("NetIncomeLoss"%string, malformed_filings)])
         "NetIncomeLoss" = ([], Raise (ValueError s)).
Proof.
  apply (malformed_date_raises_value_error
           (data_of [("NetIncomeLoss"%string, malformed_filings)]) "NetIncomeLoss"
           malformed_filings).
  - vm_compute. reflexivity.
  - repeat constructor; eexists; reflexivity.
  - left. vm_compute. reflexivity.
Defined.

(** The dates of an instant-typed group are not parsed: a record with an
    end date that is not a date is resolved like any other. *)
Example instant_group_dates_are_not_parsed :
  extract_metric
    (data_of [("Assets"%string,
               [instant_filing 2022 "2022-13-45" "2023-01-15" 120])])
    "Assets"
  = ([], Ok [instant_filing 2022 "2022-13-45" "2023-01-15" 120]).
Proof. vm_compute. reflexivity. Qed.

(** C3 fails as stated: the malformed fiscal year 2020 record is not
    skipped.  The extraction raises and returns nothing, whereas skipping
    the record would have returned the fiscal year 2021 record. *)
Lemma malformed_record_is_not_skipped :
  malformed_in "2020-13-45"
    (duration_filing 2020 "2020-01-01" "2020-13-45" "2021-02-10" 2490)
  /\ extract_metric (data_of [("NetIncomeLoss"%string, malformed_filings)])
       "NetIncomeLoss"
     = ([], Raise (ValueError "2020-13-45"))
  /\ extract_metric
       (data_of [("NetIncomeLoss"%string,
                  [duration_filing 2021 "2021-01-01" "2021-12-31" "2022-02-10" 3162])])
       "NetIncomeLoss"
     = ([], Ok [duration_filing 2021 "2021-01-01" "2021-12-31" "2022-02-10" 3162])
  /\ ~ exists results,
         extract_metric (data_of [("NetIncomeLoss"%string, malformed_filings)])
           "NetIncomeLoss" = ([], Ok results).
Proof.
  split; [split; [by right|vm_compute; reflexivity]|].
  split; [vm_compute; reflexivity|]. split; [vm_compute; reflexivity|].
  intros [results H]. vm_compute in H. discriminate H.
Qed.

(** ** Rounding to binary64 *)

Lemma round_half_even_nonneg q : (0 <= q)%Q -> 0 <= round_half_even q.
Proof.
  destruct q as [n d]. unfold Qle, round_half_even. simpl. intros Hn.
  assert (0 <= n) as Hn' by lia.
  pose proof (Z.div_pos n (Z.pos d) Hn' ltac:(lia)).
  repeat destruct (_ <? _); try destruct (Z.even _); lia.
Qed.

Lemma round_half_even_near q :
  (inject_Z (round_half_even q) - q <= 1 # 2)%Q
  /\ (q - inject_Z (round_half_even q) <= 1 # 2)%Q.
Proof.
  destruct q as [n d]. unfold round_half_even. simpl.
  pose proof (Z.div_mod n (Z.pos d) ltac:(lia)) as Hdm.
  pose proof (Z.mod_pos_bound n (Z.pos d) ltac:(lia)) as Hr.
  set (k := n / Z.pos d) in *. set (r := n mod Z.pos d) in *.
  assert (forall z, (inject_Z z - (n # d) <= 1 # 2)%Q
                    <-> 2 * (z * Z.pos d - n) <= Z.pos d) as H1.
  { intros z. unfold Qle, Qminus, Qplus, Qopp, inject_Z. simpl. lia. }
  assert (forall z, ((n # d) - inject_Z z <= 1 # 2)%Q
                    <-> 2 * (n - z * Z.pos d) <= Z.pos d) as H2.
  { intros z. unfold Qle, Qminus, Qplus, Qopp, inject_Z. simpl. lia. }
  rewrite H1, H2.
  destruct (2 * r <? Z.pos d) eqn:E1; [apply Z.ltb_lt in E1; nia|].
  apply Z.ltb_ge in E1.
  destruct (Z.pos d <? 2 * r) eqn:E2; [apply Z.ltb_lt in E2; nia|].
  apply Z.ltb_ge in E2. destruct (Z.even k); nia.
Qed.

Lemma two_power_pos (e : Z) : (0 < 2 ^ e)%Q.
Proof. by apply Qpower_0_lt. Qed.

Lemma floor_log2_spec q :
  (0 < q)%Q -> (2 ^ floor_log2 q <= q)%Q /\ (q < 2 ^ (floor_log2 q + 1))%Q.
Proof.
  intros Hq. unfold floor_log2.
  destruct q as [n d]. cbn [Qnum Qden].
  assert (0 < n) as Hn by (unfold Qlt in Hq; simpl in Hq; lia).
  pose proof (Z.log2_spec n Hn) as [Ha1 Ha2].
  pose proof (Z.log2_spec (Z.pos d) ltac:(lia)) as [Hb1 Hb2].
  pose proof (Z.log2_nonneg n) as Ha0. pose proof (Z.log2_nonneg (Z.pos d)) as Hb0.
  set (a := Z.log2 n) in *. set (b := Z.log2 (Z.pos d)) in *.
  assert (inject_Z (2 ^ a) == 2 ^ a)%Q as HA by (by apply Zpower_Qpower).
  assert (inject_Z (2 ^ b) == 2 ^ b)%Q as HB by (by apply Zpower_Qpower).
  assert (2 ^ (a - b) == 2 ^ a / 2 ^ b)%Q as Hk by (by apply Qpower_minus).
  assert (n # d == inject_Z n / inject_Z (Z.pos d))%Q as Hnd by apply Qmake_Qdiv.
  pose proof (two_power_pos a) as Hpa. pose proof (two_power_pos b) as Hpb.
  assert (0 < inject_Z (Z.pos d))%Q as Hd by (unfold Qlt; simpl; lia).
  assert (2 ^ a <= inject_Z n)%Q as Ha1q by (rewrite <- HA, <- Zle_Qle; lia).
  assert (inject_Z n < 2 * 2 ^ a)%Q as Ha2q.
  { rewrite <- HA. change 2%Q with (inject_Z 2). rewrite <- inject_Z_mult, <- Zlt_Qlt.
    rewrite Z.pow_succ_r in Ha2 by lia. lia. }
  assert (2 ^ b <= inject_Z (Z.pos d))%Q as Hb1q by (rewrite <- HB, <- Zle_Qle; lia).
  assert (inject_Z (Z.pos d) < 2 * 2 ^ b)%Q as Hb2q.
  { rewrite <- HB. change 2%Q with (inject_Z 2). rewrite <- inject_Z_mult, <- Zlt_Qlt.
    rewrite Z.pow_succ_r in Hb2 by lia. lia. }
  destruct (Qle_bool (2 ^ (a - b)) (n # d)) eqn:Ht.
  - apply Qle_bool_iff in Ht. split; [exact Ht|].
    rewrite Qpower_plus by done. rewrite Hk, Hnd.
    apply Qlt_shift_div_r; [done|].
    assert (2 ^ a / 2 ^ b * 2 ^ 1 * inject_Z (Z.pos d)
            == 2 * 2 ^ a * (inject_Z (Z.pos d) / 2 ^ b))%Q as ->
      by (change (2 ^ 1)%Q with 2%Q; field; lra).
    assert (1 <= inject_Z (Z.pos d) / 2 ^ b)%Q
      by (apply Qle_shift_div_l; [done|lra]).
    nra.
  - assert (~ (2 ^ (a - b) <= n # d)%Q) as Hnt
      by (intros H; apply Qle_bool_iff in H; congruence).
    apply Qnot_le_lt in Hnt.
    replace (a - b - 1 + 1) with (a - b) by lia. split; [|exact Hnt].
    assert (2 ^ (a - b - 1) == 2 ^ a / (2 * 2 ^ b))%Q as ->.
    { rewrite Qpower_minus by done. rewrite Hk. change (2 ^ 1)%Q with 2%Q. field. lra. }
    rewrite Hnd. apply Qle_shift_div_l; [done|].
    assert (2 ^ a / (2 * 2 ^ b) * inject_Z (Z.pos d)
            == 2 ^ a * (inject_Z (Z.pos d) / (2 * 2 ^ b)))%Q as ->
      by (field; lra).
    assert (inject_Z (Z.pos d) / (2 * 2 ^ b) <= 1)%Q
      by (apply Qle_shift_div_r; lra).
    nra.
Qed.

Lemma round_magnitude_normal q :
  (2 ^ (-1022) <= q)%Q ->
  (round_magnitude q - q <= q * unit_roundoff)%Q
  /\ (q - round_magnitude q <= q * unit_roundoff)%Q.
Proof.
  intros Hq. pose proof (two_power_pos (-1022)) as Hmin.
  assert (0 < q)%Q as Hpos by lra.
  unfold round_magnitude.
  destruct (Qle_bool q 0) eqn:Hz; [apply Qle_bool_iff in Hz; lra|].
  destruct (floor_log2_spec q Hpos) as [He1 He2].
  set (e := floor_log2 q) in *.
  assert (-1022 < e + 1) as He.
  { apply (Qpower_lt_compat_l_inv 2); [|lra]. lra. }
  rewrite Z.max_l by lia. rewrite Qred_correct.
  pose proof (two_power_pos (e - 52)) as Hpe.
  destruct (round_half_even_near (q / 2 ^ (e - 52))) as [H1 H2].
  set (m := inject_Z (round_half_even (q / 2 ^ (e - 52)))) in *.
  assert (2 ^ (e - 52) == 2 ^ e * (1 # 4503599627370496))%Q as Hpow.
  { rewrite Qpower_minus by done. reflexivity. }
  assert (q == q / 2 ^ (e - 52) * 2 ^ (e - 52))%Q as Hqq by (field; lra).
  set (x := (q / 2 ^ (e - 52))%Q) in *.
  set (p := (2 ^ (e - 52))%Q) in *.
  unfold unit_roundoff.
  assert (p <= q * (1 # 4503599627370496))%Q as Hp by (rewrite Hpow; nra).
  split.
  - assert (m * p - q == (m - x) * p)%Q as -> by (rewrite Hqq at 1; ring). nra.
  - assert (q - m * p == (x - m) * p)%Q as -> by (rewrite Hqq at 1; ring). nra.
Qed.

Lemma round_magnitude_zero q : (q == 0)%Q -> round_magnitude q = 0%Q.
Proof.
  intros Hq. unfold round_magnitude.
  assert (Qle_bool q 0 = true) as -> by (apply Qle_bool_iff; lra). done.
Qed.

Lemma two_power_1024 : (2 ^ 1024 == 2 * 2 ^ 1023)%Q.
Proof. change 1024 with (1 + 1023). by rewrite Qpower_plus. Qed.

(** In the normal range a magnitude rounds to a finite float, with a
    relative error of at most [unit_roundoff]; zero rounds to zero. *)
Lemma round64_normal s q :
  (q == 0)%Q \/ (2 ^ (-1022) <= q)%Q /\ (q <= 2 ^ 1023)%Q ->
  exists r, round64 s q = FFin s r
    /\ (r - q <= q * unit_roundoff)%Q /\ (q - r <= q * unit_roundoff)%Q.
Proof.
  pose proof (two_power_pos 1023) as H1023. pose proof two_power_1024 as H1024.
  intros [Hq|[Hlo Hhi]]; unfold round64.
  - rewrite (round_magnitude_zero q Hq).
    assert (Qle_bool (2 ^ 1024) 0 = false) as ->.
    { apply not_true_iff_false. intros H. apply Qle_bool_iff in H. lra. }
    exists 0%Q. split; [done|]. unfold unit_roundoff. lra.
  - destruct (round_magnitude_normal q Hlo) as [Hr1 Hr2].
    exists (round_magnitude q). split; [|done].
    assert (Qle_bool (2 ^ 1024) (round_magnitude q) = false) as ->; [|done].
    apply not_true_iff_false. intros H. apply Qle_bool_iff in H.
    unfold unit_roundoff in Hr1. nra.
Qed.

Lemma inject_Z_two_power (n : Z) : 0 <= n -> (inject_Z (2 ^ n) == 2 ^ n)%Q.
Proof. intros Hn. by apply Zpower_Qpower. Qed.

Lemma two_power_le (n m : Z) : n <= m -> (2 ^ n <= 2 ^ m)%Q.
Proof. intros H. by apply Qpower_le_compat_l. Qed.

(** An int of magnitude at most [2^1000] converts to a float. *)
Lemma to_float_int n :
  Z.abs n <= 2 ^ 1000 -> exists m, to_float (PyInt n) = Ok (FFin (n <? 0) m).
Proof.
  intros Hn. unfold to_float, float_of_Q.
  assert (negb (Qle_bool 0 (inject_Z n)) = (n <? 0)) as ->.
  { destruct (n <? 0) eqn:E.
    - apply Z.ltb_lt in E. apply negb_true_iff, not_true_iff_false.
      intros H. apply Qle_bool_iff in H. change 0%Q with (inject_Z 0) in H.
      rewrite <- Zle_Qle in H. lia.
    - apply Z.ltb_ge in E. apply negb_false_iff, Qle_bool_iff.
      change 0%Q with (inject_Z 0). by rewrite <- Zle_Qle. }
  destruct (round64_normal (n <? 0) (Qabs (inject_Z n))) as (m & -> & _); [|by exists m].
  change (Qabs (inject_Z n)) with (inject_Z (Z.abs n)).
  destruct (decide (n = 0)) as [->|Hne]; [by left|right].
  pose proof (two_power_le (-1022) 0 ltac:(lia)) as H1.
  pose proof (two_power_le 1000 1023 ltac:(lia)) as H2.
  pose proof (inject_Z_two_power 1000 ltac:(lia)) as H3.
  assert (inject_Z 1 <= inject_Z (Z.abs n))%Q as H4 by (rewrite <- Zle_Qle; lia).
  assert (inject_Z (Z.abs n) <= inject_Z (2 ^ 1000))%Q as H5 by (by rewrite <- Zle_Qle).
  change (2 ^ 0)%Q with 1%Q in H1. change (inject_Z 1) with 1%Q in H4.
  split; lra.
Qed.

Lemma Qred_inject_Z n : Qred (inject_Z n) = inject_Z n.
Proof.
  unfold Qred, inject_Z.
  pose proof (Z.ggcd_gcd n 1) as Hg. pose proof (Z.ggcd_correct_divisors n 1) as Hd.
  destruct (Z.ggcd n 1) as [g [aa bb]]. simpl in Hg. rewrite Z.gcd_1_r in Hg. subst g.
  destruct Hd as [Ha Hb]. assert (aa = n) as -> by lia. assert (bb = 1) as -> by lia.
  done.
Qed.

Lemma number_of_json_int n : number_of_json (inject_Z n) = PyInt n.
Proof. unfold number_of_json. by rewrite Qred_inject_Z. Qed.

Lemma to_float_hundred : to_float (PyInt 100) = Ok (FFin false 100).
Proof. vm_compute. reflexivity. Qed.

(** The growth between two whole values of magnitude at most [2^1000] is
    computed without exception; it has the sign of the change, and differs
    from the exact growth by a relative error of at most [2^-51]. *)
Lemma growth_pct_int p v :
  p <> 0 -> Z.abs p <= 2 ^ 1000 -> Z.abs v <= 2 ^ 1000 ->
  exists g,
    growth_pct (PyInt p) (PyInt v) = Ok (FFin (v <? p) g)
    /\ (0 <= g)%Q
    /\ ((g == 0)%Q <-> v = p)
    /\ (Qabs (signed (v <? p) g - exact_growth p v)
        <= Qabs (exact_growth p v) * growth_error)%Q.
Proof.
  intros Hp Hpb Hvb.
  pose proof (two_power_le (-1022) (-1000) ltac:(lia)) as Hlo.
  pose proof (two_power_pos 1000) as HT.
  pose proof (two_power_pos (-1022)) as Hlopos.
  assert (2 ^ (-1000) == / 2 ^ 1000)%Q as Hinv by (by rewrite (Qpower_opp 2 1000)).
  assert (2 ^ 1023 == 2 ^ 1000 * 8388608)%Q as Hhi
    by (change 1023 with (1000 + 23); by rewrite Qpower_plus).
  pose proof (inject_Z_two_power 1000 ltac:(lia)) as HTz.
  rewrite Hinv in Hlo. clear Hinv.
  remember (2 ^ 1000)%Q as T eqn:ET.
  remember (2 ^ (-1022))%Q as lo eqn:Elo.
  remember (2 ^ 1023)%Q as hi eqn:Ehi.
  remember (/ T)%Q as iT eqn:EiT.
  set (d := v - p). set (B := Z.abs p).
  assert (1 <= inject_Z B)%Q as HB1
    by (change 1%Q with (inject_Z 1); rewrite <- Zle_Qle; lia).
  assert (inject_Z B <= T)%Q as HB2 by (rewrite <- HTz, <- Zle_Qle; lia).
  assert (inject_Z (Z.abs d) <= 2 * T)%Q as HA2.
  { rewrite <- HTz. change 2%Q with (inject_Z 2).
    rewrite <- inject_Z_mult, <- Zle_Qle. lia. }
  set (x := (inject_Z (Z.abs d) / inject_Z B)%Q).
  assert (Qabs (inject_Z d / inject_Z B) == x)%Q as Hx.
  { unfold x, Qdiv. rewrite Qabs_Qmult, Qabs_Qinv.
    change (Qabs (inject_Z d)) with (inject_Z (Z.abs d)).
    change (Qabs (inject_Z B)) with (inject_Z (Z.abs B)).
    by rewrite (Z.abs_eq B) by (unfold B; lia). }
  assert (x * inject_Z B == inject_Z (Z.abs d))%Q as HxB by (unfold x; field; lra).
  assert (0 <= x)%Q as Hx0.
  { unfold x. apply Qle_shift_div_l; [lra|].
    assert (0 <= inject_Z (Z.abs d))%Q
      by (change 0%Q with (inject_Z 0); rewrite <- Zle_Qle; lia). lra. }
  assert (x <= inject_Z (Z.abs d))%Q as Hxa by (rewrite <- HxB; nra).
  assert ((x == 0)%Q \/ (lo <= x)%Q /\ (x <= hi)%Q) as Hrange.
  { destruct (decide (d = 0)) as [Hd|Hd].
    - left. unfold x. rewrite Hd. change (inject_Z (Z.abs 0)) with 0%Q. field. lra.
    - right.
      assert (1 <= inject_Z (Z.abs d))%Q as HA1
        by (change 1%Q with (inject_Z 1); rewrite <- Zle_Qle; lia).
      assert (iT <= x)%Q.
      { unfold x. apply Qle_shift_div_l; [lra|].
        assert (iT * inject_Z B <= 1)%Q; [|lra].
        assert (iT * inject_Z B == inject_Z B / T)%Q as -> by (rewrite EiT; field; lra).
        apply Qle_shift_div_r; lra. }
      split; lra. }
  destruct (round64_normal (v <? p) (Qabs (inject_Z d / inject_Z B)))
    as (r1 & Hr1 & Hr1a & Hr1b); [by rewrite Hx, <- Elo, <- Ehi|].
  rewrite Hx in Hr1a, Hr1b. unfold unit_roundoff in Hr1a, Hr1b.
  assert ((r1 * 100 == 0)%Q \/ (lo <= r1 * 100)%Q /\ (r1 * 100 <= hi)%Q) as Hrange2.
  { destruct Hrange as [Hz|[H1 H2]].
    - left. lra.
    - right. split; lra. }
  destruct (round64_normal (v <? p) (r1 * 100)) as (g & Hg & Hga & Hgb);
    [by rewrite <- Elo, <- Ehi|].
  unfold unit_roundoff in Hga, Hgb.
  exists g. split; [|split; [|split]].
  - unfold growth_pct. cbn [py_sub py_abs]. cbn [mbind result_mbind result_bind].
    unfold py_truediv. fold d B.
    assert ((B =? 0) = false) as -> by (apply Z.eqb_neq; lia).
    assert (xorb (d <? 0) (B <? 0) = (v <? p)) as ->.
    { assert ((B <? 0) = false) as -> by (apply Z.ltb_ge; lia).
      rewrite xorb_false_r. unfold d.
      destruct (v <? p) eqn:E; [apply Z.ltb_lt in E; apply Z.ltb_lt; lia|].
      apply Z.ltb_ge in E. apply Z.ltb_ge. lia. }
    rewrite Hr1. cbn [mbind result_mbind result_bind].
    rewrite to_float_hundred. cbn [mbind result_mbind result_bind].
    unfold fmul. by rewrite xorb_false_r, Hg.
  - nra.
  - unfold d in *. split.
    + intros Hg0. destruct (decide (v = p)) as [|Hne]; [done|]. exfalso.
      destruct Hrange as [Hz|[H1 H2]].
      * assert (inject_Z (Z.abs (v - p)) == 0)%Q as Habs by (rewrite <- HxB, Hz; ring).
        unfold Qeq in Habs. simpl in Habs. lia.
      * lra.
    + intros ->. assert (x == 0)%Q as Hz.
      { unfold x. rewrite Z.sub_diag. change (inject_Z (Z.abs 0)) with 0%Q. field. lra. }
      nra.
  - assert (exact_growth p v == signed (v <? p) (x * 100))%Q as Hex.
    { unfold exact_growth, signed.
      change (Qabs (inject_Z p)) with (inject_Z B).
      assert (inject_Z v - inject_Z p == inject_Z d)%Q as ->
        by (unfold d, Z.sub; rewrite inject_Z_plus, inject_Z_opp; ring).
      destruct (v <? p) eqn:E.
      - apply Z.ltb_lt in E.
        assert (inject_Z (Z.abs d) == - inject_Z d)%Q as Hneg.
        { rewrite Z.abs_neq by (unfold d; lia). by rewrite inject_Z_opp. }
        unfold x. rewrite Hneg. field. lra.
      - apply Z.ltb_ge in E.
        unfold x. rewrite Z.abs_eq by (unfold d; lia). reflexivity. }
    rewrite Hex. unfold growth_error.
    assert (Qabs (signed (v <? p) (x * 100)) == x * 100)%Q as ->.
    { unfold signed. destruct (v <? p); [rewrite Qabs_opp|]; apply Qabs_pos; nra. }
    apply Qabs_Qle_condition.
    unfold signed. destruct (v <? p); split; nra.
Qed.

(** ** Year-over-year growth *)

Lemma format_growth_not_na g : format_growth g <> "N/A"%string.
Proof. by destruct g as [|[]|[] m]. Qed.

Lemma is_zero_billion : is_zero (FFin false 1000000000) = false.
Proof. reflexivity. Qed.

(** The lines of [print_row]: what does not depend on the arithmetic. *)
Lemma print_row_Ok prev year v row :
  print_row prev year v = Ok row ->
  exists growth,
    growth_of prev (number_of_json v) = Ok growth
    /\ row = {| row_year := year;
                row_val := v;
                row_status := if py_gt0 (number_of_json v) then "PROFIT" else "LOSS";
                row_growth := growth;
                row_growth_str := from_option format_growth "N/A"%string growth |}.
Proof.
  unfold print_row. intros H. apply bind_Ok in H as (val_b & _ & H).
  apply bind_Ok in H as (growth & Hg & [= <-]). by exists growth.
Qed.

Lemma row_growth_na row prev year v :
  print_row prev year v = Ok row ->
  row_growth_str row = "N/A"%string <-> row_growth row = None.
Proof.
  intros H. apply print_row_Ok in H as (growth & _ & ->). simpl.
  destruct growth as [g|]; simpl; [|done].
  split; [intros H; by apply format_growth_not_na in H|done].
Qed.

(** A float made of a nonzero int is not zero. *)
Lemma to_float_nonzero n x : n <> 0 -> to_float (PyInt n) = Ok x -> is_zero x = false.
Proof.
  intros Hn. unfold to_float, float_of_Q, round64.
  change (Qabs (inject_Z n)) with (inject_Z (Z.abs n)).
  assert (1 <= inject_Z (Z.abs n))%Q as H1
    by (change 1%Q with (inject_Z 1); rewrite <- Zle_Qle; lia).
  pose proof (two_power_le (-1022) 0 ltac:(lia)) as H2. change (2 ^ 0)%Q with 1%Q in H2.
  destruct (round_magnitude_normal (inject_Z (Z.abs n))) as [_ Hr]; [lra|].
  unfold unit_roundoff in Hr.
  destruct (Qle_bool (2 ^ 1024) _); [done|]. intros [= <-]. simpl.
  apply not_true_iff_false. intros Hz. apply Qeq_bool_iff in Hz. lra.
Qed.

Lemma to_float_Raise a e : to_float a = Raise e -> e = OverflowError.
Proof.
  destruct a as [n|x]; simpl; [|done].
  destruct (float_of_Q (inject_Z n)); [done| |done]. by intros [= <-].
Qed.

Lemma is_zero_fabs x : is_zero (fabs x) = is_zero x.
Proof. by destruct x. Qed.

Lemma py_sub_Raise a b e : py_sub a b = Raise e -> e = OverflowError.
Proof.
  unfold py_sub. intros H.
  destruct a as [m|x], b as [n|y]; [done|..];
    (apply bind_Raise in H as [H|(x1 & H1 & H)]; [by apply to_float_Raise in H|];
     apply bind_Raise in H as [H|(x2 & H2 & H)]; [by apply to_float_Raise in H|done]).
Qed.

(** The arithmetic of a line raises nothing but [OverflowError]. *)
Lemma growth_pct_Raise p v e :
  py_nonzero p = true -> growth_pct p v = Raise e -> e = OverflowError.
Proof.
  intros Hp. unfold growth_pct. intros H.
  apply bind_Raise in H as [H|(d & Hd & H)]; [by eapply py_sub_Raise|].
  apply bind_Raise in H as [H|(q & Hq & H)].
  - destruct d as [a|x], p as [b|y]; unfold py_truediv, py_abs in H; cbn beta iota in H.
    + simpl in Hp. apply negb_true_iff in Hp. apply Z.eqb_neq in Hp.
      assert ((Z.abs b =? 0) = false) as Hb by (apply Z.eqb_neq; lia).
      rewrite Hb in H. destruct (round64 _ _); congruence.
    + apply bind_Raise in H as [H|(x1 & H1 & H)]; [by apply to_float_Raise in H|].
      apply bind_Raise in H as [H|(x2 & [= <-] & H)]; [done|].
      simpl in Hp. apply negb_true_iff in Hp. by rewrite is_zero_fabs, Hp in H.
    + apply bind_Raise in H as [H|(x1 & [= <-] & H)]; [done|].
      apply bind_Raise in H as [H|(x2 & H2 & H)]; [by apply to_float_Raise in H|].
      simpl in Hp. apply negb_true_iff in Hp. apply Z.eqb_neq in Hp.
      by rewrite (to_float_nonzero (Z.abs b) x2) in H by (lia || done).
    + apply bind_Raise in H as [H|(x1 & [= <-] & H)]; [done|].
      apply bind_Raise in H as [H|(x2 & [= <-] & H)]; [done|].
      simpl in Hp. apply negb_true_iff in Hp. by rewrite is_zero_fabs, Hp in H.
  - apply bind_Raise in H as [H|(h & _ & H)]; [|done]. by apply to_float_Raise in H.
Qed.

Lemma py_truediv_billion_Raise a e :
  py_truediv a (PyFloat (FFin false 1000000000)) = Raise e -> e = OverflowError.
Proof.
  unfold py_truediv. destruct a as [n|x].
  - destruct (to_float (PyInt n)) as [y|e'] eqn:Hy;
      cbn [mbind result_mbind result_bind to_float].
    + by rewrite is_zero_billion.
    + intros [= <-]. by apply to_float_Raise in Hy.
  - cbn [mbind result_mbind result_bind to_float]. by rewrite is_zero_billion.
Qed.

Lemma print_row_Raise prev year v e :
  print_row prev year v = Raise e -> e = OverflowError.
Proof.
  unfold print_row. intros H. apply bind_Raise in H as [H|(val_b & _ & H)].
  - by eapply py_truediv_billion_Raise.
  - apply bind_Raise in H as [H|(g & _ & H)]; [|done].
    unfold growth_of in H. destruct prev as [p|]; [|done].
    destruct (py_nonzero p) eqn:Hp; [|done].
    apply bind_Raise in H as [H|(g & _ & H)]; [|done]. by eapply growth_pct_Raise.
Qed.

(** A line for a whole value of magnitude at most [2^1000], after nothing
    or after such a value. *)
Lemma print_row_int prev year n :
  Z.abs n <= 2 ^ 1000 ->
  (forall p, prev = Some p -> exists k, p = PyInt k /\ Z.abs k <= 2 ^ 1000) ->
  exists row,
    print_row prev year (inject_Z n) = Ok row
    /\ match prev with
       | Some (PyInt k) =>
           if k =? 0 then row_growth row = None
           else exists g,
               growth_pct (PyInt k) (PyInt n) = Ok (FFin (n <? k) g)
               /\ row_growth row = Some (FFin (n <? k) g)
               /\ (0 <= g)%Q /\ ((g == 0)%Q <-> n = k)
               /\ (Qabs (signed (n <? k) g - exact_growth k n)
                   <= Qabs (exact_growth k n) * growth_error)%Q
       | _ => row_growth row = None
       end.
Proof.
  intros Hn Hprev. unfold print_row. rewrite number_of_json_int.
  assert (exists x, py_truediv (PyInt n) (PyFloat (FFin false 1000000000)) = Ok x)
    as [x ->].
  { unfold py_truediv. destruct (to_float_int n Hn) as [m ->].
    cbn [mbind result_mbind result_bind to_float].
    rewrite is_zero_billion. by eexists. }
  cbn [mbind result_mbind result_bind].
  destruct prev as [p|]; [|simpl; by eexists].
  destruct (Hprev p eq_refl) as (k & -> & Hk). unfold growth_of. simpl py_nonzero.
  destruct (k =? 0) eqn:Hk0; simpl; [by eexists|].
  apply Z.eqb_neq in Hk0.
  destruct (growth_pct_int k n Hk0 Hk Hn) as (g & Hgp & Hg). rewrite Hgp. simpl.
  eexists. split; [done|]. simpl. by exists g.
Qed.

(** The rows of the loop started with [prev], as far as they are printed:
    row [i] is the line of entry [i] after the value before it. *)
Lemma display_loop_rows prev filings i row :
  (display_loop prev filings).1 !! i = Some row ->
  exists f year v,
    filings !! i = Some f /\ fy f = Some year /\ val f = Some v
    /\ print_row (match i with
                  | O => prev
                  | S _ => number_of_json <$> prev_val_at filings i
                  end) year v = Ok row.
Proof.
  revert prev i. induction filings as [|f filings IH]; intros prev i; simpl; [done|].
  destruct (fy f) as [year|] eqn:Hy; simpl; [|done].
  destruct (val f) as [v|] eqn:Hv; simpl; [|done].
  destruct (print_row prev year v) as [r|e] eqn:Hr; simpl; [|done].
  destruct i as [|i]; simpl.
  - intros [= <-]. by exists f, year, v.
  - intros Hi. destruct (IH _ _ Hi) as (f' & year' & v' & Hf' & Hy' & Hv' & Hrow).
    exists f', year', v'. split; [done|]. split; [done|]. split; [done|].
    destruct i as [|i]; simpl in *; [by rewrite Hv|done].
Qed.

(** The loop on printable records completes. *)
Lemma display_loop_printable prev filings :
  Forall printable filings ->
  (forall p, prev = Some p -> exists k, p = PyInt k /\ Z.abs k <= 2 ^ 1000) ->
  exists rows,
    display_loop prev filings = (rows, None) /\ length rows = length filings.
Proof.
  intros Hall. revert prev.
  induction Hall as [|f filings ([year Hy] & n & Hv & Hn) _ IH]; intros prev Hprev; simpl.
  - by exists [].
  - rewrite Hy, Hv. simpl.
    destruct (print_row_int prev year n Hn Hprev) as (row & -> & _).
    destruct (IH (Some (number_of_json (inject_Z n)))) as (rows & -> & Hlen).
    { intros p [= <-]. rewrite number_of_json_int. by exists n. }
    exists (row :: rows). simpl. by rewrite Hlen.
Qed.

(** The value before entry [i] of a list of printable records. *)
Lemma prev_val_printable filings i f :
  Forall printable filings -> filings !! S i = Some f ->
  exists k, prev_val_at filings (S i) = Some (inject_Z k) /\ Z.abs k <= 2 ^ 1000.
Proof.
  intros Hall Hi. simpl.
  destruct (lookup_lt_is_Some_2 filings i) as [f0 Hf0].
  { apply lookup_lt_Some in Hi. lia. }
  rewrite Hf0. simpl. rewrite Forall_forall in Hall.
  destruct (Hall f0) as (_ & k & Hk & Hb); [by eapply list_elem_of_lookup_2|].
  by exists k.
Qed.

Lemma inject_Z_eq_zero k : (inject_Z k == 0)%Q <-> k = 0.
Proof. unfold Qeq. simpl. lia. Qed.

(** C6.  For a series whose entries all have a year and a whole value of
    magnitude at most [2^1000], [display_net_income] prints one row per
    entry and raises nothing.  The growth of a row is not applicable
    exactly when the entry is the first one or the value before it is zero;
    otherwise it is [((value - previous) / |previous|) * 100] as Python
    computes it: a float with the sign of the change, whose value differs
    from the exact quotient by a relative error of at most [2^-51], printed
    with one decimal.  For the values 100, -50 and 0 the growth column
    reads N/A, -150.0%, +100.0%. *)
Theorem growth_is_relative_to_previous_value (filings : list Filing) :
  Forall printable filings ->
  (exists rows,
      display_net_income filings = (rows, None)
      /\ length rows = length filings
      /\ forall i f v row,
           filings !! i = Some f -> val f = Some (inject_Z v) ->
           rows !! i = Some row ->
           (row_growth_str row = "N/A"%string <-> row_growth row = None)
           /\ (row_growth row = None <->
               i = 0%nat
               \/ exists p, prev_val_at filings i = Some p /\ (p == 0)%Q)
           /\ (forall p, prev_val_at filings i = Some (inject_Z p) -> p <> 0 ->
               exists g,
                 growth_pct (PyInt p) (PyInt v) = Ok (FFin (v <? p) g)
                 /\ row_growth row = Some (FFin (v <? p) g)
                 /\ (Qabs (signed (v <? p) g - exact_growth p v)
                     <= Qabs (exact_growth p v) * growth_error)%Q
                 /\ row_growth_str row = format_growth (FFin (v <? p) g)))
  /\ row_growth_str
       <$> (display_net_income
              (series_of [(2020, 100%Q); (2021, (-50)%Q); (2022, 0%Q)])).1
     = ["N/A"; "-150.0%"; "+100.0%"]%string.
Proof.
  intros Hall. split; [|vm_compute; reflexivity].
  unfold display_net_income.
  destruct (display_loop_printable None filings Hall) as (rows & Hd & Hlen); [done|].
  exists rows. split; [done|]. split; [done|].
  intros i f v row Hi Hv Hrow.
  assert ((display_loop None filings).1 !! i = Some row) as Hrow' by (by rewrite Hd).
  destruct (display_loop_rows _ _ _ _ Hrow') as (f' & year & v' & Hf' & Hy & Hv' & Hp).
  rewrite Hi in Hf'. injection Hf' as <-. rewrite Hv in Hv'. injection Hv' as <-.
  split; [by eapply row_growth_na|].
  assert (Z.abs v <= 2 ^ 1000) as Hvb.
  { rewrite Forall_forall in Hall.
    destruct (Hall f) as (_ & n & Hn & Hb); [by eapply list_elem_of_lookup_2|].
    rewrite Hv in Hn. injection Hn as ->. done. }
  destruct i as [|i].
  - destruct (print_row_int None year v Hvb) as (row' & Hrow'' & Hg); [done|].
    rewrite Hp in Hrow''. injection Hrow'' as <-. simpl. split.
    + split; [by left|done].
    + intros p [=].
  - destruct (prev_val_printable filings i f Hall Hi) as (k & Hk & Hkb).
    rewrite Hk in Hp |- *. simpl in Hp. rewrite number_of_json_int in Hp.
    destruct (print_row_int (Some (PyInt k)) year v Hvb) as (row' & Hrow'' & Hg).
    { intros p [= <-]. by exists k. }
    rewrite Hp in Hrow''. injection Hrow'' as <-.
    destruct (k =? 0) eqn:Hk0.
    + apply Z.eqb_eq in Hk0 as ->. split.
      * split; [|done]. intros _. right. exists (inject_Z 0). split; [done|reflexivity].
      * intros p [= Hp0] Hne. unfold inject_Z in Hp0. congruence.
    + apply Z.eqb_neq in Hk0. destruct Hg as (g & Hgp & Hg & _ & _ & Herr). split.
      * rewrite Hg. split; [done|].
        intros [[=]|(p & [= <-] & Hz)]. by apply (proj1 (inject_Z_eq_zero k)) in Hz.
      * intros p [= Hp0] Hne. assert (k = p) as <- by (unfold inject_Z in Hp0; congruence).
        exists g. split; [done|]. split; [done|]. split; [done|].
        apply print_row_Ok in Hp as (growth & _ & ->). simpl in Hg |- *.
        by rewrite Hg.
Qed.

Lemma growth_is_relative_to_previous_value_witness :
  exists rows,
    display_net_income (series_of [(2020, 100%Q); (2021, (-50)%Q); (2022, 0%Q)])
    = (rows, None)
    /\ length rows = 3%nat.
Proof.
  destruct (growth_is_relative_to_previous_value
              (series_of [(2020, 100%Q); (2021, (-50)%Q); (2022, 0%Q)]))
    as [(rows & H1 & H2 & _) _].
  - repeat constructor; try (eexists; reflexivity).
    + exists 100. split; [reflexivity|]. apply Z.leb_le. vm_compute. reflexivity.
    + exists (-50). split; [reflexivity|]. apply Z.leb_le. vm_compute. reflexivity.
    + exists 0. split; [reflexivity|]. apply Z.leb_le. vm_compute. reflexivity.
  - exists rows. split; [exact H1|exact H2].
Defined.

(** ** Frames and margins *)

Lemma mapM_result_Ok {A B} (f : A -> result B) l k :
  Forall2 (fun x y => f x = Ok y) l k -> mapM f l = Ok k.
Proof.
  induction 1 as [|x y l k Hx _ IH]; simpl; [done|]. by rewrite Hx, IH.
Qed.

Lemma to_frame_Ok name results ys :
  fy <$> results = Some <$> ys ->
  Exists (fun f => is_Some (val f)) results ->
  exists rs, to_frame name results = Ok (mk_frame [name] rs)
    /\ Forall2 frame_row results rs.
Proof.
  intros Hys Hval.
  exists ((fun f => (default 0 (fy f), [cell_of_val (val f)])) <$> results).
  assert (Forall (fun f => is_Some (fy f)) results) as Hfy.
  { apply Forall_forall. intros f Hf. apply (list_elem_of_fmap_2 fy) in Hf.
    rewrite Hys in Hf. apply list_elem_of_fmap in Hf as (y & -> & _). by eexists. }
  assert (Forall2 frame_row results
            ((fun f => (default 0 (fy f), [cell_of_val (val f)])) <$> results)) as HF.
  { apply Forall2_fmap_r, Forall_Forall2_diag.
    eapply Forall_impl; [exact Hfy|]. intros f [y Hy]. split; simpl; [by rewrite Hy|done]. }
  split; [|done]. unfold to_frame.
  rewrite (mapM_result_Ok _ results
             ((fun f => (default 0 (fy f), [cell_of_val (val f)])) <$> results)).
  - simpl. replace (forallb _ results) with false; [done|].
    symmetry. apply not_true_iff_false. rewrite forallb_forall.
    apply Exists_exists in Hval as (f & Hf & [v Hv]). intros Hall.
    apply list_elem_of_In, Hall, bool_decide_eq_true in Hf. congruence.
  - apply Forall2_fmap_r, Forall_Forall2_diag.
    eapply Forall_impl; [exact Hfy|]. intros f [y Hy]. simpl. rewrite Hy. done.
Qed.

Lemma rows_of_year_frame y results rs :
  Forall2 frame_row results rs ->
  rows_of_year y rs = (fun f => [cell_of_val (val f)]) <$> emitted y results.
Proof.
  unfold rows_of_year, emitted.
  induction 1 as [|f r results rs [Hy Hc] _ IH]; [done|].
  rewrite !filter_cons. destruct r as [z c]; simpl in Hy, Hc. subst c.
  destruct (decide ((z, [cell_of_val (val f)]).1 = y)) as [Hz|Hne].
  - simpl in Hz. subst z. rewrite decide_True by done. rewrite !fmap_cons. by rewrite IH.
  - simpl in Hne. rewrite decide_False by congruence. done.
Qed.

Lemma keys_frame y results rs :
  Forall2 frame_row results rs ->
  y ∈ rs.*1 <-> Some y ∈ fy <$> results.
Proof.
  induction 1 as [|f r results rs [Hy Hc] _ IH]; simpl.
  - split; intros H; by apply elem_of_nil in H.
  - rewrite !elem_of_cons, IH, Hy. split; intros [H|H]; auto; left; congruence.
Qed.

Lemma emitted_absent y results :
  Some y ∉ fy <$> results -> emitted y results = [].
Proof.
  intros Hn. apply filter_nil_intro. intros f Hf Hy. apply Hn.
  rewrite <- Hy. by apply list_elem_of_fmap_2.
Qed.

Lemma emitted_unique y results f :
  NoDup (fy <$> results) -> f ∈ results -> fy f = Some y ->
  emitted y results = [f].
Proof.
  unfold emitted. induction results as [|g results IH]; intros Hnd Hf Hy.
  - by apply elem_of_nil in Hf.
  - rewrite fmap_cons in Hnd. apply NoDup_cons in Hnd as [Hg Hnd].
    rewrite filter_cons. apply elem_of_cons in Hf as [->|Hf].
    + rewrite decide_True by done. f_equal. apply filter_nil_intro.
      intros h Hh Hhy. apply Hg. rewrite Hy, <- Hhy. by apply list_elem_of_fmap_2.
    + rewrite decide_False; [by apply IH|].
      intros Hgy. apply Hg. rewrite Hgy, <- Hy. by apply list_elem_of_fmap_2.
Qed.

(** *** The outer join *)

Lemma elem_of_merge_keys left right y :
  y ∈ merge_keys left right <-> y ∈ (rows left).*1 \/ y ∈ (rows right).*1.
Proof.
  unfold merge_keys. rewrite (proj2 (sorted_set_spec _)).
  by rewrite elem_of_list_to_set, elem_of_app.
Qed.


(** *** The table of several series *)

Lemma bind_singletons {A B} (f : A -> list B) (g : A -> B) (l : list A) :
  (forall x, x ∈ l -> f x = [g x]) -> l ≫= f = g <$> l.
Proof.
  induction l as [|x l IH]; intros H; [done|].
  rewrite bind_cons, fmap_cons, (H x) by (by left). simpl. f_equal.
  apply IH. intros y Hy. apply H. by right.
Qed.

Lemma filter_key_fmap (h : Z -> list number) (keys : list Z) y :
  NoDup keys ->
  filter (fun r : Z * list number => r.1 = y) ((fun k => (k, h k)) <$> keys)
  = if decide (y ∈ keys) then [(y, h y)] else [].
Proof.
  induction 1 as [|k keys Hk Hnd IH]; [done|].
  rewrite fmap_cons, filter_cons, IH. simpl.
  destruct (decide (k = y)) as [->|Hne], (decide (y ∈ keys)) as [Hy|Hy];
    destruct (decide (y ∈ _ :: keys)) as [Hy'|Hy']; try done.
  - exfalso. apply Hy'. by left.
  - exfalso. apply Hy'. by right.
  - exfalso. apply elem_of_cons in Hy' as [->|?]; done.
Qed.

Lemma union_years_sorted series : StronglySorted Z.lt (union_years series).
Proof. apply sorted_set_spec. Qed.

Lemma elem_of_union_years series y :
  y ∈ union_years series <-> exists results, results ∈ series /\ Some y ∈ fy <$> results.
Proof.
  unfold union_years. rewrite (proj2 (sorted_set_spec _)), elem_of_list_to_set.
  rewrite list_elem_of_bind. split.
  - intros (results & Hy & Hr). exists results. split; [done|].
    apply list_elem_of_omap in Hy as (f & Hf & Hy). rewrite <- Hy.
    by apply list_elem_of_fmap_2.
  - intros (results & Hr & Hy). exists results. split; [|done].
    apply list_elem_of_fmap in Hy as (f & Hy & Hf).
    apply list_elem_of_omap. by exists f.
Qed.

Lemma table_rows_keys series : (table_rows series).*1 = union_years series.
Proof.
  unfold table_rows. rewrite <- list_fmap_compose. apply list_fmap_id.
Qed.

Lemma rows_of_year_table series y :
  rows_of_year y (table_rows series)
  = if decide (y ∈ union_years series)
    then [(fun results => series_cell results y) <$> series] else [].
Proof.
  unfold rows_of_year, table_rows.
  rewrite (filter_key_fmap (fun y => (fun results => series_cell results y) <$> series))
    by apply StronglySorted_lt_NoDup, union_years_sorted.
  by destruct (decide _).
Qed.

Lemma series_cell_absent results y :
  Some y ∉ fy <$> results -> series_cell results y = NaN.
Proof. intros H. unfold series_cell. by rewrite emitted_absent. Qed.

Lemma cells_absent series y :
  y ∉ union_years series ->
  (fun results => series_cell results y) <$> series = replicate (length series) NaN.
Proof.
  intros Hy. induction series as [|results series IH]; [done|].
  rewrite fmap_cons. simpl. f_equal.
  - apply series_cell_absent. intros H. apply Hy, elem_of_union_years.
    exists results. split; [by left|done].
  - apply IH. intros H. apply Hy. apply elem_of_union_years in H as (r & Hr & H).
    apply elem_of_union_years. exists r. split; [by right|done].
Qed.

(** The rows of a frame of one series for a year: the cell of the series,
    when the series has the year. *)
Lemma rows_of_year_series y results rs :
  Forall2 frame_row results rs -> NoDup (fy <$> results) ->
  rows_of_year y rs
  = if decide (Some y ∈ fy <$> results) then [[series_cell results y]] else [].
Proof.
  intros HF Hnd. rewrite (rows_of_year_frame y results) by done.
  destruct (decide (Some y ∈ fy <$> results)) as [Hy|Hy].
  - apply list_elem_of_fmap in Hy as (f & Hy & Hf).
    unfold series_cell. by rewrite (emitted_unique y results f).
  - by rewrite emitted_absent.
Qed.

Lemma union_years_snoc series results y :
  y ∈ union_years (series ++ [results])
  <-> y ∈ union_years series \/ Some y ∈ fy <$> results.
Proof.
  rewrite !elem_of_union_years. split.
  - intros (r & Hr & Hy). apply elem_of_app in Hr as [Hr|Hr].
    + left. by exists r.
    + apply list_elem_of_singleton in Hr as ->. by right.
  - intros [(r & Hr & Hy)|Hy].
    + exists r. split; [apply elem_of_app; by left|done].
    + exists results. split; [apply elem_of_app; right; by left|done].
Qed.

(** Joining the table of some series with the frame of one more series
    gives the table of all of them. *)
Lemma merge_outer_table names series T name results F :
  tabulates names series T ->
  columns F = [name] -> Forall2 frame_row results (rows F) ->
  NoDup (fy <$> results) ->
  tabulates (names ++ [name]) (series ++ [results]) (merge_outer T F).
Proof.
  intros (Hc & Hlen & Hrows) HcF HF Hnd. split; [|split].
  - simpl. by rewrite Hc, HcF.
  - rewrite !length_app. simpl. lia.
  - unfold merge_outer. simpl. fold (merge_keys T F).
    assert (merge_keys T F = union_years (series ++ [results])) as ->.
    { apply StronglySorted_lt_ext.
      - apply sorted_set_spec.
      - apply union_years_sorted.
      - intros y. rewrite elem_of_merge_keys, union_years_snoc.
        rewrite Hrows, table_rows_keys. by rewrite (keys_frame y results). }
    unfold table_rows. apply bind_singletons. intros y Hy.
    rewrite Hrows, rows_of_year_table, (rows_of_year_series y results) by done.
    rewrite Hc, HcF, Hlen, fmap_app. simpl.
    apply union_years_snoc in Hy.
    destruct (decide (y ∈ union_years series)) as [H1|H1],
      (decide (Some y ∈ fy <$> results)) as [H2|H2]; simpl.
    + done.
    + by rewrite (series_cell_absent results y).
    + by rewrite cells_absent.
    + tauto.
Qed.

Lemma table_rows_sorted series :
  StronglySorted (fun r s : Z * list number => (r.1 <=? s.1) = true) (table_rows series).
Proof.
  unfold table_rows.
  induction (union_years_sorted series) as [|y ys Hs IH Hy]; [constructor|].
  rewrite fmap_cons. constructor; [done|].
  apply Forall_fmap. eapply Forall_impl; [exact Hy|]. intros z Hz. simpl. lia.
Qed.

Lemma sort_values_table names series T :
  tabulates names series T -> tabulates names series (sort_values T).
Proof.
  intros (Hc & Hlen & Hrows). split; [done|]. split; [done|]. simpl.
  rewrite Hrows. apply stable_sort_sorted, table_rows_sorted.
Qed.

(** The frame of one series is its table. *)
Lemma frame_table name results ys rs :
  fy <$> results = Some <$> ys -> StronglySorted Z.lt ys ->
  Forall2 frame_row results rs ->
  tabulates [name] [results] (mk_frame [name] rs).
Proof.
  intros Hys Hs HF. split; [done|]. split; [done|]. simpl.
  assert (NoDup (fy <$> results)) as Hnd.
  { rewrite Hys. apply NoDup_fmap; [by intros ?? [=]|]. by apply StronglySorted_lt_NoDup. }
  assert (union_years [results] = ys) as Hkeys.
  { apply StronglySorted_lt_ext; [apply union_years_sorted|done|].
    intros y. rewrite elem_of_union_years. split.
    - intros (r & Hr & Hy). apply list_elem_of_singleton in Hr as ->.
      rewrite Hys in Hy. apply list_elem_of_fmap in Hy as (z & [= ->] & Hz). done.
    - intros Hy. exists results. split; [by left|]. rewrite Hys.
      by apply list_elem_of_fmap_2. }
  unfold table_rows. rewrite Hkeys. clear Hkeys.
  revert ys Hys Hs Hnd. induction HF as [|f r results rs [Hy Hc] HF IH];
    intros ys Hys Hs Hnd.
  - destruct ys; [done|discriminate].
  - destruct ys as [|y ys]; [discriminate|]. injection Hys as Hfy Hys.
    rewrite !fmap_cons. f_equal.
    + destruct r as [z c]. simpl in *. rewrite Hfy in Hy. injection Hy as <-.
      rewrite Hc. f_equal. f_equal. unfold series_cell.
      rewrite (emitted_unique y (f :: results) f); [done|done|by left|done].
    + rewrite (IH ys Hys).
      * apply list_fmap_ext. intros i z Hz. f_equal. simpl. f_equal.
        unfold series_cell, emitted. rewrite filter_cons, decide_False; [done|].
        rewrite Hfy. intros [= ->]. apply StronglySorted_cons in Hs as [Hlt _].
        rewrite Forall_forall in Hlt. apply list_elem_of_lookup_2 in Hz.
        specialize (Hlt _ Hz). lia.
      * by apply StronglySorted_cons in Hs as [_ ?].
      * rewrite fmap_cons in Hnd. by apply NoDup_cons in Hnd as [_ ?].
Qed.

(** *** The frames of [combine_metrics] *)

Lemma mapM_result_inv {A B} (f : A -> result B) l k :
  mapM f l = Ok k -> Forall2 (fun x y => f x = Ok y) l k.
Proof.
  revert k. induction l as [|x l IH]; intros k; simpl.
  - intros [= <-]. constructor.
  - intros H. apply bind_Ok in H as (y & Hy & H).
    apply bind_Ok in H as (k' & Hk' & [= <-]). constructor; [done|by apply IH].
Qed.

Lemma to_frame_inv name results F :
  to_frame name results = Ok F ->
  columns F = [name] /\ Forall2 frame_row results (rows F).
Proof.
  unfold to_frame. intros H. apply bind_Ok in H as (rs & Hrs & H).
  destruct (forallb _ results); [done|]. injection H as <-. split; [done|]. simpl.
  apply mapM_result_inv in Hrs. eapply Forall2_impl; [exact Hrs|].
  intros f r Hr. simpl in Hr. apply bind_Ok in Hr as (y & Hy & [= <-]).
  apply getitem_Ok in Hy. by split.
Qed.

Lemma entries_of_cons data name concept rest :
  entries_of data ((name, concept) :: rest)
  = match (extract_metric data concept).2 with
    | Ok (f :: l) => (name, f :: l) :: entries_of data rest
    | _ => entries_of data rest
    end.
Proof.
  unfold entries_of. simpl.
  by destruct (extract_metric data concept).2 as [[|f l]|e].
Qed.

Lemma frames_of_Ok data metrics dfs :
  frames_of data metrics = Ok dfs ->
  Forall2 (fun e F => to_frame e.1 e.2 = Ok F) (entries_of data metrics) dfs.
Proof.
  revert dfs. induction metrics as [|[name concept] rest IH]; intros dfs.
  - intros [= <-]. constructor.
  - rewrite entries_of_cons. cbn [frames_of].
    intros H. apply bind_Ok in H as (results & -> & H).
    apply bind_Ok in H as (dfs1 & H1 & H). apply bind_Ok in H as (dfs2 & H2 & [= <-]).
    apply IH in H2. destruct results as [|f l].
    + by injection H1 as <-.
    + apply bind_Ok in H1 as (F & HF & [= <-]). by constructor.
Qed.


Lemma elem_of_entries_of data metrics name results :
  (name, results) ∈ entries_of data metrics <->
  results <> [] /\ exists concept,
    (name, concept) ∈ metrics /\ (extract_metric data concept).2 = Ok results.
Proof.
  unfold entries_of. rewrite list_elem_of_omap. split.
  - intros ([n c] & Hm & H). simpl in H.
    destruct (extract_metric data c).2 as [[|f l]|e] eqn:He; try done.
    injection H as <- <-. split; [done|]. by exists c.
  - intros (Hne & c & Hm & He). exists (name, c). split; [done|]. simpl.
    rewrite He. by destruct results.
Qed.

Lemma entries_of_names data metrics :
  NoDup metrics.*1 -> NoDup (entries_of data metrics).*1.
Proof.
  induction metrics as [|[name concept] rest IH]; intros Hnd.
  - constructor.
  - rewrite fmap_cons in Hnd. apply NoDup_cons in Hnd as [Hn Hnd].
    rewrite entries_of_cons.
    destruct (extract_metric data concept).2 as [[|f l]|e]; try by apply IH.
    rewrite fmap_cons. apply NoDup_cons. split; [|by apply IH].
    intros Hin. apply Hn. apply list_elem_of_fmap in Hin as ([n r] & Heq & Hin).
    simpl in Heq. subst n.
    apply elem_of_entries_of in Hin as (_ & c & Hc & _).
    by apply (list_elem_of_fmap_2 fst) in Hc.
Qed.

Lemma entries_of_ascending data metrics :
  Forall (fun e => exists ys, fy <$> e.2 = Some <$> ys /\ StronglySorted Z.lt ys)
    (entries_of data metrics).
Proof.
  apply Forall_forall. intros [name results] He.
  apply elem_of_entries_of in He as (_ & c & _ & He). simpl.
  destruct (extract_metric data c) as [out r] eqn:Hc. simpl in He. subst r.
  by eapply extract_metric_ascending.
Qed.

Lemma ascending_NoDup (results : list Filing) ys :
  fy <$> results = Some <$> ys -> StronglySorted Z.lt ys -> NoDup (fy <$> results).
Proof.
  intros -> Hs. apply NoDup_fmap; [by intros ?? [=]|]. by apply StronglySorted_lt_NoDup.
Qed.

Lemma foldl_merge_table names series T es Fs :
  tabulates names series T ->
  Forall2 (fun e F => to_frame e.1 e.2 = Ok F) es Fs ->
  Forall (fun e => exists ys, fy <$> e.2 = Some <$> ys /\ StronglySorted Z.lt ys) es ->
  tabulates (names ++ es.*1) (series ++ es.*2) (foldl merge_outer T Fs).
Proof.
  intros HT HF. revert names series T HT.
  induction HF as [|e F es Fs He _ IH]; intros names series T HT Hasc; simpl.
  - by rewrite !app_nil_r.
  - apply Forall_cons in Hasc as [(ys & Hys & Hs) Hasc].
    apply to_frame_inv in He as [Hc Hrows].
    rewrite (cons_middle e.1), (cons_middle e.2), !app_assoc. apply IH; [|done].
    apply merge_outer_table; [done..|]. by eapply ascending_NoDup.
Qed.

(** What [combine_metrics] returns is the table of the series it found. *)
Lemma combine_metrics_table data metrics df :
  combine_metrics data metrics = Ok (Some df) ->
  tabulates (entries_of data metrics).*1 (entries_of data metrics).*2 df.
Proof.
  unfold combine_metrics. intros H. apply bind_Ok in H as (dfs & Hdfs & H).
  apply frames_of_Ok in Hdfs. pose proof (entries_of_ascending data metrics) as Hasc.
  destruct Hdfs as [|e F es Fs He HF]; [done|]. injection H as <-.
  apply Forall_cons in Hasc as [(ys & Hys & Hs) Hasc].
  apply sort_values_table. rewrite !fmap_cons.
  apply (foldl_merge_table [e.1] [e.2]); [|done..].
  pose proof He as He'. apply to_frame_inv in He' as [Hc Hrows].
  destruct F as [cs rs]. simpl in Hc, Hrows. subst cs.
  by eapply frame_table.
Qed.

(** *** Cells and margins of the table *)

Lemma list_find_name name (names : list string) i :
  NoDup names -> names !! i = Some name ->
  list_find (String.eqb name) names = Some (i, name).
Proof.
  intros Hnd Hi. apply list_find_Some. split; [done|]. split.
  - apply Is_true_true, String.eqb_refl.
  - intros j y Hj Hlt Heq. apply Is_true_true, String.eqb_eq in Heq as <-.
    pose proof (NoDup_lookup _ _ _ _ Hnd Hi Hj). lia.
Qed.

Lemma cell_table names series T name results r :
  tabulates names series T -> NoDup names ->
  (name, results) ∈ zip names series ->
  r ∈ rows T ->
  cell T name r = series_cell results r.1.
Proof.
  intros (Hc & Hlen & Hrows) Hnd Hin Hr.
  apply list_elem_of_lookup in Hin as [i Hi].
  apply lookup_zip_with_Some in Hi as (n & s & [= <- <-] & Hn & Hs).
  unfold cell. rewrite Hc, (list_find_name _ _ i) by done. simpl.
  rewrite Hrows in Hr. unfold table_rows in Hr.
  apply list_elem_of_fmap in Hr as (y & -> & _). simpl.
  by rewrite list_lookup_fmap, Hs.
Qed.

Lemma elem_of_df_tail n df r : r ∈ df_tail n df -> r ∈ rows df.
Proof.
  unfold df_tail. intros H. apply list_elem_of_lookup in H as [i Hi].
  rewrite lookup_drop in Hi. by eapply list_elem_of_lookup_2.
Qed.


Lemma extract_metric_NoDup data metric_name out results :
  extract_metric data metric_name = (out, Ok results) -> NoDup (fy <$> results).
Proof.
  intros H. destruct (extract_metric_ascending _ _ _ _ H) as (ys & Hys & Hs).
  by eapply ascending_NoDup.
Qed.


Lemma series_cell_present results y f :
  NoDup (fy <$> results) -> f ∈ results -> fy f = Some y ->
  series_cell results y = cell_of_val (val f).
Proof.
  intros Hnd Hf Hy. unfold series_cell. by rewrite (emitted_unique y results f).
Qed.




(** * Further properties of the code *)

(** ** [extract_metric]: where results come from *)

Lemma resolve_seq_elem_of g years results f :
  resolve_seq g years [] = Ok results -> f ∈ results ->
  exists y, y ∈ years /\ f ∈ g y.
Proof.
  revert results. induction years as [|y ys IH]; intros results.
  - intros [= <-] Hf. by apply elem_of_nil in Hf.
  - intros H Hf. apply resolve_seq_cons_Ok in H as (r & rs & Hr & Hrs & ->).
    apply elem_of_app in Hf as [Hf|Hf].
    + destruct r as [f'|]; simpl in Hf; [|by apply elem_of_nil in Hf].
      apply list_elem_of_singleton in Hf as ->. exists y.
      split; [by left|]. by eapply resolve_year_elem_of.
    + destruct (IH _ Hrs Hf) as (z & Hz & Hfz). exists z. split; [by right|done].
Qed.

Lemma elem_of_annual_of filings f :
  f ∈ annual_of filings <-> is_annual f /\ f ∈ filings.
Proof. unfold annual_of. apply list_elem_of_filter. Qed.

(** X1.  Every record [extract_metric] returns is a record of the input
    list of the concept, unchanged, with form 10-K, period FY and a fiscal
    year: no value is made up. *)
Theorem results_are_annual_input_records
    (data : Data) (metric_name : string) (out : list line)
    (results : list Filing) (f : Filing) :
  extract_metric data metric_name = (out, Ok results) ->
  f ∈ results ->
  exists filings y,
    lookup_filings data metric_name = Ok filings
    /\ f ∈ filings
    /\ form f = Some "10-K"%string
    /\ fp f = Some "FY"%string
    /\ fy f = Some y.
Proof.
  unfold extract_metric, except_clause. intros H Hf.
  destruct (extract_metric_try data metric_name) as [l|e] eqn:Ht.
  - injection H as <- <-.
    apply extract_metric_try_Ok in Ht as (filings & Hl & Hr).
    apply resolve_filings_Ok in Hr.
    destruct (resolve_seq_elem_of _ _ _ _ Hr Hf) as (y & _ & Hg).
    apply elem_of_group_of in Hg as [Hy Ha].
    apply elem_of_annual_of in Ha as [[Hform Hfp] Hin].
    by exists filings, y.
  - destruct (caught e); [|done]. injection H as <- <-. by apply elem_of_nil in Hf.
Qed.

Lemma results_are_annual_input_records_witness :
  exists filings y,
    lookup_filings sample_data "Assets" = Ok filings
    /\ instant_filing 2022 "2022-12-31" "2023-01-15" 120 ∈ filings
    /\ form (instant_filing 2022 "2022-12-31" "2023-01-15" 120) = Some "10-K"%string
    /\ fp (instant_filing 2022 "2022-12-31" "2023-01-15" 120) = Some "FY"%string
    /\ fy (instant_filing 2022 "2022-12-31" "2023-01-15" 120) = Some y.
Proof.
  apply (results_are_annual_input_records sample_data "Assets" []
           [instant_filing 2022 "2022-12-31" "2023-01-15" 120]).
  - vm_compute. reflexivity.
  - by left.
Defined.

(** ** [extract_metric]: the ways it ends *)

Lemma candidate_of_Raise year f e :
  candidate_of year f = Raise e ->
  e = KeyError "start" \/ e = KeyError "end"
  \/ exists s, malformed_in s f /\ e = ValueError s.
Proof.
  unfold candidate_of, malformed_in. intros H.
  destruct (start f) as [s|] eqn:Hs; simpl in H; [|left; congruence].
  destruct (Datetime.strptime s) as [sd|e1] eqn:Hsd; simpl in H.
  - destruct (end_ f) as [e0|] eqn:He; simpl in H; [|right; left; congruence].
    destruct (Datetime.strptime e0) as [ed|e2] eqn:Hed; simpl in H.
    + by destruct (_ && _).
    + injection H as <-. pose proof (strptime_Raise _ _ Hed) as ->.
      right. right. exists e0. by auto.
  - injection H as <-. pose proof (strptime_Raise _ _ Hsd) as ->.
    right. right. exists s. by auto.
Qed.

Lemma collect_candidates_Raise year group e :
  collect_candidates year group = Raise e ->
  e = KeyError "start" \/ e = KeyError "end"
  \/ exists s f, f ∈ group /\ malformed_in s f /\ e = ValueError s.
Proof.
  induction group as [|f group IH]; simpl; [done|]. intros H.
  apply bind_Raise in H as [H|(o & _ & H)].
  - apply candidate_of_Raise in H as [?|[?|(s & Hm & ->)]]; auto.
    right. right. exists s, f. split; [by left|done].
  - apply bind_Raise in H as [H|(cs & _ & [=])].
    apply IH in H as [?|[?|(s & f' & Hf' & Hm & ->)]]; auto.
    right. right. exists s, f'. split; [by right|done].
Qed.

Lemma max_loop_Raise m mv rest e :
  max_loop m mv rest = Raise e -> e = KeyError "filed".
Proof.
  revert m mv. induction rest as [|item rest IH]; intros m mv; simpl; [done|].
  intros H. apply bind_Raise in H as [H|(v & _ & H)].
  - by apply getitem_Raise in H as [_ ->].
  - destruct (String.ltb mv v); by eapply IH.
Qed.

(** A group that is not empty fails on a missing key or on a date that is
    not a date, and on nothing else. *)
Lemma resolve_year_Raise year first rest e :
  resolve_year year (first :: rest) = Raise e ->
  e = KeyError "start" \/ e = KeyError "end" \/ e = KeyError "filed"
  \/ exists s f, f ∈ first :: rest /\ malformed_in s f /\ e = ValueError s.
Proof.
  unfold resolve_year. simpl. destruct (bool_decide _).
  - unfold resolve_duration. intros H. apply bind_Raise in H as [H|(cs & _ & [=])].
    apply collect_candidates_Raise in H as [?|[?|?]]; auto.
  - unfold resolve_instant, max_by_filed. intros H.
    apply bind_Raise in H as [H|(m & _ & [=])].
    apply bind_Raise in H as [H|(v & _ & H)].
    + apply getitem_Raise in H as [_ ->]. auto.
    + apply max_loop_Raise in H as ->. auto.
Qed.

Lemma resolve_seq_Raise g years acc e :
  resolve_seq g years acc = Raise e ->
  exists y, y ∈ years /\ resolve_year y (g y) = Raise e.
Proof.
  revert acc. induction years as [|y ys IH]; intros acc; simpl; [done|].
  intros H. apply bind_Raise in H as [H|(r & _ & H)].
  - exists y. split; [by left|done].
  - apply IH in H as (z & Hz & H). exists z. split; [by right|done].
Qed.

Ltac in_list :=
  repeat first [ apply list_elem_of_here | apply list_elem_of_further ].

Lemma lookup_filings_Raise data metric_name e :
  lookup_filings data metric_name = Raise e ->
  exists k, e = KeyError k
    /\ k ∈ ["facts"; "us-gaap"; metric_name; "units"; "USD"]%string.
Proof.
  unfold lookup_filings. intros H.
  repeat (apply bind_Raise in H as [H|(? & _ & H)];
          [apply getitem_Raise in H as [_ ->]; eexists; split; [done|in_list]|]).
  apply getitem_Raise in H as [_ ->]. eexists. split; [done|]. in_list.
Qed.

Lemma resolve_filings_Raise filings e :
  resolve_filings filings = Raise e ->
  e = KeyError "fy" \/ e = KeyError "start" \/ e = KeyError "end"
  \/ e = KeyError "filed"
  \/ exists s f, f ∈ annual_of filings /\ malformed_in s f /\ e = ValueError s.
Proof.
  destruct (decide (Forall (fun f => is_Some (fy f)) (annual_of filings))) as [Hfy|Hfy].
  - rewrite resolve_filings_seq by done. intros H.
    apply resolve_seq_Raise in H as (y & Hy & H).
    apply elem_of_years_of in Hy as (f0 & Hf0 & Hy0).
    destruct (group_of y (annual_of filings)) as [|first rest] eqn:Hg.
    { assert (f0 ∈ group_of y (annual_of filings)) as Hin by (by apply elem_of_group_of).
      rewrite Hg in Hin. by apply elem_of_nil in Hin. }
    apply resolve_year_Raise in H as [?|[?|[?|(s & f & Hf & Hm & ->)]]]; auto.
    right. right. right. right. exists s, f. split; [|done].
    rewrite <- Hg in Hf. by apply elem_of_group_of in Hf as [_ ?].
  - rewrite resolve_filings_no_fy by done. intros [= <-]. by left.
Qed.

(** X2.  [extract_metric] ends in one of three ways: it returns a list and
    prints nothing; or it prints one line about a missing key, one of
    [facts], [us-gaap], the concept, [units], [USD], [fy], [start], [end],
    [filed], and returns the empty list; or [strptime]'s [ValueError] on a
    start or end date of an annual record escapes.  No other exception
    escapes, and a printed line always comes with an empty result. *)
Theorem extract_metric_outcomes (data : Data) (metric_name : string) :
  (exists results, extract_metric data metric_name = ([], Ok results))
  \/ (exists k,
        k ∈ ["facts"; "us-gaap"; metric_name; "units"; "USD";
             "fy"; "start"; "end"; "filed"]%string
        /\ extract_metric data metric_name
           = ([ErrorExtracting metric_name (KeyError k)], Ok []))
  \/ (exists filings s f,
        lookup_filings data metric_name = Ok filings
        /\ f ∈ annual_of filings
        /\ malformed_in s f
        /\ extract_metric data metric_name = ([], Raise (ValueError s))).
Proof.
  unfold extract_metric, extract_metric_try.
  destruct (lookup_filings data metric_name) as [filings|e] eqn:Hl; simpl.
  - destruct (resolve_filings filings) as [results|e] eqn:Hr; simpl.
    + left. by exists results.
    + apply resolve_filings_Raise in Hr
        as [->|[->|[->|[->|(s & f & Hf & Hm & ->)]]]]; simpl.
      * right. left. eexists. split; [|done]. in_list.
      * right. left. eexists. split; [|done]. in_list.
      * right. left. eexists. split; [|done]. in_list.
      * right. left. eexists. split; [|done]. in_list.
      * right. right. by exists filings, s, f.
  - apply lookup_filings_Raise in Hl as (k & -> & Hk). simpl.
    right. left. exists k. split; [|done].
    repeat (apply elem_of_cons in Hk as [->|Hk]; [in_list|]).
    by apply elem_of_nil in Hk.
Qed.

(** X3.  An annual record without a fiscal year empties the whole result:
    the error is raised while the records are grouped, before any date is
    read, so it also hides dates that are not dates. *)
Theorem missing_fiscal_year_empties_result
    (data : Data) (metric_name : string) (filings : list Filing) :
  lookup_filings data metric_name = Ok filings ->
  Exists (fun f => fy f = None) (annual_of filings) ->
  extract_metric data metric_name
  = ([ErrorExtracting metric_name (KeyError "fy")], Ok []).
Proof.
  intros Hl Hex. unfold extract_metric, extract_metric_try. rewrite Hl. simpl.
  rewrite resolve_filings_no_fy; [done|].
  intros Hall. apply Exists_exists in Hex as (f & Hf & Hn).
  rewrite Forall_forall in Hall. specialize (Hall f Hf). rewrite Hn in Hall.
  by destruct Hall.
Qed.

Lemma missing_fiscal_year_empties_result_witness :
  extract_metric
    (data_of [("NetIncomeLoss"%string,
               [ duration_filing 2020 "2020-01-01" "2020-13-45" "2021-02-10" 2490;
                 {| form := Some "10-K"%string; fp := Some "FY"%string; fy := None;
                    start := None; end_ := None; filed := None; val := None |} ])])
    "NetIncomeLoss"
  = ([ErrorExtracting "NetIncomeLoss" (KeyError "fy")], Ok []).
Proof.
  eapply missing_fiscal_year_empties_result.
  - vm_compute. reflexivity.
  - right. left. reflexivity.
Defined.

(** X4.  When no record of the concept is an annual one (form 10-K and
    period FY), in particular when the concept has no record at all, the
    result is the empty list and nothing is printed. *)
Theorem no_annual_record_gives_empty_result
    (data : Data) (metric_name : string) (filings : list Filing) :
  lookup_filings data metric_name = Ok filings ->
  annual_of filings = [] ->
  extract_metric data metric_name = ([], Ok []).
Proof.
  intros Hl Ha. unfold extract_metric, extract_metric_try. rewrite Hl. simpl.
  rewrite resolve_filings_seq by (rewrite Ha; constructor).
  rewrite Ha. unfold years_of. simpl. by rewrite elements_empty.
Qed.

Lemma no_annual_record_gives_empty_result_witness :
  extract_metric
    (data_of [("NetIncomeLoss"%string,
               [ {| form := Some "10-Q"%string; fp := Some "Q1"%string;
                    fy := Some 2021; start := Some "2021-01-01"%string;
                    end_ := Some "2021-03-31"%string;
                    filed := Some "2021-05-01"%string; val := Some 555%Q |} ])])
    "NetIncomeLoss"
  = ([], Ok []).
Proof.
  eapply no_annual_record_gives_empty_result.
  - vm_compute. reflexivity.
  - vm_compute. reflexivity.
Defined.

(** ** [extract_metric]: which fiscal years come out *)

Lemma resolve_duration_Some_iff year group r :
  resolve_duration year group = Ok r ->
  is_Some r <-> exists f, f ∈ group /\ eligible year f.
Proof.
  intros H. apply resolve_duration_spec in H. destruct r as [f|].
  - destruct H as (Hin & Hel & _). split; [intros _; by exists f|by eexists].
  - split; [by intros [? ?]|]. intros (f & Hf & Hel). by destruct (H f Hf).
Qed.

(** X5.  In an extraction that completes, a fiscal year is in the result
    exactly when it has annual records and either the first of them has no
    start date (an instant-typed group always yields a record) or one of
    them is eligible. *)
Theorem fiscal_years_of_the_result
    (data : Data) (metric_name : string) (filings results : list Filing) (y : Z) :
  lookup_filings data metric_name = Ok filings ->
  extract_metric data metric_name = ([], Ok results) ->
  Some y ∈ fy <$> results <->
  exists first rest,
    group_of y (annual_of filings) = first :: rest
    /\ (start first = None \/ exists f, f ∈ first :: rest /\ eligible y f).
Proof.
  intros Hl He. pose proof (extract_metric_quiet _ _ _ _ Hl He) as Hr.
  assert (Some y ∈ fy <$> results <-> emitted y results <> []) as ->.
  { split.
    - intros Hy Hnil. apply list_elem_of_fmap in Hy as (f & Hy & Hf).
      assert (f ∈ emitted y results) as Hin by (by apply list_elem_of_filter).
      rewrite Hnil in Hin. by apply elem_of_nil in Hin.
    - intros Hne. destruct (emitted y results) as [|f l] eqn:Hem; [done|].
      assert (f ∈ emitted y results) as Hin by (rewrite Hem; by left).
      apply list_elem_of_filter in Hin as [Hy Hf]. rewrite <- Hy.
      by apply list_elem_of_fmap_2. }
  destruct (group_of y (annual_of filings)) as [|first rest] eqn:Hg.
  - split; [|by intros (? & ? & [=] & _)]. intros Hne. exfalso. apply Hne.
    apply filter_nil_intro. intros f Hf Hy.
    destruct (resolve_seq_elem_of _ _ _ _ (resolve_filings_Ok _ _ Hr) Hf)
      as (z & _ & Hz).
    pose proof (group_of_fy _ _ _ Hz) as Hfz. rewrite Hy in Hfz. injection Hfz as <-.
    rewrite Hg in Hz. by apply elem_of_nil in Hz.
  - destruct (resolve_filings_year _ _ _ _ _ Hr Hg) as (r & Hy & ->).
    destruct (start first) as [s|] eqn:Hs.
    + rewrite resolve_year_duration in Hy by (by rewrite Hs).
      apply resolve_duration_Some_iff in Hy. split.
      * intros Hne. exists first, rest. split; [done|]. right. apply Hy.
        destruct r; [by eexists|done].
      * intros (? & ? & Heq & Hor). injection Heq as <- <-.
        destruct Hor as [Hn|Hel]; [congruence|]. apply Hy in Hel as [f ->]. done.
    + rewrite resolve_year_instant in Hy by done.
      apply resolve_instant_spec in Hy as (f & _ & _ & -> & _). split; [|done].
      intros _. exists first, rest. split; [done|by left].
Qed.

Lemma fiscal_years_of_the_result_witness :
  (Some 2019 ∈ [Some 2019; Some 2021])
  /\ ~ (exists first rest,
          group_of 2020 (annual_of net_income_filings) = first :: rest
          /\ (start first = None \/ exists f, f ∈ first :: rest /\ eligible 2020 f)).
Proof.
  split.
  - apply (fiscal_years_of_the_result sample_data "NetIncomeLoss" net_income_filings
             [duration_filing 2019 "2018-12-23" "2019-12-29" "2020-02-10" 350;
              duration_filing 2021 "2020-10-01" "2021-09-30" "2021-11-15" 3162] 2019).
    + vm_compute. reflexivity.
    + vm_compute. reflexivity.
    + eexists _, _. split; [vm_compute; reflexivity|]. right.
      eexists. split; [by left|].
      eexists _, _. split; [vm_compute; reflexivity|]. vm_compute. intuition discriminate.
  - intros H.
    apply (fiscal_years_of_the_result sample_data "NetIncomeLoss" net_income_filings
             [duration_filing 2019 "2018-12-23" "2019-12-29" "2020-02-10" 350;
              duration_filing 2021 "2020-10-01" "2021-09-30" "2021-11-15" 3162] 2020) in H.
    + vm_compute in H. repeat (apply elem_of_cons in H as [[=]|H]). by apply elem_of_nil in H.
    + vm_compute. reflexivity.
    + vm_compute. reflexivity.
Defined.

Lemma max_loop_filed maxitem maxval rest f :
  max_loop maxitem maxval rest = Ok f -> Forall (fun a => is_Some (filed a)) rest.
Proof.
  revert maxitem maxval. induction rest as [|item rest IH]; intros maxitem maxval; simpl.
  - by constructor.
  - intros H. apply bind_Ok in H as (v & Hv & H). apply getitem_Ok in Hv.
    constructor; [by rewrite Hv|]. destruct (String.ltb maxval v); by eapply IH.
Qed.

Lemma resolve_instant_filed_keys group r :
  resolve_instant group = Ok r -> Forall (fun a => is_Some (filed a)) group.
Proof.
  unfold resolve_instant. intros H. apply bind_Ok in H as (m & H & _).
  destruct group as [|item rest]; [done|]. simpl in H.
  apply bind_Ok in H as (v & Hv & H). apply getitem_Ok in Hv.
  constructor; [by rewrite Hv|]. by eapply max_loop_filed.
Qed.

(** X6.  The extraction returns a list without printing an error exactly
    when every annual record has a fiscal year, every record of a
    duration-typed group has well-formed start and end dates, and every
    record of an instant-typed group has a filing date.  The dates of the
    records that lose the selection count as well. *)
Theorem silent_completion_iff
    (data : Data) (metric_name : string) (filings : list Filing) :
  lookup_filings data metric_name = Ok filings ->
  (exists results, extract_metric data metric_name = ([], Ok results))
  <->
  Forall (fun f => is_Some (fy f)) (annual_of filings)
  /\ (forall y first rest,
        group_of y (annual_of filings) = first :: rest ->
        (is_Some (start first) -> Forall (fun f => is_Some (period f)) (first :: rest))
        /\ (start first = None -> Forall (fun f => is_Some (filed f)) (first :: rest))).
Proof.
  intros Hl. split; [|intros [Hfy Hg]; by eapply extract_metric_completes].
  intros [results He]. pose proof (extract_metric_quiet _ _ _ _ Hl He) as Hr.
  split.
  - destruct (decide (Forall (fun f => is_Some (fy f)) (annual_of filings))) as [H|H];
      [done|]. by rewrite (resolve_filings_no_fy _ H) in Hr.
  - intros y first rest Hg.
    destruct (resolve_filings_year _ _ _ _ _ Hr Hg) as (r & Hy & _). split.
    + intros Hs. rewrite resolve_year_duration in Hy by done.
      unfold resolve_duration in Hy. apply bind_Ok in Hy as (cs & Hcs & _).
      by apply collect_candidates_Ok in Hcs as [? _].
    + intros Hs. rewrite resolve_year_instant in Hy by done.
      by eapply resolve_instant_filed_keys.
Qed.

Lemma silent_completion_iff_witness :
  exists results, extract_metric sample_data "NetIncomeLoss" = ([], Ok results).
Proof.
  apply (silent_completion_iff sample_data "NetIncomeLoss" net_income_filings).
  - vm_compute. reflexivity.
  - assert (Forall (fun f => is_Some (period f)) (annual_of net_income_filings)) as Hp.
    { apply (bool_decide_unpack _). vm_compute. exact I. }
    split; [apply (bool_decide_unpack _); vm_compute; exact I|].
    intros y first rest Hg. split.
    + intros _. rewrite <- Hg. apply Forall_forall. intros f Hf.
      apply elem_of_group_of in Hf as [_ Hf]. rewrite Forall_forall in Hp. by apply Hp.
    + intros Hs. exfalso.
      assert (first ∈ group_of y (annual_of net_income_filings)) as Hf
        by (rewrite Hg; by left).
      apply elem_of_group_of in Hf as [_ Hf]. rewrite Forall_forall in Hp.
      destruct (Hp first Hf) as [p Hp']. unfold period in Hp'. by rewrite Hs in Hp'.
Defined.

(** ** Ties between duration records *)

Lemma candidate_of_Some_filing year f c :
  candidate_of year f = Ok (Some c) -> c.1.1 = f.
Proof.
  intros H. destruct (candidate_of_Ok_period _ _ _ H) as [p Hp].
  rewrite (candidate_of_period _ _ _ Hp) in H.
  destruct (passes year p); [|done]. by injection H as <-.
Qed.

(** The candidates come in the order of the group. *)
Lemma collect_candidates_split year group cs c1 c c2 :
  collect_candidates year group = Ok cs -> cs = c1 ++ c :: c2 ->
  exists g1 g2,
    group = g1 ++ c.1.1 :: g2
    /\ collect_candidates year g1 = Ok c1
    /\ collect_candidates year g2 = Ok c2.
Proof.
  revert cs c1. induction group as [|f group IH]; intros cs c1; simpl.
  - intros [= <-] H. by destruct c1.
  - intros H Hcs. apply bind_Ok in H as (o & Ho & H).
    apply bind_Ok in H as (cs' & Hcs' & [= <-]). destruct o as [c0|]; simpl in Hcs.
    + destruct c1 as [|c0' c1]; simpl in Hcs; injection Hcs as -> ->.
      * exists [], group. simpl. split; [|done].
        by rewrite (candidate_of_Some_filing _ _ _ Ho).
      * destruct (IH _ _ Hcs' eq_refl) as (g1 & g2 & -> & H1 & H2).
        exists (f :: g1), g2. split; [done|]. split; [|done].
        simpl. by rewrite Ho, H1.
    + destruct (IH _ _ Hcs' Hcs) as (g1 & g2 & -> & H1 & H2).
      exists (f :: g1), g2. split; [done|]. split; [|done].
      simpl. by rewrite Ho, H1.
Qed.

Lemma resolve_duration_first_least year group f :
  resolve_duration year group = Ok (Some f) -> first_least_choice year group f.
Proof.
  unfold resolve_duration. intros H. apply bind_Ok in H as (cs & Hcs & H).
  unfold sort_by_key in H.
  destruct (head (stable_sort _ cs)) as [c|] eqn:Hh; simpl in H; [|done].
  injection H as <-.
  apply stable_sort_head in Hh as (l1 & l2 & -> & H1 & H2);
    [|intros ???; apply key_leb_trans|intros ??; apply key_leb_total].
  destruct (collect_candidates_split _ _ _ _ _ _ Hcs eq_refl) as (g1 & g2 & -> & Hg1 & Hg2).
  destruct (collect_candidates_Ok _ _ _ Hcs) as (_ & Hin & _).
  destruct (Hin c) as (_ & _ & Hsc); [apply elem_of_app; right; by left|].
  apply collect_candidates_Ok in Hg1 as (_ & Hin1 & Hel1).
  apply collect_candidates_Ok in Hg2 as (_ & Hin2 & Hel2).
  exists g1, g2, (sort_key c). split; [done|]. split; [done|]. split.
  - intros f' Hf' Hel. destruct (Hel1 f' Hf' Hel) as (c' & Hc' & <-).
    exists (sort_key c'). split; [by apply Hin1|].
    rewrite <- key_leb_lex_le. rewrite (H1 c' Hc'). done.
  - intros f' Hf' Hel. destruct (Hel2 f' Hf' Hel) as (c' & Hc' & <-).
    exists (sort_key c'). split; [by apply Hin2|].
    apply key_leb_lex_le. by apply H2.
Qed.

(** X7.  When several eligible records of a duration-typed group share the
    least score, the one that comes first in the filtered input is
    emitted: the sort is stable and its first element is taken. *)
Theorem duration_tie_selects_earliest
    (data : Data) (metric_name : string) (filings results : list Filing)
    (year : Z) (first : Filing) (rest : list Filing) (f : Filing) :
  lookup_filings data metric_name = Ok filings ->
  extract_metric data metric_name = ([], Ok results) ->
  filter (fun a => fy a = Some year) (filter is_annual filings) = first :: rest ->
  is_Some (start first) ->
  f ∈ emitted year results ->
  emitted year results = [f] /\ first_least_choice year (first :: rest) f.
Proof.
  intros Hl He Hg Hs Hf.
  pose proof (extract_metric_quiet _ _ _ _ Hl He) as Hr.
  destruct (resolve_filings_year _ _ _ _ _ Hr Hg) as (r & Hy & Hem).
  rewrite Hem in Hf |- *. destruct r as [f'|]; simpl in Hf; [|by apply elem_of_nil in Hf].
  apply list_elem_of_singleton in Hf as ->. split; [done|].
  rewrite resolve_year_duration in Hy by done.
  by apply resolve_duration_first_least.
Qed.

Lemma duration_tie_selects_earliest_witness :
  emitted 2019 [duration_filing 2019 "2019-01-01" "2019-12-31" "2020-02-10" 341]
  = [duration_filing 2019 "2019-01-01" "2019-12-31" "2020-02-10" 341]
  /\ first_least_choice 2019 net_income_tie
       (duration_filing 2019 "2019-01-01" "2019-12-31" "2020-02-10" 341).
Proof.
  apply (duration_tie_selects_earliest
           (data_of [("NetIncomeLoss"%string, net_income_tie)]) "NetIncomeLoss"
           net_income_tie
           [duration_filing 2019 "2019-01-01" "2019-12-31" "2020-02-10" 341] 2019
           (duration_filing 2019 "2019-01-01" "2019-12-31" "2020-02-10" 341)
           [duration_filing 2019 "2019-01-01" "2019-12-31" "2021-02-10" 350]).
  - vm_compute. reflexivity.
  - vm_compute. reflexivity.
  - vm_compute. reflexivity.
  - eexists. reflexivity.
  - vm_compute. by left.
Defined.

(** ** Order of the input *)

Lemma elem_of_years_of_group annual y :
  y ∈ years_of annual <-> group_of y annual <> [].
Proof.
  rewrite elem_of_years_of. split.
  - intros (f & Hf & Hy) Hnil.
    assert (f ∈ group_of y annual) as Hin by (by apply elem_of_group_of).
    rewrite Hnil in Hin. by apply elem_of_nil in Hin.
  - intros Hne. destruct (group_of y annual) as [|f l] eqn:Hg; [done|].
    assert (f ∈ group_of y annual) as Hin by (rewrite Hg; by left).
    apply elem_of_group_of in Hin as [? ?]. by exists f.
Qed.

(** X8.  The result depends on the input only through the annual records
    of each fiscal year, in their order: records that are not annual and
    the way the fiscal years are interleaved in the input do not matter. *)
Theorem result_depends_on_the_groups_only
    (data data' : Data) (metric_name : string) (filings filings' : list Filing) :
  lookup_filings data metric_name = Ok filings ->
  lookup_filings data' metric_name = Ok filings' ->
  (Forall (fun f => is_Some (fy f)) (annual_of filings)
   <-> Forall (fun f => is_Some (fy f)) (annual_of filings')) ->
  (forall y, group_of y (annual_of filings) = group_of y (annual_of filings')) ->
  extract_metric data metric_name = extract_metric data' metric_name.
Proof.
  intros Hl Hl' Hfy Hg. unfold extract_metric, extract_metric_try.
  rewrite Hl, Hl'. simpl. f_equal.
  destruct (decide (Forall (fun f => is_Some (fy f)) (annual_of filings))) as [H|H].
  - rewrite (resolve_filings_seq filings), (resolve_filings_seq filings')
      by (done || by apply Hfy).
    assert (years_of (annual_of filings) = years_of (annual_of filings')) as ->.
    { apply StronglySorted_lt_ext; [apply years_of_sorted..|].
      intros y. by rewrite !elem_of_years_of_group, Hg. }
    apply resolve_seq_ext. intros y _. apply Hg.
  - rewrite (resolve_filings_no_fy filings), (resolve_filings_no_fy filings');
      [done|by rewrite <- Hfy|done].
Qed.

Lemma result_depends_on_the_groups_only_witness :
  extract_metric (data_of [("NetIncomeLoss"%string, net_income_filings)]) "NetIncomeLoss"
  = extract_metric (data_of [("NetIncomeLoss"%string, net_income_shuffled)]) "NetIncomeLoss".
Proof.
  apply (result_depends_on_the_groups_only _ _ _ net_income_filings net_income_shuffled).
  - vm_compute. reflexivity.
  - vm_compute. reflexivity.
  - split; intros _; apply (bool_decide_unpack _); vm_compute; exact I.
  - intros y.
    assert (y = 2019 \/ y = 2020 \/ y = 2021 \/ (y <> 2019 /\ y <> 2020 /\ y <> 2021))
      as [->|[->|[->|(H1 & H2 & H3)]]] by lia; [vm_compute; reflexivity..|].
    transitivity (@nil Filing); [|symmetry];
      apply filter_nil_intro; intros f Hf Hy;
      vm_compute in Hf;
      repeat (apply elem_of_cons in Hf as [->|Hf]; [simpl in Hy; congruence|]);
      by apply elem_of_nil in Hf.
Defined.

(** ** [display_net_income] *)

Lemma display_loop_stop prev good bad rest rows :
  display_loop prev good = (rows, None) ->
  fy bad = None \/ val bad = None ->
  display_loop prev (good ++ bad :: rest)
  = (rows, Some (KeyError (match fy bad with Some _ => "val" | None => "fy" end))).
Proof.
  intros Hgood Hbad. revert prev rows Hgood.
  induction good as [|f good IH]; intros prev rows; simpl.
  - intros [= <-]. destruct (fy bad) as [y|]; simpl; [|done].
    by destruct Hbad as [[=]| ->].
  - destruct (fy f) as [year|]; simpl; [|done].
    destruct (val f) as [v|]; simpl; [|done].
    destruct (print_row prev year v) as [row|e]; [|done].
    destruct (display_loop (Some (number_of_json v)) good) as [rows' e'] eqn:Hd.
    simpl. intros [= <- ->]. by rewrite (IH _ _ Hd).
Qed.

(** X9.  The table is printed line by line: when a record lacks its fiscal
    year or its value, and the records before it are printable, their lines
    have been printed, the [KeyError] of the missing key (the fiscal year
    is read first) leaves the function, and the records after it are not
    looked at. *)
Theorem display_stops_at_first_incomplete_record
    (good : list Filing) (bad : Filing) (rest : list Filing) :
  Forall printable good ->
  fy bad = None \/ val bad = None ->
  exists rows,
    display_net_income good = (rows, None)
    /\ length rows = length good
    /\ display_net_income (good ++ bad :: rest)
       = (rows, Some (KeyError (match fy bad with Some _ => "val" | None => "fy" end))).
Proof.
  intros Hall Hbad. unfold display_net_income.
  destruct (display_loop_printable None good Hall) as (rows & Hrows & Hlen); [done|].
  exists rows. split; [done|]. split; [done|]. by apply display_loop_stop.
Qed.

Lemma display_stops_at_first_incomplete_record_witness :
  exists rows,
    display_net_income [duration_filing 2019 "2018-12-30" "2019-12-29" "2020-02-10" 341]
    = (rows, None)
    /\ length rows = 1%nat
    /\ display_net_income
         ([duration_filing 2019 "2018-12-30" "2019-12-29" "2020-02-10" 341]
          ++ {| form := Some "10-K"%string; fp := Some "FY"%string; fy := Some 2020;
                start := None; end_ := None; filed := None; val := None |}
          :: [duration_filing 2021 "2020-10-01" "2021-09-30" "2021-11-15" 3162])
       = (rows, Some (KeyError "val")).
Proof.
  apply (display_stops_at_first_incomplete_record
           [duration_filing 2019 "2018-12-30" "2019-12-29" "2020-02-10" 341]
           {| form := Some "10-K"%string; fp := Some "FY"%string; fy := Some 2020;
              start := None; end_ := None; filed := None; val := None |}
           [duration_filing 2021 "2020-10-01" "2021-09-30" "2021-11-15" 3162]).
  - repeat constructor; [eexists; reflexivity|].
    exists 341. split; [reflexivity|]. apply Z.leb_le. vm_compute. reflexivity.
  - right. reflexivity.
Defined.

(** X10.  The growth shown for an entry has the sign of the change from
    the entry before it, also when the earlier value is negative: the
    change is divided by the absolute value.  The float is negative exactly
    when the value fell and zero exactly when it did not change, and the
    printed figure starts with [-] exactly when the value fell. *)
Theorem growth_sign_follows_the_change
    (filings : list Filing) (i : nat) (f0 f : Filing) (p v : Z) :
  Forall printable filings ->
  filings !! i = Some f0 -> val f0 = Some (inject_Z p) -> p <> 0 ->
  filings !! S i = Some f -> val f = Some (inject_Z v) ->
  exists rows row g,
    display_net_income filings = (rows, None)
    /\ rows !! S i = Some row
    /\ row_growth row = Some (FFin (v <? p) g)
    /\ (0 <= g)%Q
    /\ ((g == 0)%Q <-> v = p)
    /\ row_growth_str row
       = ((if (v <? p)%Z then "-" else "+") +:+ format_1f g +:+ "%")%string.
Proof.
  intros Hall Hi Hp Hnz HSi Hv. unfold display_net_income.
  destruct (display_loop_printable None filings Hall) as (rows & Hd & Hlen); [done|].
  destruct (lookup_lt_is_Some_2 rows (S i)) as [row Hr].
  { rewrite Hlen. by eapply lookup_lt_Some. }
  assert ((display_loop None filings).1 !! S i = Some row) as Hrow by (by rewrite Hd).
  destruct (display_loop_rows _ _ _ _ Hrow) as (f' & year & v' & Hf' & Hy & Hv' & Hpr).
  rewrite HSi in Hf'. injection Hf' as <-. rewrite Hv in Hv'. injection Hv' as <-.
  assert (prev_val_at filings (S i) = Some (inject_Z p)) as Hprev
    by (simpl; by rewrite Hi).
  rewrite Hprev in Hpr. simpl in Hpr. rewrite number_of_json_int in Hpr.
  rewrite Forall_forall in Hall.
  assert (Z.abs v <= 2 ^ 1000) as Hvb.
  { destruct (Hall f) as (_ & n & Hn & Hb); [by eapply list_elem_of_lookup_2|].
    rewrite Hv in Hn. injection Hn as ->. done. }
  assert (Z.abs p <= 2 ^ 1000) as Hpb.
  { destruct (Hall f0) as (_ & n & Hn & Hb); [by eapply list_elem_of_lookup_2|].
    rewrite Hp in Hn. injection Hn as ->. done. }
  destruct (print_row_int (Some (PyInt p)) year v Hvb) as (row' & Hrow' & Hg).
  { intros q [= <-]. by exists p. }
  rewrite Hpr in Hrow'. injection Hrow' as <-.
  assert ((p =? 0) = false) as Hp0 by (by apply Z.eqb_neq). rewrite Hp0 in Hg.
  destruct Hg as (g & _ & Hg & Hg0 & Hgz & _).
  exists rows, row, g. split; [done|]. split; [done|]. split; [done|].
  split; [done|]. split; [done|].
  apply print_row_Ok in Hpr as (growth & _ & ->). simpl in Hg |- *. by rewrite Hg.
Qed.

Lemma growth_sign_follows_the_change_witness :
  exists rows row g,
    display_net_income
      [duration_filing 2019 "2018-12-30" "2019-12-29" "2020-02-10" (-341);
       duration_filing 2020 "2019-12-29" "2020-12-26" "2021-02-10" (-100)]
    = (rows, None)
    /\ rows !! 1%nat = Some row
    /\ row_growth row = Some (FFin (-100 <? -341) g)
    /\ (0 <= g)%Q
    /\ ((g == 0)%Q <-> -100 = -341)
    /\ row_growth_str row
       = ((if (-100 <? -341)%Z then "-" else "+") +:+ format_1f g +:+ "%")%string.
Proof.
  apply (growth_sign_follows_the_change
           [duration_filing 2019 "2018-12-30" "2019-12-29" "2020-02-10" (-341);
            duration_filing 2020 "2019-12-29" "2020-12-26" "2021-02-10" (-100)]
           0%nat
           (duration_filing 2019 "2018-12-30" "2019-12-29" "2020-02-10" (-341))
           (duration_filing 2020 "2019-12-29" "2020-12-26" "2021-02-10" (-100))
           (-341) (-100)).
  - repeat constructor; try (eexists; reflexivity).
    + exists (-341). split; [reflexivity|]. apply Z.leb_le. vm_compute. reflexivity.
    + exists (-100). split; [reflexivity|]. apply Z.leb_le. vm_compute. reflexivity.
  - reflexivity.
  - reflexivity.
  - discriminate.
  - reflexivity.
  - reflexivity.
Defined.

(** The line of a record does not depend on its year, the year column
    apart. *)
Lemma print_row_figures prev y1 y2 v :
  match print_row prev y1 v, print_row prev y2 v with
  | Ok r1, Ok r2 => row_figures r1 = row_figures r2
  | Raise e1, Raise e2 => e1 = e2
  | _, _ => False
  end.
Proof.
  unfold print_row.
  destruct (py_truediv _ _) as [val_b|e]; [|done].
  cbn [mbind result_mbind result_bind].
  by destruct (growth_of prev (number_of_json v)) as [growth|e].
Qed.

Lemma display_loop_figures prev l1 l2 :
  Forall (fun f => is_Some (fy f)) l1 ->
  Forall (fun f => is_Some (fy f)) l2 ->
  val <$> l1 = val <$> l2 ->
  row_figures <$> (display_loop prev l1).1 = row_figures <$> (display_loop prev l2).1
  /\ (display_loop prev l1).2 = (display_loop prev l2).2.
Proof.
  intros H1. revert prev l2.
  induction H1 as [|f1 l1 [y1 Hy1] _ IH]; intros prev l2 H2 Hv.
  - symmetry in Hv. apply fmap_nil_inv in Hv as ->. done.
  - destruct l2 as [|f2 l2]; [done|]. simpl in Hv. injection Hv as Hv Hvs.
    apply Forall_cons in H2 as [[y2 Hy2] H2]. simpl.
    rewrite Hy1, Hy2, Hv. simpl. destruct (val f2) as [v|]; simpl; [|done].
    pose proof (print_row_figures prev y1 y2 v) as Hrow.
    destruct (print_row prev y1 v) as [r1|e1], (print_row prev y2 v) as [r2|e2];
      [|done|done|by subst].
    destruct (IH (Some (number_of_json v)) l2 H2 Hvs) as [IH1 IH2].
    destruct (display_loop (Some (number_of_json v)) l1),
      (display_loop (Some (number_of_json v)) l2).
    simpl in *. split; [by f_equal|done].
Qed.

(** X11.  The growth column compares each entry with the entry printed
    before it, whatever their fiscal years are: two lists reporting the
    same values for different years give the same values, statuses and
    growth figures, so a fiscal year left out of the list does not show
    in the growth. *)
Theorem growth_ignores_the_fiscal_years (l1 l2 : list Filing) :
  Forall (fun f => is_Some (fy f)) l1 ->
  Forall (fun f => is_Some (fy f)) l2 ->
  val <$> l1 = val <$> l2 ->
  row_figures <$> (display_net_income l1).1 = row_figures <$> (display_net_income l2).1
  /\ (display_net_income l1).2 = (display_net_income l2).2.
Proof. apply display_loop_figures. Qed.

Lemma growth_ignores_the_fiscal_years_witness :
  row_figures <$> (display_net_income net_income_results).1
  = row_figures <$> (display_net_income net_income_results_gap).1
  /\ (display_net_income net_income_results).2
     = (display_net_income net_income_results_gap).2.
Proof.
  apply (growth_ignores_the_fiscal_years net_income_results net_income_results_gap).
  - repeat constructor; eexists; reflexivity.
  - repeat constructor; eexists; reflexivity.
  - reflexivity.
Defined.

(** ** [combine_metrics] *)

Lemma frames_of_nil data metrics :
  frames_of data metrics = Ok []
  <-> Forall (fun m => (extract_metric data m.2).2 = Ok []) metrics.
Proof.
  induction metrics as [|[name concept] rest IH]; simpl.
  - split; [by constructor|done].
  - split.
    + intros H. apply bind_Ok in H as (results & Hr & H).
      apply bind_Ok in H as (dfs & Hd & H).
      apply bind_Ok in H as (dfs' & Hd' & [= Happ]).
      apply app_eq_nil in Happ as [-> ->]. constructor; [|by apply IH].
      simpl. destruct results as [|f l]; [done|].
      by apply bind_Ok in Hd as (df & _ & [=]).
    + intros H. apply Forall_cons in H as [H1 H2]. simpl in H1. rewrite H1. simpl.
      apply IH in H2. by rewrite H2.
Qed.

Lemma combine_metrics_None data metrics :
  combine_metrics data metrics = Ok None
  <-> Forall (fun m => (extract_metric data m.2).2 = Ok []) metrics.
Proof.
  rewrite <- frames_of_nil. unfold combine_metrics. split.
  - intros H. apply bind_Ok in H as (dfs & Hd & H). by destruct dfs.
  - intros ->. done.
Qed.

(** X12.  [combine_metrics] returns [None] exactly when every metric
    resolves to the empty list; a metric whose extraction printed an error
    counts as empty. *)
Theorem combine_metrics_none_iff (data : Data) (metrics : list (string * string)) :
  combine_metrics data metrics = Ok None
  <-> Forall (fun m => exists out, extract_metric data m.2 = (out, Ok [])) metrics.
Proof.
  rewrite combine_metrics_None. apply Forall_iff. intros [name concept]. simpl.
  destruct (extract_metric data concept) as [out r]. simpl. split.
  - intros ->. by exists out.
  - by intros [out' [= _ ->]].
Qed.

Lemma entries_of_fst data metrics :
  (entries_of data metrics).*1 = metrics_with_records data metrics.
Proof.
  induction metrics as [|[name concept] rest IH]; [done|].
  rewrite entries_of_cons. unfold metrics_with_records in *. simpl.
  destruct (extract_metric data concept).2 as [[|f l]|e]; simpl; [done| |done].
  f_equal. exact IH.
Qed.

Lemma combine_metrics_entries data metrics df :
  combine_metrics data metrics = Ok (Some df) -> entries_of data metrics <> [].
Proof.
  unfold combine_metrics. intros H. apply bind_Ok in H as (dfs & Hd & H).
  destruct dfs as [|df0 dfs]; [done|]. apply frames_of_Ok in Hd.
  intros Hnil. rewrite Hnil in Hd. by apply Forall2_nil_cons_inv in Hd.
Qed.

Lemma combined_years_ascending data metrics df :
  combine_metrics data metrics = Ok (Some df) -> StronglySorted Z.lt (rows df).*1.
Proof.
  intros H. destruct (combine_metrics_table _ _ _ H) as (_ & _ & Hr).
  rewrite Hr, table_rows_keys. apply union_years_sorted.
Qed.

Lemma combined_rows_nonempty data metrics df :
  combine_metrics data metrics = Ok (Some df) -> rows df <> [].
Proof.
  intros H. pose proof (combine_metrics_entries _ _ _ H) as Hne.
  destruct (combine_metrics_table _ _ _ H) as (Hc & Hlen & Hr).
  destruct (entries_of data metrics) as [|[name results] es] eqn:He; [done|].
  assert ((name, results) ∈ entries_of data metrics) as Hin by (rewrite He; by left).
  pose proof (entries_of_ascending data metrics) as Hasc.
  rewrite Forall_forall in Hasc. destruct (Hasc _ Hin) as (ys & Hys & _).
  apply elem_of_entries_of in Hin as [Hres _]. simpl in Hys.
  destruct results as [|f l]; [done|]. destruct ys as [|y ys]; [done|].
  assert (y ∈ union_years (entries_of data metrics).*2) as Hy.
  { apply elem_of_union_years. exists (f :: l). split.
    - rewrite He. simpl. by left.
    - rewrite Hys. simpl. by left. }
  rewrite He in Hy. rewrite Hr. unfold table_rows.
  destruct (union_years _); [by apply elem_of_nil in Hy|done].
Qed.

(** X13.  A table [combine_metrics] returns has the columns of the metrics
    that have records, in the order of the metrics; it has at least one
    row; its fiscal years are strictly ascending, so each year has one row;
    and every row has one cell for each column. *)
Theorem combined_table_shape
    (data : Data) (metrics : list (string * string)) (df : DataFrame) :
  combine_metrics data metrics = Ok (Some df) ->
  columns df = metrics_with_records data metrics
  /\ rows df <> []
  /\ StronglySorted Z.lt (rows df).*1
  /\ Forall (fun r => length r.2 = length (columns df)) (rows df).
Proof.
  intros H. destruct (combine_metrics_table _ _ _ H) as (Hc & Hlen & Hr).
  split; [by rewrite Hc, entries_of_fst|]. split; [|split].
  - by eapply combined_rows_nonempty.
  - by eapply combined_years_ascending.
  - rewrite Hr, Hc, Hlen. unfold table_rows. apply Forall_forall.
    intros r Hin. apply list_elem_of_fmap in Hin as (y & -> & _). simpl.
    by rewrite length_fmap.
Qed.

Lemma combined_table_shape_witness :
  columns margin_table = metrics_with_records margin_data METRICS
  /\ rows margin_table <> []
  /\ StronglySorted Z.lt (rows margin_table).*1
  /\ Forall (fun r => length r.2 = length (columns margin_table)) (rows margin_table).
Proof.
  apply (combined_table_shape margin_data METRICS margin_table).
  vm_compute. reflexivity.
Defined.

Lemma combined_cell data metrics df name concept results r :
  combine_metrics data metrics = Ok (Some df) ->
  NoDup metrics.*1 ->
  (name, concept) ∈ metrics ->
  (extract_metric data concept).2 = Ok results ->
  results <> [] ->
  r ∈ rows df ->
  (forall f, f ∈ results -> fy f = Some r.1 -> cell df name r = cell_of_val (val f))
  /\ (Some r.1 ∉ fy <$> results -> cell df name r = NaN).
Proof.
  intros H Hnd Hm He Hne Hr.
  assert (cell df name r = series_cell results r.1) as ->.
  { apply (cell_table (entries_of data metrics).*1 (entries_of data metrics).*2);
      [by apply combine_metrics_table|by apply entries_of_names| |done].
    rewrite zip_fst_snd. apply elem_of_entries_of. split; [done|]. by exists concept. }
  split.
  - intros f Hf Hy. apply series_cell_present; [|done..].
    destruct (extract_metric data concept) as [out res] eqn:Hx. simpl in He. subst res.
    by eapply extract_metric_NoDup.
  - apply series_cell_absent.
Qed.

(** X14.  A cell of the combined table is the value the metric's record
    for the fiscal year of the row has, when the values of the metric are
    whole numbers of magnitude at most [2^53], which a column holds exactly
    whether it is of integers or of float64; it is [NaN] when the metric
    has no record for that year (or the record has no value), never
    zero. *)
Theorem combined_cell_is_value_or_nan
    (data : Data) (metrics : list (string * string)) (df : DataFrame)
    (name concept : string) (results : list Filing) (r : Z * list number) :
  combine_metrics data metrics = Ok (Some df) ->
  NoDup metrics.*1 ->
  (name, concept) ∈ metrics ->
  (extract_metric data concept).2 = Ok results ->
  results <> [] ->
  exact_values results ->
  r ∈ rows df ->
  (forall f, f ∈ results -> fy f = Some r.1 -> cell df name r = cell_of_val (val f))
  /\ (Some r.1 ∉ fy <$> results -> cell df name r = NaN).
Proof. intros H Hnd Hm He Hne _. by eapply combined_cell. Qed.

Lemma combined_cell_is_value_or_nan_witness :
  (forall f, f ∈ revenue_series -> fy f = Some 2019 ->
     cell margin_table "revenue" (2019, [Finite 341; NaN]) = cell_of_val (val f))
  /\ (Some 2019 ∉ fy <$> revenue_series ->
      cell margin_table "revenue" (2019, [Finite 341; NaN]) = NaN).
Proof.
  apply (combined_cell_is_value_or_nan margin_data METRICS margin_table "revenue"
           "RevenueFromContractWithCustomerExcludingAssessedTax" revenue_series
           (2019, [Finite 341; NaN])).
  - vm_compute. reflexivity.
  - apply (bool_decide_unpack _). vm_compute. exact I.
  - apply (bool_decide_unpack _). vm_compute. exact I.
  - vm_compute. reflexivity.
  - discriminate.
  - repeat constructor; intros v [= <-].
    + exists 9763. split; [reflexivity|]. apply Z.leb_le. reflexivity.
    + exists 16434. split; [reflexivity|]. apply Z.leb_le. reflexivity.
    + exists 23601. split; [reflexivity|]. apply Z.leb_le. reflexivity.
  - by left.
Defined.

(** X15.  An exception that leaves [extract_metric] for one metric leaves
    [combine_metrics] too: no table is built from the metrics that did
    resolve. *)
Theorem combine_metrics_propagates_errors
    (data : Data) (before : list (string * string)) (name concept : string)
    (after : list (string * string)) (e : exn) :
  Forall (fun m => resolves_with_values data m.2) before ->
  (extract_metric data concept).2 = Raise e ->
  combine_metrics data (before ++ (name, concept) :: after) = Raise e.
Proof.
  intros Hb He. unfold combine_metrics.
  assert (frames_of data (before ++ (name, concept) :: after) = Raise e) as ->; [|done].
  induction Hb as [|[n c] before (out & results & Hx & Hv) Hb IH]; simpl.
  - by rewrite He.
  - simpl in Hx. rewrite Hx. simpl. destruct results as [|f l]; simpl.
    + by rewrite IH.
    + destruct Hv as [|Hv]; [done|].
      destruct (extract_metric_ascending _ _ _ _ Hx) as (ys & Hys & _).
      destruct (to_frame_Ok n _ ys Hys Hv) as (rs & -> & _). simpl.
      by rewrite IH.
Qed.

Lemma combine_metrics_propagates_errors_witness :
  combine_metrics malformed_revenue_data
    ([("net_income"%string, "NetIncomeLoss"%string)]
     ++ ("revenue"%string,
         "RevenueFromContractWithCustomerExcludingAssessedTax"%string)
     :: [("assets"%string, "Assets"%string)])
  = Raise (ValueError "2020-13-45").
Proof.
  apply (combine_metrics_propagates_errors malformed_revenue_data).
  - constructor; [|constructor].
    eexists _, _. split; [vm_compute; reflexivity|].
    right. apply Exists_cons_hd. eexists. reflexivity.
  - vm_compute. reflexivity.
Defined.

(** ** [display_summary] *)

(** X16.  The margins block of [display_summary] on a combined table has
    one line for each of the last rows, five at most: the lines are in
    ascending order of fiscal year, and every fiscal year of the table
    that has no line is earlier than every year that has one. *)
Theorem margins_cover_the_latest_years
    (data : Data) (metrics : list (string * string)) (df : DataFrame)
    (lines : list (Z * number)) :
  combine_metrics data metrics = Ok (Some df) ->
  display_summary_margins df = Some lines ->
  length lines = Nat.min 5 (length (rows df))
  /\ StronglySorted Z.lt lines.*1
  /\ (forall y y', y ∈ (rows df).*1 -> y ∉ lines.*1 -> y' ∈ lines.*1 -> y < y').
Proof.
  intros H Hd. pose proof (combined_years_ascending _ _ _ H) as Hs.
  unfold display_summary_margins in Hd.
  destruct (_ && _); [|done]. injection Hd as <-.
  assert (((fun row => (row.1, margin df row)) <$> df_tail 5 df).*1
          = drop (length (rows df) - 5) (rows df).*1) as Hk.
  { unfold df_tail. rewrite <- list_fmap_compose, fmap_drop. done. }
  rewrite Hk. split; [|split].
  - rewrite length_fmap. unfold df_tail. rewrite length_drop. lia.
  - rewrite <- (take_drop (length (rows df) - 5) (rows df).*1) in Hs.
    by apply StronglySorted_app_1_r in Hs.
  - intros y y' Hy Hny Hy'.
    rewrite <- (take_drop (length (rows df) - 5) (rows df).*1) in Hs, Hy.
    apply elem_of_app in Hy as [Hy|Hy]; [|done].
    by eapply StronglySorted_app_1_elem_of.
Qed.

Lemma margins_cover_the_latest_years_witness :
  length (default [] (display_summary_margins long_table))
  = Nat.min 5 (length (rows long_table))
  /\ StronglySorted Z.lt (default [] (display_summary_margins long_table)).*1
  /\ (forall y y', y ∈ (rows long_table).*1 ->
        y ∉ (default [] (display_summary_margins long_table)).*1 ->
        y' ∈ (default [] (display_summary_margins long_table)).*1 -> y < y').
Proof.
  apply (margins_cover_the_latest_years long_data METRICS long_table).
  - vm_compute. reflexivity.
  - vm_compute. reflexivity.
Defined.

(** ** Charts *)

Lemma elem_of_chart_data T name y c :
  (y, c) ∈ chart_data T name
  <-> exists r, r ∈ rows T /\ y = r.1 /\ c = cell T name r /\ c <> NaN.
Proof.
  unfold chart_data. rewrite list_elem_of_In, filter_In, <- list_elem_of_In.
  rewrite list_elem_of_fmap. simpl. split.
  - intros [(r & [= -> ->] & Hr) Hn]. exists r. repeat split; [done|].
    intros Hc. by rewrite Hc in Hn.
  - intros (r & Hr & -> & -> & Hn). split; [by exists r|]. by destruct (cell T name r).
Qed.

Lemma chart_data_sorted T name :
  StronglySorted Z.lt (rows T).*1 -> StronglySorted Z.lt (chart_data T name).*1.
Proof.
  unfold chart_data. induction (rows T) as [|r rs IH]; simpl; [constructor|].
  intros Hs. apply StronglySorted_inv in Hs as [Hs Hr].
  destruct (negb (is_nan (cell T name r))); simpl; [|by apply IH].
  constructor; [by apply IH|]. rewrite Forall_forall in Hr |- *.
  intros k Hk. apply list_elem_of_fmap in Hk as ([y c] & -> & Hk).
  apply list_elem_of_In, filter_In in Hk as [Hk _].
  apply list_elem_of_In, list_elem_of_fmap in Hk as (r' & [= -> ->] & Hr').
  simpl. apply Hr. by apply (list_elem_of_fmap_2 fst).
Qed.

Lemma cell_tail_frame n df name r : cell (tail_frame n df) name r = cell df name r.
Proof. done. Qed.

Lemma metric_column data metrics df name concept results :
  combine_metrics data metrics = Ok (Some df) ->
  (name, concept) ∈ metrics ->
  (extract_metric data concept).2 = Ok results -> results <> [] ->
  name ∈ columns df.
Proof.
  intros H Hm He Hne. destruct (combine_metrics_table _ _ _ H) as (-> & _).
  apply list_elem_of_fmap. exists (name, results). split; [done|].
  apply elem_of_entries_of. split; [done|]. by exists concept.
Qed.

Lemma tail_chart_data data metrics df name concept results n y c :
  combine_metrics data metrics = Ok (Some df) ->
  NoDup metrics.*1 ->
  (name, concept) ∈ metrics ->
  (extract_metric data concept).2 = Ok results -> results <> [] ->
  (y, c) ∈ chart_data (tail_frame n df) name
  <-> y ∈ (df_tail n df).*1
      /\ exists f v, f ∈ results /\ fy f = Some y /\ val f = Some v /\ c = Finite v.
Proof.
  intros H Hnd Hm He Hne. rewrite elem_of_chart_data. simpl. split.
  - intros (r & Hr & -> & -> & Hn). split; [by apply list_elem_of_fmap_2|].
    rewrite cell_tail_frame in Hn |- *.
    destruct (combined_cell data metrics df name concept results r)
      as [Hpresent Habsent]; [done..|by eapply elem_of_df_tail|].
    destruct (decide (Some r.1 ∈ fy <$> results)) as [Hy|Hy];
      [|by rewrite Habsent in Hn].
    apply list_elem_of_fmap in Hy as (f & Hy & Hf). symmetry in Hy.
    rewrite (Hpresent f Hf Hy) in Hn |- *.
    destruct (val f) as [v|] eqn:Hv; [|done]. by exists f, v.
  - intros [Hy (f & v & Hf & Hfy & Hv & ->)].
    apply list_elem_of_fmap in Hy as (r & -> & Hr). exists r.
    rewrite cell_tail_frame.
    destruct (combined_cell data metrics df name concept results r)
      as [Hpresent _]; [done..|by eapply elem_of_df_tail|].
    rewrite (Hpresent f Hf Hfy), Hv. done.
Qed.

Lemma tail_chart_years data metrics df name concept results n y :
  combine_metrics data metrics = Ok (Some df) ->
  NoDup metrics.*1 ->
  (name, concept) ∈ metrics ->
  (extract_metric data concept).2 = Ok results -> results <> [] ->
  y ∈ (chart_data (tail_frame n df) name).*1
  <-> y ∈ (df_tail n df).*1
      /\ exists f, f ∈ results /\ fy f = Some y /\ is_Some (val f).
Proof.
  intros H Hnd Hm He Hne. rewrite list_elem_of_fmap. split.
  - intros ([y' c] & -> & Hin). simpl.
    eapply tail_chart_data in Hin as [Hy (f & v & Hf & Hfy & Hv & _)]; [|done..].
    split; [done|]. exists f. by rewrite Hv.
  - intros [Hy (f & Hf & Hfy & [v Hv])]. exists (y, Finite v). split; [done|].
    eapply tail_chart_data; [done..|]. split; [done|]. by exists f, v.
Qed.

(** X17.  The chart of a metric on the combined table, or on its last [n]
    rows, has a point for exactly the fiscal years of those rows for which
    the metric has a record with a value, in ascending order of year:
    dropping the missing values undoes the padding of the outer join.  No
    chart is made exactly when no such record exists.  When the values of
    the metric are whole numbers of magnitude at most [2^53], the points
    plotted are these records' values. *)
Theorem chart_points_are_the_metric_values
    (data : Data) (metrics : list (string * string)) (df : DataFrame)
    (name concept : string) (results : list Filing) (n : nat) :
  combine_metrics data metrics = Ok (Some df) ->
  NoDup metrics.*1 ->
  (name, concept) ∈ metrics ->
  (extract_metric data concept).2 = Ok results -> results <> [] ->
  (forall y,
      y ∈ (chart_data (tail_frame n df) name).*1
      <-> y ∈ (df_tail n df).*1
          /\ exists f, f ∈ results /\ fy f = Some y /\ is_Some (val f))
  /\ StronglySorted Z.lt (chart_data (tail_frame n df) name).*1
  /\ (plot_points (tail_frame n df) name = None
      <-> forall f y, f ∈ results -> fy f = Some y -> is_Some (val f) ->
            y ∉ (df_tail n df).*1)
  /\ (exact_values results ->
      forall y c,
        (y, c) ∈ chart_data (tail_frame n df) name
        <-> y ∈ (df_tail n df).*1
            /\ exists f v, f ∈ results /\ fy f = Some y /\ val f = Some v
                           /\ c = Finite v).
Proof.
  intros H Hnd Hm He Hne. split; [|split; [|split]].
  - intros y. by eapply tail_chart_years.
  - apply chart_data_sorted. simpl. unfold df_tail. rewrite fmap_drop.
    pose proof (combined_years_ascending _ _ _ H) as Hs.
    rewrite <- (take_drop (length (rows df) - n) (rows df).*1) in Hs.
    by apply StronglySorted_app_1_r in Hs.
  - unfold plot_points. simpl.
    rewrite bool_decide_true by (by eapply metric_column).
    split.
    + intros Hp f y Hf Hy [v Hv] Hin.
      assert ((y, Finite v) ∈ chart_data (tail_frame n df) name) as Hc.
      { eapply tail_chart_data; [done..|]. split; [done|]. by exists f, v. }
      destruct (chart_data (tail_frame n df) name); [|done]. by apply elem_of_nil in Hc.
    + intros Hno. destruct (chart_data (tail_frame n df) name) as [|[y c] l] eqn:Hc; [done|].
      assert ((y, c) ∈ chart_data (tail_frame n df) name) as Hin by (rewrite Hc; by left).
      eapply tail_chart_data in Hin as [Hy (f & v & Hf & Hfy & Hv & _)]; [|done..].
      exfalso. by eapply (Hno f y).
  - intros _ y c. by eapply tail_chart_data.
Qed.

Lemma chart_points_are_the_metric_values_witness :
  (forall y,
      y ∈ (chart_data (tail_frame 10 long_table) "assets").*1
      <-> y ∈ (df_tail 10 long_table).*1
          /\ exists f, f ∈ long_assets /\ fy f = Some y /\ is_Some (val f))
  /\ StronglySorted Z.lt (chart_data (tail_frame 10 long_table) "assets").*1
  /\ (plot_points (tail_frame 10 long_table) "assets" = None
      <-> forall f y, f ∈ long_assets -> fy f = Some y -> is_Some (val f) ->
            y ∉ (df_tail 10 long_table).*1)
  /\ (exact_values long_assets ->
      forall y c,
        (y, c) ∈ chart_data (tail_frame 10 long_table) "assets"
        <-> y ∈ (df_tail 10 long_table).*1
            /\ exists f v, f ∈ long_assets /\ fy f = Some y /\ val f = Some v
                           /\ c = Finite v).
Proof.
  apply (chart_points_are_the_metric_values long_data METRICS long_table
           "assets" "Assets" long_assets 10).
  - vm_compute. reflexivity.
  - apply (bool_decide_unpack _). vm_compute. exact I.
  - apply (bool_decide_unpack _). vm_compute. exact I.
  - vm_compute. reflexivity.
  - vm_compute. discriminate.
Defined.

(** ** The report of [analyze] *)

(** X18.  [analyze] reports [No financial data available] exactly when
    none of the three metrics has a record; a table [combine_metrics]
    returns is never empty, so the second test of the condition never
    decides. *)
Theorem analyze_reports_no_data_iff (data : Data) :
  analyze_report data = Ok (ReportError "No financial data available")
  <-> Forall (fun m => exists out, extract_metric data m.2 = (out, Ok [])) METRICS.
Proof.
  assert (Forall (fun m => exists out, extract_metric data m.2 = (out, Ok [])) METRICS
          <-> combine_metrics data METRICS = Ok None) as ->.
  { rewrite combine_metrics_None. apply Forall_iff. intros [name concept]. simpl.
    destruct (extract_metric data concept) as [out r]. simpl. split.
    - by intros [out' [= _ ->]].
    - intros ->. by exists out. }
  unfold analyze_report. split.
  - intros H. apply bind_Ok in H as (r & Hc & H). destruct r as [df|]; [|done].
    pose proof (combined_rows_nonempty _ _ _ Hc). by destruct (rows df).
  - intros ->. done.
Qed.

Lemma chart_title_metrics m m' :
  m ∈ ["revenue"; "net_income"; "assets"]%string ->
  m' ∈ ["revenue"; "net_income"; "assets"]%string ->
  chart_title m = chart_title m' -> m = m'.
Proof.
  intros Hm Hm'.
  repeat (apply elem_of_cons in Hm as [->|Hm]);
    repeat (apply elem_of_cons in Hm' as [->|Hm']);
    try (by apply elem_of_nil in Hm); try (by apply elem_of_nil in Hm');
    vm_compute; congruence.
Qed.

Lemma METRICS_names m concept :
  (m, concept) ∈ METRICS -> m ∈ ["revenue"; "net_income"; "assets"]%string.
Proof.
  intros H. repeat (apply elem_of_cons in H as [[= -> ->]|H]); [in_list..|].
  by apply elem_of_nil in H.
Qed.

Lemma METRICS_concept m c c' : (m, c) ∈ METRICS -> (m, c') ∈ METRICS -> c = c'.
Proof.
  intros H H'.
  repeat (apply elem_of_cons in H as [[= -> ->]|H]);
    try (by apply elem_of_nil in H);
    repeat (apply elem_of_cons in H' as [[= <-]|H']);
    try (by apply elem_of_nil in H'); done.
Qed.

Lemma METRICS_NoDup : NoDup METRICS.*1.
Proof. apply (bool_decide_unpack _). vm_compute. exact I. Qed.

(** X19.  The page of [analyze] shows the last ten rows of the combined
    table at most, and charts in the order Revenue, Net Income, Assets.  A
    metric has a chart exactly when one of its records with a value falls
    in the fiscal years of those rows, and the chart has a point for
    exactly the years of these records: a metric whose records are all
    older has a column in the table but no chart.  When the values of the
    metric are whole numbers of magnitude at most [2^53], the points
    plotted are these records' values. *)
Theorem analyze_report_page
    (data : Data) (table : DataFrame) (charts : list (string * list (Z * number))) :
  analyze_report data = Ok (ReportPage table charts) ->
  exists df,
    combine_metrics data METRICS = Ok (Some df)
    /\ columns table = columns df
    /\ rows table = df_tail 10 df
    /\ length (rows table) = Nat.min 10 (length (rows df))
    /\ charts.*1 `sublist_of` ["Revenue"; "Net Income"; "Assets"]%string
    /\ forall metric concept results,
         (metric, concept) ∈ METRICS ->
         (extract_metric data concept).2 = Ok results ->
         (forall points, (chart_title metric, points) ∈ charts ->
            points <> []
            /\ (forall y, y ∈ points.*1
                  <-> y ∈ (rows table).*1
                      /\ exists f, f ∈ results /\ fy f = Some y /\ is_Some (val f))
            /\ (exact_values results ->
                forall y c, (y, c) ∈ points
                  <-> y ∈ (rows table).*1
                      /\ exists f v, f ∈ results /\ fy f = Some y /\ val f = Some v
                                     /\ c = Finite v))
         /\ ((exists points, (chart_title metric, points) ∈ charts)
             <-> exists f y, f ∈ results /\ fy f = Some y /\ is_Some (val f)
                            /\ y ∈ (rows table).*1).
Proof.
  unfold analyze_report. intros H. apply bind_Ok in H as (r & Hc & H).
  destruct r as [df|]; [|done]. destruct (rows df) as [|r0 rs] eqn:Hrows; [done|].
  injection H as <- Hch. symmetry in Hch.
  exists df. split; [done|]. split; [done|]. split; [done|].
  split; [unfold tail_frame, df_tail; cbn [rows]; rewrite length_drop; lia|].
  set (recent := tail_frame 10 df).
  set (g := chart_of recent).
  assert (forall m t p, g m = Some (t, p) ->
            t = chart_title m /\ m ∈ columns df /\ p <> []
            /\ p = chart_data recent m) as Hg.
  { intros m t p. unfold g, chart_of, plot_points.
    destruct (bool_decide (m ∈ columns recent)) eqn:Hm; [|done].
    apply bool_decide_eq_true in Hm.
    destruct (chart_data recent m) as [|q qs]; [done|]. simpl. by intros [= <- <-]. }
  assert (charts = omap g ["revenue"; "net_income"; "assets"]%string) as Hch'
    by exact Hch.
  clear Hch. rename Hch' into Hch. split.
  - rewrite Hch. simpl.
    destruct (g "revenue"%string) as [[t1 p1]|] eqn:H1;
      [apply Hg in H1 as [-> _]|];
      (destruct (g "net_income"%string) as [[t2 p2]|] eqn:H2;
         [apply Hg in H2 as [-> _]|]);
      (destruct (g "assets"%string) as [[t3 p3]|] eqn:H3;
         [apply Hg in H3 as [-> _]|]);
      simpl; repeat constructor.
  - intros metric concept results Hm He.
    assert (forall points, (chart_title metric, points) ∈ charts ->
              g metric = Some (chart_title metric, points)) as Hin.
    { intros points Hp. rewrite Hch in Hp. apply list_elem_of_omap in Hp as (m & Hmem & Hgm).
      destruct (Hg _ _ _ Hgm) as (Ht & _).
      apply chart_title_metrics in Ht; [by subst|by eapply METRICS_names|done]. }
    assert (metric ∈ columns df -> results <> []) as Hres.
    { intros Hcol. destruct (combine_metrics_table _ _ _ Hc) as (Hcols & _).
      rewrite Hcols in Hcol. apply list_elem_of_fmap in Hcol as ([n res] & Heq & Hent).
      simpl in Heq. subst n.
      apply elem_of_entries_of in Hent as (Hne & concept' & Hm' & He').
      assert (concept' = concept) as -> by (by eapply METRICS_concept).
      rewrite He in He'. by injection He' as ->. }
    split.
    + intros points Hp. apply Hin in Hp. destruct (Hg _ _ _ Hp) as (_ & Hcol & Hne & ->).
      split; [done|]. split.
      * intros y.
        apply (tail_chart_years data METRICS df metric concept results 10);
          [done|apply METRICS_NoDup|done..|by apply Hres].
      * intros _ y c.
        apply (tail_chart_data data METRICS df metric concept results 10);
          [done|apply METRICS_NoDup|done..|by apply Hres].
    + split.
      * intros [points Hp]. apply Hin in Hp.
        destruct (Hg _ _ _ Hp) as (_ & Hcol & Hne & ->).
        destruct (chart_data recent metric) as [|[y c] l] eqn:Hcd; [done|].
        assert ((y, c) ∈ chart_data recent metric) as Hyc by (rewrite Hcd; by left).
        apply (tail_chart_data data METRICS df metric concept results 10) in Hyc
          as [Hy (f & v & Hf & Hfy & Hv & _)];
          [|done|apply METRICS_NoDup|done..|by apply Hres].
        exists f, y. by rewrite Hv.
      * intros (f & y & Hf & Hfy & [v Hv] & Hy).
        assert (results <> []) as Hne by (intros ->; by apply elem_of_nil in Hf).
        assert ((y, Finite v) ∈ chart_data recent metric) as Hyc.
        { apply (tail_chart_data data METRICS df metric concept results 10);
            [done|apply METRICS_NoDup|done..|]. split; [done|]. by exists f, v. }
        exists (chart_data recent metric). rewrite Hch. apply list_elem_of_omap.
        exists metric. split; [by eapply METRICS_names|].
        unfold g, chart_of, plot_points. simpl.
        rewrite bool_decide_true by (by eapply metric_column).
        destruct (chart_data recent metric); [by apply elem_of_nil in Hyc|done].
Qed.

Lemma analyze_report_page_witness :
  exists df,
    combine_metrics long_data METRICS = Ok (Some df)
    /\ columns (tail_frame 10 long_table) = columns df
    /\ rows (tail_frame 10 long_table) = df_tail 10 df
    /\ length (rows (tail_frame 10 long_table)) = Nat.min 10 (length (rows df))
    /\ long_charts.*1 `sublist_of` ["Revenue"; "Net Income"; "Assets"]%string
    /\ forall metric concept results,
         (metric, concept) ∈ METRICS ->
         (extract_metric long_data concept).2 = Ok results ->
         (forall points, (chart_title metric, points) ∈ long_charts ->
            points <> []
            /\ (forall y, y ∈ points.*1
                  <-> y ∈ (rows (tail_frame 10 long_table)).*1
                      /\ exists f, f ∈ results /\ fy f = Some y /\ is_Some (val f))
            /\ (exact_values results ->
                forall y c, (y, c) ∈ points
                  <-> y ∈ (rows (tail_frame 10 long_table)).*1
                      /\ exists f v, f ∈ results /\ fy f = Some y /\ val f = Some v
                                     /\ c = Finite v))
         /\ ((exists points, (chart_title metric, points) ∈ long_charts)
             <-> exists f y, f ∈ results /\ fy f = Some y /\ is_Some (val f)
                            /\ y ∈ (rows (tail_frame 10 long_table)).*1).
Proof.
  apply (analyze_report_page long_data (tail_frame 10 long_table) long_charts).
  vm_compute. reflexivity.
Defined.

(** ** [fetch_company_facts]: the padding of the CIK *)

Lemma length_zeros n : String.length (zeros n) = n.
Proof. induction n as [|n IH]; simpl; by rewrite ?IH. Qed.

Lemma string_app_cons c s1 s2 : (String c s1 +:+ s2 = String c (s1 +:+ s2))%string.
Proof. reflexivity. Qed.

Lemma string_app_nil_l s : ("" +:+ s = s)%string.
Proof. reflexivity. Qed.

Lemma length_string_app s1 s2 :
  String.length (s1 +:+ s2) = (String.length s1 + String.length s2)%nat.
Proof.
  induction s1 as [|c s1 IH]; [done|].
  rewrite string_app_cons. simpl. by rewrite IH.
Qed.

Lemma string_app_assoc s1 s2 s3 : ((s1 +:+ s2) +:+ s3 = s1 +:+ (s2 +:+ s3))%string.
Proof.
  induction s1 as [|c s1 IH]; [done|]. by rewrite !string_app_cons, IH.
Qed.

Lemma string_app_nil_r s : (s +:+ "" = s)%string.
Proof.
  induction s as [|c s IH]; [done|]. by rewrite string_app_cons, IH.
Qed.

Lemma zeros_add a b : (zeros (a + b) = zeros a +:+ zeros b)%string.
Proof.
  induction a as [|a IH]; [done|]. simpl. by rewrite string_app_cons, IH.
Qed.

(** Padding a string that does not start with a sign. *)
Lemma zfill_unsigned width s :
  (forall c r, s = String c r -> c <> "+"%char /\ c <> "-"%char) ->
  zfill width s = (zeros (width - String.length s) +:+ s)%string.
Proof.
  intros Hs. unfold zfill. destruct (decide (width <= String.length s)%nat) as [H|H].
  - by replace (width - String.length s)%nat with 0%nat by lia.
  - destruct s as [|c r]; [by rewrite string_app_nil_r|].
    destruct (Hs c r eq_refl) as [H1 H2].
    rewrite bool_decide_false; [done|]. by intros [?|?].
Qed.

Lemma digits_unsigned s c r :
  digits s = true -> s = String c r -> c <> "+"%char /\ c <> "-"%char.
Proof.
  intros Hd ->. simpl in Hd. apply andb_true_iff in Hd as [Hd _].
  split; intros ->; by vm_compute in Hd.
Qed.

Lemma zeros_digits k s : digits s = true -> digits (zeros k +:+ s) = true.
Proof.
  intros Hs. induction k as [|k IH]; [done|].
  change (zeros (S k)) with (String "0" (zeros k)).
  rewrite string_app_cons. cbn [digits]. by rewrite IH.
Qed.

(** X20.  The CIK is padded to ten digits before the request: a CIK
    written with or without leading zeros gives the same request, and the
    padded CIK of a CIK of at most ten digits has ten characters. *)
Theorem leading_zeros_do_not_change_the_request
    (get : string -> string -> option Data) (cik email : string) (k : nat) :
  digits cik = true ->
  (k + String.length cik <= 10)%nat ->
  fetch_company_facts get (zeros k +:+ cik) email = fetch_company_facts get cik email
  /\ String.length (zfill 10 cik) = 10%nat.
Proof.
  intros Hd Hk.
  assert (zfill 10 (zeros k +:+ cik) = zfill 10 cik) as Hz.
  { rewrite (zfill_unsigned 10 cik) by (intros c r; by apply digits_unsigned).
    rewrite (zfill_unsigned 10 (zeros k +:+ cik))
      by (intros c r; apply digits_unsigned; by apply zeros_digits).
    rewrite length_string_app, length_zeros, <- string_app_assoc, <- zeros_add.
    do 2 f_equal. lia. }
  split.
  - unfold fetch_company_facts, company_facts_url. by rewrite Hz.
  - rewrite zfill_unsigned by (intros c r; by apply digits_unsigned).
    rewrite length_string_app, length_zeros. lia.
Qed.

Lemma leading_zeros_do_not_change_the_request_witness :
  fetch_company_facts (fun _ _ => Some sample_data) (zeros 6 +:+ "2488") "student@university.edu"
  = fetch_company_facts (fun _ _ => Some sample_data) "2488" "student@university.edu"
  /\ String.length (zfill 10 "2488") = 10%nat.
Proof.
  apply (leading_zeros_do_not_change_the_request
           (fun _ _ => Some sample_data) "2488" "student@university.edu" 6).
  - reflexivity.
  - simpl. lia.
Defined.

(** ** [display_net_income] after [extract_metric] *)

Lemma display_loop_years prev filings :
  Forall (fun f => is_Some (fy f)) filings ->
  exists n,
    Some <$> (row_year <$> (display_loop prev filings).1) = fy <$> take n filings
    /\ ((display_loop prev filings).2 = None
        /\ Forall (fun f => is_Some (val f)) filings
        /\ n = length filings
        \/ (display_loop prev filings).2 = Some (KeyError "val")
           /\ ~ Forall (fun f => is_Some (val f)) filings
        \/ (display_loop prev filings).2 = Some OverflowError).
Proof.
  intros Hall. revert prev.
  induction Hall as [|f filings [y Hy] _ IH]; intros prev.
  - exists 0%nat. split; [done|]. left. by repeat split.
  - simpl. rewrite Hy. simpl. destruct (val f) as [v|] eqn:Hv; simpl.
    + destruct (print_row prev y v) as [row|e] eqn:Hrow.
      * apply print_row_Ok in Hrow as (growth & _ & ->).
        destruct (IH (Some (number_of_json v))) as (n & Hn & Hcase).
        destruct (display_loop (Some (number_of_json v)) filings) as [rows e].
        simpl in Hn, Hcase. exists (S n). simpl. rewrite Hy. split; [by f_equal|].
        destruct Hcase as [(He & Hval & ->)|[[He Hval]|He]].
        -- left. split; [done|]. split; [|done]. constructor; [by rewrite Hv|done].
        -- right. left. split; [done|]. intros H. apply Forall_cons in H as [_ H]. done.
        -- by do 2 right.
      * apply print_row_Raise in Hrow as ->. exists 0%nat. split; [done|]. by do 2 right.
    + exists 0%nat. split; [done|]. right. left. split; [done|].
      intros H. apply Forall_cons in H as [[v' H] _]. by rewrite Hv in H.
Qed.

(** X21.  Printing what [extract_metric] returned: the lines come in
    strictly ascending order of fiscal year.  A [KeyError] for the fiscal
    year cannot occur: the only exceptions possible are the [KeyError] of a
    record without value and the [OverflowError] of a value too large for
    a float.  When every record has a whole value of magnitude at most
    [2^1000] there is no exception, and without exception every record has
    its line. *)
Theorem display_of_an_extraction
    (data : Data) (metric_name : string) (out : list line) (results : list Filing) :
  extract_metric data metric_name = (out, Ok results) ->
  StronglySorted Z.lt (row_year <$> (display_net_income results).1)
  /\ ((display_net_income results).2 = None
      \/ (display_net_income results).2 = Some (KeyError "val")
      \/ (display_net_income results).2 = Some OverflowError)
  /\ ((display_net_income results).2 = None ->
      Forall (fun f => is_Some (val f)) results
      /\ length (display_net_income results).1 = length results)
  /\ ((display_net_income results).2 = Some (KeyError "val") ->
      ~ Forall (fun f => is_Some (val f)) results)
  /\ (Forall (fun f => exists n, val f = Some (inject_Z n) /\ Z.abs n <= 2 ^ 1000)
        results ->
      (display_net_income results).2 = None).
Proof.
  intros He. destruct (extract_metric_ascending _ _ _ _ He) as (ys & Hys & Hsorted).
  assert (Forall (fun f => is_Some (fy f)) results) as Hfy.
  { apply Forall_forall. intros f Hf.
    assert (fy f ∈ fy <$> results) as Hin by (by apply list_elem_of_fmap_2).
    rewrite Hys in Hin. apply list_elem_of_fmap in Hin as (y & -> & _). by eexists. }
  unfold display_net_income.
  destruct (display_loop_years None results Hfy) as (n & Hn & Hcase).
  split; [|split; [|split; [|split]]].
  - assert (row_year <$> (display_loop None results).1 = take n ys) as ->.
    { apply (inj (fmap Some)). by rewrite Hn, !fmap_take, Hys. }
    rewrite <- (take_drop n ys) in Hsorted. by apply StronglySorted_app_1_l in Hsorted.
  - destruct Hcase as [(H1 & _)|[[H1 _]|H1]]; auto.
  - intros Hnone. destruct Hcase as [(H1 & H2 & ->)|[[H1 _]|H1]]; [|congruence..].
    split; [done|]. rewrite firstn_all in Hn.
    rewrite <- (length_fmap row_year), <- (length_fmap Some), Hn. by rewrite length_fmap.
  - intros Hkey. destruct Hcase as [(H1 & _)|[[_ H2]|H1]]; [congruence|done|congruence].
  - intros Hvals.
    destruct (display_loop_printable None results) as (rows & -> & _); [|done..].
    apply Forall_forall. intros f Hf. rewrite Forall_forall in Hfy, Hvals.
    split; [by apply Hfy|by apply Hvals].
Qed.

Lemma display_of_an_extraction_witness :
  StronglySorted Z.lt (row_year <$> (display_net_income net_income_results).1)
  /\ ((display_net_income net_income_results).2 = None
      \/ (display_net_income net_income_results).2 = Some (KeyError "val")
      \/ (display_net_income net_income_results).2 = Some OverflowError)
  /\ ((display_net_income net_income_results).2 = None ->
      Forall (fun f => is_Some (val f)) net_income_results
      /\ length (display_net_income net_income_results).1 = length net_income_results)
  /\ ((display_net_income net_income_results).2 = Some (KeyError "val") ->
      ~ Forall (fun f => is_Some (val f)) net_income_results)
  /\ (Forall (fun f => exists n, val f = Some (inject_Z n) /\ Z.abs n <= 2 ^ 1000)
        net_income_results ->
      (display_net_income net_income_results).2 = None).
Proof.
  apply (display_of_an_extraction sample_data "NetIncomeLoss" []).
  vm_compute. reflexivity.
Defined.

(** ** Extracting from an extraction *)

Lemma resolve_seq_singletons g results ys acc :
  Forall2 (fun f y => g y = [f] /\ resolve_year y [f] = Ok (Some f)) results ys ->
  resolve_seq g ys acc = Ok (acc ++ results).
Proof.
  intros H. revert acc. induction H as [|f y results ys [Hg Hr] _ IH]; intros acc; simpl.
  - by rewrite app_nil_r.
  - rewrite Hg, Hr. simpl. rewrite IH. by rewrite <- app_assoc.
Qed.

Lemma resolve_year_again filings results y f :
  one_kind_per_year (annual_of filings) ->
  resolve_filings filings = Ok results ->
  f ∈ results -> fy f = Some y ->
  resolve_year y [f] = Ok (Some f).
Proof.
  intros Hkind Hr Hf Hy.
  destruct (resolve_seq_elem_of _ _ _ _ (resolve_filings_Ok _ _ Hr) Hf) as (z & _ & Hz).
  pose proof (group_of_fy _ _ _ Hz) as Hfz. rewrite Hy in Hfz. injection Hfz as <-.
  destruct (group_of y (annual_of filings)) as [|first rest] eqn:Hg;
    [by apply elem_of_nil in Hz|].
  destruct (resolve_filings_year _ _ _ _ _ Hr Hg) as (r & Hry & Hem).
  assert (f ∈ emitted y results) as Hfe by (by apply list_elem_of_filter).
  rewrite Hem in Hfe. destruct r as [f'|]; simpl in Hfe; [|by apply elem_of_nil in Hfe].
  apply list_elem_of_singleton in Hfe as <-.
  destruct (start first) as [s|] eqn:Hs.
  - rewrite resolve_year_duration in Hry by (by rewrite Hs).
    apply resolve_duration_spec in Hry as (_ & Hel & _).
    pose proof Hel as (start_d & end_d & Hp & _).
    assert (is_Some (start f)) as Hsf.
    { unfold period in Hp. destruct (start f); [by eexists|done]. }
    rewrite resolve_year_duration by done.
    unfold resolve_duration. simpl.
    rewrite (candidate_of_period _ _ _ Hp).
    assert (passes y (start_d, end_d) = true) as -> by (by eapply passes_eligible).
    done.
  - assert (start f = None) as Hsf.
    { apply elem_of_cons in Hz as [->|Hz]; [done|].
      pose proof (Hkind y first rest Hg Hs) as Hrest.
      rewrite Forall_forall in Hrest. by apply Hrest. }
    rewrite resolve_year_instant in Hry by done.
    pose proof (resolve_instant_filed_keys _ _ Hry) as Hfiled.
    rewrite Forall_forall in Hfiled. destruct (Hfiled f Hz) as [d Hd].
    rewrite resolve_year_instant by done.
    unfold resolve_instant. simpl. by rewrite Hd.
Qed.

Lemma resolve_filings_again filings results :
  one_kind_per_year (annual_of filings) ->
  resolve_filings filings = Ok results ->
  resolve_filings results = Ok results.
Proof.
  intros Hkind Hr.
  assert (exists ys, fy <$> results = Some <$> ys /\ StronglySorted Z.lt ys)
    as (ys & Hys & Hsorted) by (by eapply resolve_filings_ascending).
  assert (Forall is_annual results) as Hann.
  { apply Forall_forall. intros f Hf.
    destruct (resolve_seq_elem_of _ _ _ _ (resolve_filings_Ok _ _ Hr) Hf) as (z & _ & Hz).
    apply elem_of_group_of in Hz as [_ Hz]. by apply elem_of_annual_of in Hz as [? _]. }
  assert (annual_of results = results) as Hsame.
  { unfold annual_of. clear -Hann. induction Hann as [|f l Hf _ IH]; [done|].
    rewrite filter_cons_True by done. by rewrite IH. }
  assert (NoDup (fy <$> results)) as Hnd.
  { rewrite Hys. apply (NoDup_fmap_2 Some). by apply StronglySorted_lt_NoDup. }
  rewrite resolve_filings_seq; rewrite Hsame.
  2:{ apply Forall_forall. intros f Hf.
      assert (fy f ∈ fy <$> results) as Hin by (by apply list_elem_of_fmap_2).
      rewrite Hys in Hin. apply list_elem_of_fmap in Hin as (y & -> & _). by eexists. }
  assert (years_of results = ys) as ->.
  { apply StronglySorted_lt_ext; [apply years_of_sorted|done|].
    intros y. rewrite elem_of_years_of. split.
    - intros (f & Hf & Hy).
      assert (fy f ∈ fy <$> results) as Hin by (by apply list_elem_of_fmap_2).
      rewrite Hys, Hy in Hin. by apply list_elem_of_fmap in Hin as (y' & [= <-] & ?).
    - intros Hy.
      assert (Some y ∈ fy <$> results) as Hin by (rewrite Hys; by apply list_elem_of_fmap_2).
      apply list_elem_of_fmap in Hin as (f & ? & ?). by exists f. }
  apply (resolve_seq_singletons _ results ys []).
  apply Forall2_same_length_lookup_2.
  { by rewrite <- (length_fmap fy results), Hys, length_fmap. }
  intros i f y Hf Hy.
  assert (fy f = Some y) as Hfy.
  { assert ((fy <$> results) !! i = Some (fy f)) as H1 by (by rewrite list_lookup_fmap, Hf).
    rewrite Hys, list_lookup_fmap, Hy in H1. by injection H1. }
  assert (f ∈ results) as Hin by (by eapply list_elem_of_lookup_2).
  split.
  - by apply (emitted_unique y results f).
  - by eapply resolve_year_again.
Qed.

(** X22.  Extracting again from the extracted list changes nothing: when
    the annual records of each fiscal year are of one kind (all with a
    start date or none), the list [extract_metric] returned is returned
    unchanged when it is given as the USD filings of a concept. *)
Theorem extraction_is_idempotent
    (data data' : Data) (metric_name metric_name' : string)
    (filings : list Filing) (out : list line) (results : list Filing) :
  lookup_filings data metric_name = Ok filings ->
  one_kind_per_year (annual_of filings) ->
  extract_metric data metric_name = (out, Ok results) ->
  lookup_filings data' metric_name' = Ok results ->
  extract_metric data' metric_name' = ([], Ok results).
Proof.
  intros Hl Hkind He Hl'. unfold extract_metric, extract_metric_try. rewrite Hl'. simpl.
  assert (resolve_filings results = Ok results) as ->; [|done].
  unfold extract_metric, extract_metric_try in He. rewrite Hl in He. simpl in He.
  destruct (resolve_filings filings) as [rs|e] eqn:Hr; simpl in He.
  - injection He as <- <-. by eapply resolve_filings_again.
  - destruct (caught e); [|done]. by injection He as <- <-.
Qed.

Lemma extraction_is_idempotent_witness :
  extract_metric (data_of [("NetIncomeLoss"%string, net_income_results)]) "NetIncomeLoss"
  = ([], Ok net_income_results).
Proof.
  apply (extraction_is_idempotent sample_data _ "NetIncomeLoss" "NetIncomeLoss"
           net_income_filings []).
  - vm_compute. reflexivity.
  - intros y first rest Hg Hs. exfalso.
    assert (first ∈ group_of y (annual_of net_income_filings)) as Hf
      by (rewrite Hg; by left).
    apply elem_of_group_of in Hf as [_ Hf]. vm_compute in Hf.
    repeat (apply elem_of_cons in Hf as [->|Hf]; [discriminate|]).
    by apply elem_of_nil in Hf.
  - vm_compute. reflexivity.
  - vm_compute. reflexivity.
Defined.

(** ** Charts of the whole table *)

Lemma column_has_a_value data metrics df name :
  combine_metrics data metrics = Ok (Some df) ->
  NoDup metrics.*1 ->
  name ∈ columns df ->
  (exists r q, r ∈ rows df /\ cell df name r = Finite q)
  /\ exists p ps, plot_points df name = Some (p :: ps).
Proof.
  intros H Hnd Hcol.
  destruct (combine_metrics_table _ _ _ H) as (Hcols & _ & Hrows).
  pose proof Hcol as Hcol'. rewrite Hcols in Hcol'.
  apply list_elem_of_fmap in Hcol' as ([n results] & Heq & Hent).
  simpl in Heq. subst n. pose proof Hent as Hent'.
  apply elem_of_entries_of in Hent' as (Hne & concept & Hm & He).
  assert (exists F, to_frame name results = Ok F) as [F HF].
  { unfold combine_metrics in H. apply bind_Ok in H as (dfs & Hd & _).
    apply frames_of_Ok in Hd.
    apply list_elem_of_lookup in Hent as [i Hi].
    destruct (Forall2_lookup_l _ _ _ _ _ Hd Hi) as (F & _ & HF). by exists F. }
  assert (exists f v, f ∈ results /\ val f = Some v) as (f & v & Hf & Hv).
  { unfold to_frame in HF. apply bind_Ok in HF as (rs & _ & HF).
    destruct (forallb _ results) eqn:Hall; [done|].
    apply not_true_iff_false in Hall. rewrite forallb_forall in Hall.
    destruct (decide (Exists (fun f => is_Some (val f)) results)) as [Hex|Hex].
    - apply Exists_exists in Hex as (f & Hf & [v Hv]). by exists f, v.
    - exfalso. apply Hall. intros f Hf. apply bool_decide_eq_true.
      destruct (val f) as [v|] eqn:Hv; [|done]. exfalso. apply Hex.
      apply Exists_exists. exists f. split; [by apply list_elem_of_In|by rewrite Hv]. }
  destruct (extract_metric data concept) as [out res] eqn:Hx. simpl in He. subst res.
  destruct (extract_metric_ascending _ _ _ _ Hx) as (ys & Hys & _).
  assert (exists y, fy f = Some y) as [y Hy].
  { assert (fy f ∈ fy <$> results) as Hin by (by apply list_elem_of_fmap_2).
    rewrite Hys in Hin. apply list_elem_of_fmap in Hin as (y & -> & _). by eexists. }
  assert (y ∈ (rows df).*1) as Hrow.
  { rewrite Hrows, table_rows_keys. apply elem_of_union_years. exists results.
    split; [by apply (list_elem_of_fmap_2 snd) in Hent|].
    rewrite <- Hy. by apply list_elem_of_fmap_2. }
  apply list_elem_of_fmap in Hrow as (r & -> & Hr).
  assert (cell df name r = Finite v) as Hcell.
  { destruct (combined_cell data metrics df name concept results r) as [Hpresent _];
      [done|done|done|by rewrite Hx|done|done|].
    by rewrite (Hpresent f Hf Hy), Hv. }
  split; [by exists r, v|].
  unfold plot_points. rewrite bool_decide_true by done.
  assert ((r.1, Finite v) ∈ chart_data df name) as Hin.
  { apply elem_of_chart_data. exists r. by rewrite Hcell. }
  destruct (chart_data df name) as [|p ps]; [by apply elem_of_nil in Hin|by eexists _, _].
Qed.

(** X23.  Every column of the table [combine_metrics] returns holds at
    least one value: a metric none of whose records has a value makes
    [combine_metrics] fail instead.  So a chart of a column of the whole
    table always has a point, and the return of [plot_metric] for an empty
    selection is not taken there. *)
Theorem every_column_has_a_value
    (data : Data) (metrics : list (string * string)) (df : DataFrame) (name : string) :
  combine_metrics data metrics = Ok (Some df) ->
  NoDup metrics.*1 ->
  name ∈ columns df ->
  (exists r q, r ∈ rows df /\ cell df name r = Finite q)
  /\ exists p ps, plot_points df name = Some (p :: ps).
Proof. apply column_has_a_value. Qed.

Lemma every_column_has_a_value_witness :
  (exists r q, r ∈ rows long_table /\ cell long_table "assets" r = Finite q)
  /\ exists p ps, plot_points long_table "assets" = Some (p :: ps).
Proof.
  apply (every_column_has_a_value long_data METRICS long_table "assets").
  - vm_compute. reflexivity.
  - apply (bool_decide_unpack _). vm_compute. exact I.
  - apply (bool_decide_unpack _). vm_compute. exact I.
Defined.

(** X24.  The dashboard drawn from the combined table has a panel for each
    requested metric that is a column, in the order requested, and no
    dashboard is drawn exactly when none is.  Each panel has at least one
    point and shows what [plot_metric] charts for that metric. *)
Theorem dashboard_panels
    (data : Data) (metrics : list (string * string)) (df : DataFrame)
    (requested : list string) :
  combine_metrics data metrics = Ok (Some df) ->
  NoDup metrics.*1 ->
  (create_dashboard df requested = None
   <-> forall m, m ∈ requested -> m ∉ columns df)
  /\ forall panels,
       create_dashboard df requested = Some panels ->
       panels.*1 = filter (fun m => m ∈ columns df) requested
       /\ Forall (fun p => p.2 <> [] /\ plot_points df p.1 = Some p.2) panels.
Proof.
  intros H Hnd. unfold create_dashboard. split.
  - destruct (filter _ requested) as [|m ms] eqn:Hf.
    + split; [|done]. intros _ m Hm Hcol.
      assert (m ∈ filter (fun m => m ∈ columns df) requested) as Hin
        by (by apply list_elem_of_filter).
      rewrite Hf in Hin. by apply elem_of_nil in Hin.
    + split; [done|]. intros Hno. exfalso.
      assert (m ∈ filter (fun m => m ∈ columns df) requested) as Hin
        by (rewrite Hf; by left).
      apply list_elem_of_filter in Hin as [Hcol Hm]. by apply (Hno m).
  - intros panels Hp.
    assert (panels = (fun m => (m, chart_data df m))
                       <$> filter (fun m => m ∈ columns df) requested) as ->.
    { destruct (filter _ requested); [done|]. by injection Hp as <-. }
    split.
    + rewrite <- list_fmap_compose. apply list_fmap_id.
    + apply Forall_fmap, Forall_forall. intros m Hm. simpl.
      apply list_elem_of_filter in Hm as [Hcol _].
      destruct (column_has_a_value _ _ _ _ H Hnd Hcol) as (_ & p & ps & Hplot).
      unfold plot_points in Hplot |- *. rewrite bool_decide_true in Hplot |- * by done.
      destruct (chart_data df m); [done|]. done.
Qed.

Lemma dashboard_panels_witness :
  (create_dashboard long_table ["revenue"; "net_income"; "assets"; "equity"]%string = None
   <-> forall m, m ∈ ["revenue"; "net_income"; "assets"; "equity"]%string ->
         m ∉ columns long_table)
  /\ forall panels,
       create_dashboard long_table ["revenue"; "net_income"; "assets"; "equity"]%string
       = Some panels ->
       panels.*1 = filter (fun m => m ∈ columns long_table)
                     ["revenue"; "net_income"; "assets"; "equity"]%string
       /\ Forall (fun p => p.2 <> [] /\ plot_points long_table p.1 = Some p.2) panels.
Proof.
  apply (dashboard_panels long_data METRICS long_table).
  - vm_compute. reflexivity.
  - apply (bool_decide_unpack _). vm_compute. exact I.
Defined.
